(** * Authentication and session core of the AniGhar server

    A shallow embedding of the authentication route (register, login,
    logout, refresh-token), the [protect] middleware and the token-bearing
    part of the [User] model, followed by the properties of the
    specification that concern them.

    Conventions of the embedding:
    - a MongoDB collection is a finite map from [_id] to stored record, so
      the primary-key uniqueness of [_id] is structural; the unique index on
      [email] is checked by [insertOne];
    - a JSON Web Token is a symbolic value: either an arbitrary string that
      does not parse as a token, or a payload together with the secret that
      signed it;
    - a bcrypt hash is symbolic too: the cost, the salt and the key that
      was hashed (the first 72 bytes that bcrypt reads);
    - an async handler is a computation in a state-and-exception monad over
      the [World] (collection, clock, ObjectId and salt generators); effects
      performed before a [throw] are kept, as in JavaScript;
    - a string is the sequence of its UTF-8 bytes; [trim] strips the white
      space of ECMAScript, [toLowerCase] is computed on strings of ASCII
      characters and left to the engine's Unicode tables on the others. *)

From stdpp Require Import gmap strings list fin_maps.
From Stdlib Require Import Ascii ZArith.

Local Open Scope string_scope.

(** ** JavaScript strings *)

Module Js.

(** White space ([WhiteSpace] and [LineTerminator] of ECMAScript, which is
    also the class [\s] of a regular expression), by the UTF-8 bytes of each
    character. One byte: TAB, LF, VT, FF, CR and SP. *)
Definition is_space (c : ascii) : bool :=
  let n := Ascii.N_of_ascii c in
  (bool_decide (n = 32) || bool_decide (9 <= n <= 13))%N.

(** Two bytes: U+00A0. *)
Definition is_space2 (a b : ascii) : bool :=
  (bool_decide (Ascii.N_of_ascii a = 194) && bool_decide (Ascii.N_of_ascii b = 160))%N.

(** Three bytes: U+1680, U+2000 to U+200A, U+2028, U+2029, U+202F, U+205F,
    U+3000 and U+FEFF. *)
Definition is_space3 (a b c : ascii) : bool :=
  let x := Ascii.N_of_ascii a in
  let y := Ascii.N_of_ascii b in
  let z := Ascii.N_of_ascii c in
  (bool_decide (x = 225 /\ y = 154 /\ z = 128)
   || bool_decide (x = 226 /\ y = 128 /\
                   (128 <= z <= 138 \/ z = 168 \/ z = 169 \/ z = 175))
   || bool_decide (x = 226 /\ y = 129 /\ z = 159)
   || bool_decide (x = 227 /\ y = 128 /\ z = 128)
   || bool_decide (x = 239 /\ y = 187 /\ z = 191))%N.

(** Whether a string starts with a white space character. *)
Definition starts_with_space (s : string) : bool :=
  match s with
  | EmptyString => false
  | String a r1 =>
      is_space a ||
      match r1 with
      | EmptyString => false
      | String b r2 =>
          is_space2 a b ||
          match r2 with
          | EmptyString => false
          | String c _ => is_space3 a b c
          end
      end
  end.

(** Strips the leading white space, for a reading of the two- and
    three-byte characters that is given: forwards for [trimStart],
    backwards for [trimEnd]. *)
Fixpoint strip (sp2 : ascii -> ascii -> bool) (sp3 : ascii -> ascii -> ascii -> bool)
    (s : string) : string :=
  match s with
  | EmptyString => EmptyString
  | String a r1 =>
      if is_space a then strip sp2 sp3 r1
      else
        match r1 with
        | EmptyString => s
        | String b r2 =>
            if sp2 a b then strip sp2 sp3 r2
            else
              match r2 with
              | EmptyString => s
              | String c r3 => if sp3 a b c then strip sp2 sp3 r3 else s
              end
        end
  end.

Definition trimStart (s : string) : string := strip is_space2 is_space3 s.

Definition trimEnd (s : string) : string :=
  String.rev (strip (fun a b => is_space2 b a) (fun a b c => is_space3 c b a)
                (String.rev s)).

(** [String.prototype.trim]; the [trim()] sanitizer of express-validator
    strips the same characters. *)
Definition trim (s : string) : string := trimEnd (trimStart s).

Definition lower_ascii (c : ascii) : ascii :=
  let n := Ascii.N_of_ascii c in
  if bool_decide (65 <= n <= 90)%N then Ascii.ascii_of_N (n + 32) else c.

Fixpoint toLowerCase_ascii (s : string) : string :=
  match s with
  | EmptyString => EmptyString
  | String c r => String (lower_ascii c) (toLowerCase_ascii r)
  end.

(** Whether every character of a string is an ASCII character. *)
Fixpoint is_ascii (s : string) : bool :=
  match s with
  | EmptyString => true
  | String c r => bool_decide (Ascii.N_of_ascii c < 128)%N && is_ascii r
  end.

(** What the JavaScript engine brings along: the lower-case mapping of its
    Unicode tables, consulted for a string that holds a character outside
    ASCII. Nothing is assumed about it. *)
Class Engine := { toLowerCase_unicode : string -> string }.

(** [String.prototype.toLowerCase]: on a string of ASCII characters only
    the letters A to Z change. *)
Definition toLowerCase {engine : Engine} (s : string) : string :=
  if is_ascii s then toLowerCase_ascii s else toLowerCase_unicode s.

(** Truthiness of a string value: only the empty string is falsy. *)
Definition truthy (s : string) : bool := negb (bool_decide (s = "")).

(** Truthiness of [process.env.X]: unset or empty is falsy. *)
Definition env_truthy (v : option string) : bool :=
  match v with Some s => truthy s | None => false end.

End Js.

(** ** Errors and the handler monad *)

(** A JavaScript [Error]: the handlers branch on [name] and on [message]. *)
Record Error := mkError { name : string; message : string }.

Inductive outcome (A : Type) : Type :=
| Ok (a : A)
| Throw (e : Error).
Arguments Ok {A} a.
Arguments Throw {A} e.

(** ** The [ms] time-span parser and jsonwebtoken *)

Module Ms.

Definition digit (c : ascii) : option Z :=
  let n := Ascii.N_of_ascii c in
  if bool_decide (48 <= n <= 57)%N then Some (Z.of_N n - 48)%Z else None.

(** Reads the leading decimal digits of [s]; returns their value and the
    rest of the string. *)
Fixpoint digits (s : string) (acc : Z) : Z * string :=
  match s with
  | EmptyString => (acc, s)
  | String c r =>
      match digit c with
      | Some d => digits r (10 * acc + d)%Z
      | None => (acc, s)
      end
  end.

Definition unit_ms (u : string) : option Z :=
  if bool_decide (u = "" \/ u = "ms") then Some 1%Z
  else if bool_decide (u = "s") then Some 1000%Z
  else if bool_decide (u = "m") then Some (60 * 1000)%Z
  else if bool_decide (u = "h") then Some (60 * 60 * 1000)%Z
  else if bool_decide (u = "d") then Some (24 * 60 * 60 * 1000)%Z
  else None.

(** [ms("15m") = 900000]; [None] is JavaScript's [undefined]. *)
Definition ms (s : string) : option Z :=
  match s with
  | EmptyString => None
  | String c _ =>
      match digit c with
      | None => None
      | Some _ =>
          let '(n, u) := digits s 0%Z in
          match unit_ms u with
          | Some k => Some (n * k)%Z
          | None => None
          end
      end
  end.

End Ms.

(** The [enum] of the [role] path. *)
Inductive Role := Role_user | Role_admin.

#[global] Instance Role_eq_dec : EqDecision Role.
Proof. solve_decision. Defined.

Module Jwt.

(** The decoded payload: the claims given to [sign] ([id], and [role] for
    access tokens) plus the [iat] and [exp] claims that [sign] adds, both in
    seconds. *)
Record Payload := mkPayload {
  id : nat;
  role : option Role;
  iat : Z;
  exp : Z
}.

#[global] Instance Payload_eq_dec : EqDecision Payload.
Proof. solve_decision. Defined.

(** A token as it travels in a cookie: a string that is not a well-formed
    token, or a payload signed with some secret. *)
Inductive token :=
| Malformed (raw : string)
| Signed (secret : string) (p : Payload).

#[global] Instance token_eq_dec : EqDecision token.
Proof. solve_decision. Defined.

(** Truthiness of a cookie value ([!refreshToken]): a signed token is a
    non-empty string. *)
Definition truthy (t : token) : bool :=
  match t with
  | Malformed raw => Js.truthy raw
  | Signed _ _ => true
  end.

(** [Math.floor(Date.now() / 1000)] *)
Definition clockTimestamp (now_ms : Z) : Z := (now_ms / 1000)%Z.

(** jsonwebtoken's [timespan(expiresIn, iat)] for a string [expiresIn]. *)
Definition timespan (expiresIn : string) (iat : Z) : option Z :=
  match Ms.ms expiresIn with
  | Some milliseconds => Some (iat + milliseconds / 1000)%Z
  | None => None
  end.

(** [jwt.sign({id, role}, secret, {expiresIn})] at time [now_ms]. *)
Definition sign (id : nat) (role : option Role) (secret : option string)
    (expiresIn : string) (now_ms : Z) : outcome token :=
  match secret with
  | Some k =>
      if Js.truthy k then
        let timestamp := clockTimestamp now_ms in
        match timespan expiresIn timestamp with
        | Some e => Ok (Signed k (mkPayload id role timestamp e))
        | None => Throw (mkError "Error" "expiresIn should be a number of seconds or string representing a timespan")
        end
      else Throw (mkError "Error" "secretOrPrivateKey must have a value")
  | None => Throw (mkError "Error" "secretOrPrivateKey must have a value")
  end.

(** [jwt.verify(token, secret)] at time [now_ms]: the structure is checked
    first, then the secret, then the signature, then the expiry. *)
Definition verify (t : token) (secret : option string) (now_ms : Z)
    : outcome Payload :=
  match t with
  | Malformed raw =>
      if Js.truthy raw then Throw (mkError "JsonWebTokenError" "jwt malformed")
      else Throw (mkError "JsonWebTokenError" "jwt must be provided")
  | Signed k p =>
      if Js.env_truthy secret then
        if bool_decide (secret = Some k) then
          if bool_decide (exp p <= clockTimestamp now_ms)%Z
          then Throw (mkError "TokenExpiredError" "jwt expired")
          else Ok p
        else Throw (mkError "JsonWebTokenError" "invalid signature")
      else Throw (mkError "JsonWebTokenError" "secret or public key must be provided")
  end.

End Jwt.

(** ** bcryptjs *)

Module Bcrypt.

(** The bytes the key schedule of bcrypt reads: the password and a
    terminating NUL byte, cyclically, for the eighteen words of the
    P-array, that is 72 bytes. Two passwords with the same key have the
    same hashes, and [compare] cannot tell them apart. *)
Fixpoint stream (n : nat) (data rest : string) : string :=
  match n with
  | O => EmptyString
  | S n' =>
      match (match rest with EmptyString => data | String _ _ => rest end) with
      | String c r => String c (stream n' data r)
      | EmptyString => EmptyString
      end
  end.

Definition key (s : string) : string :=
  let data := (s ++ String Ascii.zero EmptyString)%string in
  stream 72 data data.
Arguments key : simpl never.

(** The value of the [password] field. [Plain s] is a string that is not
    the text of a hash: the plaintext given to the constructor. [Hash]
    records the cost, the salt and what was hashed: [Plain k] for the key
    [k] of a plaintext, or the hash whose 60 characters were hashed
    again. *)
Inductive Password :=
| Plain (s : string)
| Hash (rounds : nat) (salt : nat) (input : Password).

#[global] Instance Password_eq_dec : EqDecision Password.
Proof. solve_decision. Defined.

Definition hash (input : Password) (rounds salt : nat) : Password :=
  Hash rounds salt
    (match input with
     | Plain s => Plain (key s)
     | Hash _ _ _ => input
     end).

(** [bcrypt.compare(candidate, hash)]: the candidate is hashed with the
    salt of the stored hash and the results are compared, so it is true
    exactly when the candidate has the key that was hashed. For a stored
    hash of a hash the candidate would have to be the text of the inner
    hash; that text is a value the server computed from a random salt, and
    no string of this model stands for it. *)
Definition compare (candidate : string) (stored : Password) : bool :=
  match stored with
  | Hash _ _ (Plain k) => bool_decide (key candidate = k)
  | _ => false
  end.

End Bcrypt.

(** ** JSON values of response bodies *)

#[warnings="-register-all"]
Inductive json :=
| JBool (b : bool)
| JNum (z : Z)
| JStr (s : string)
| JTok (t : Jwt.token)
| JHash (h : Bcrypt.Password)
| JArr (items : list json)
| JObj (fields : list (string * json)).

Definition get (k : string) (j : json) : option json :=
  match j with
  | JObj fields => snd <$> List.find (fun kv => bool_decide (fst kv = k)) fields
  | _ => None
  end.

(** [delete obj.k] *)
Definition delete_key (k : string) (j : json) : json :=
  match j with
  | JObj fields => JObj (List.filter (fun kv => negb (bool_decide (fst kv = k))) fields)
  | _ => j
  end.

(** ** Process environment *)

Record Env := mkEnv {
  NODE_ENV : option string;
  JWT_SECRET : option string;
  REFRESH_TOKEN_SECRET : option string
}.

Definition production (env : Env) : bool :=
  bool_decide (NODE_ENV env = Some "production").

Definition development (env : Env) : bool :=
  bool_decide (NODE_ENV env = Some "development").

(** ** The User schema: stored records and documents *)

Module User.

(** The paths of the schema. In a stored record [password] is always
    present; in a document it is absent when the query did not select it,
    and so is [refreshToken] (both are [select: false]). *)
Record t := mk {
  name : string;
  email : string;
  password : option Bcrypt.Password;
  isEmailVerified : bool;
  isActive : bool;
  lastLogin : option Z;
  role : Role;
  avatar : string;
  phone : string;
  refreshToken : option Jwt.token;
  createdAt : option Z;
  updatedAt : option Z
}.

Definition set_password (v : option Bcrypt.Password) (u : t) : t :=
  mk (name u) (email u) v (isEmailVerified u) (isActive u) (lastLogin u)
     (role u) (avatar u) (phone u) (refreshToken u) (createdAt u) (updatedAt u).

Definition set_lastLogin (v : option Z) (u : t) : t :=
  mk (name u) (email u) (password u) (isEmailVerified u) (isActive u) v
     (role u) (avatar u) (phone u) (refreshToken u) (createdAt u) (updatedAt u).

Definition set_refreshToken (v : option Jwt.token) (u : t) : t :=
  mk (name u) (email u) (password u) (isEmailVerified u) (isActive u)
     (lastLogin u) (role u) (avatar u) (phone u) v (createdAt u) (updatedAt u).

Definition set_timestamps (c m : option Z) (u : t) : t :=
  mk (name u) (email u) (password u) (isEmailVerified u) (isActive u)
     (lastLogin u) (role u) (avatar u) (phone u) (refreshToken u) c m.

(** [$set] of one path of [src] on the stored record [dst]. *)
Definition copy_path (p : string) (src dst : t) : t :=
  if bool_decide (p = "name") then
    mk (name src) (email dst) (password dst) (isEmailVerified dst) (isActive dst)
       (lastLogin dst) (role dst) (avatar dst) (phone dst) (refreshToken dst)
       (createdAt dst) (updatedAt dst)
  else if bool_decide (p = "email") then
    mk (name dst) (email src) (password dst) (isEmailVerified dst) (isActive dst)
       (lastLogin dst) (role dst) (avatar dst) (phone dst) (refreshToken dst)
       (createdAt dst) (updatedAt dst)
  else if bool_decide (p = "password") then set_password (password src) dst
  else if bool_decide (p = "isEmailVerified") then
    mk (name dst) (email dst) (password dst) (isEmailVerified src) (isActive dst)
       (lastLogin dst) (role dst) (avatar dst) (phone dst) (refreshToken dst)
       (createdAt dst) (updatedAt dst)
  else if bool_decide (p = "lastLogin") then set_lastLogin (lastLogin src) dst
  else if bool_decide (p = "refreshToken") then set_refreshToken (refreshToken src) dst
  else dst.

Definition copy_paths (ps : list string) (src dst : t) : t :=
  fold_left (fun acc p => copy_path p src acc) ps dst.

(** The email setters of the schema ([trim: true], [lowercase: true]);
    Mongoose applies them to a value assigned to the path and to a value
    the path is queried by. Setters run from the last one declared to the
    first: [toLowerCase], then [trim]. *)
Definition cast_email {engine : Js.Engine} (s : string) : string :=
  Js.trim (Js.toLowerCase s).

(** [match: /^\S+@\S+\.\S+$/]: some [@] after at least one character, some
    [.] at least one character later and before the last character, and no
    white space anywhere. *)
Fixpoint dot_then_some (s : string) : bool :=
  match s with
  | EmptyString => false
  | String c r =>
      (bool_decide (c = "."%char) && negb (bool_decide (r = ""))) || dot_then_some r
  end.

Fixpoint at_then_domain (s : string) : bool :=
  match s with
  | EmptyString => false
  | String c r =>
      (bool_decide (c = "@"%char) &&
         match r with EmptyString => false | String _ r' => dot_then_some r' end)
      || at_then_domain r
  end.

Fixpoint no_space (s : string) : bool :=
  match s with
  | EmptyString => true
  | String _ r => negb (Js.starts_with_space s) && no_space r
  end.

Definition email_match (s : string) : bool :=
  no_space s &&
  match s with EmptyString => false | String _ r => at_then_domain r end.

(** Length of the string a [password] value stands for: a bcrypt hash has
    60 characters. *)
Definition password_length (p : Bcrypt.Password) : nat :=
  match p with
  | Bcrypt.Plain s => String.length s
  | Bcrypt.Hash _ _ _ => 60
  end.

(** The schema validators of one path ([required], [minlength],
    [maxlength], [match]). The [phone] validator accepts the empty default,
    the only value it is run on here. *)
Definition valid_path (p : string) (u : t) : bool :=
  if bool_decide (p = "name") then
    negb (bool_decide (name u = "")) &&
    bool_decide (2 <= String.length (name u) <= 50)
  else if bool_decide (p = "email") then
    negb (bool_decide (email u = "")) && email_match (email u)
  else if bool_decide (p = "password") then
    match password u with
    | Some pw => bool_decide (8 <= password_length pw)
    | None => false
    end
  else true.

Definition required_paths : list string := ["name"; "email"; "password"].

End User.

(** A Mongoose document: the identifier, the loaded paths, whether it has
    been inserted yet, and the paths modified since it was loaded. *)
Record Doc := mkDoc {
  _id : nat;
  fields : User.t;
  isNew : bool;
  modified : list string
}.

Definition isModified (p : string) (d : Doc) : bool :=
  bool_decide (p ∈ modified d).

(** [doc.validateSync()]: every path of a new document, the modified paths
    of a loaded one. *)
Definition validateSync (d : Doc) : option Error :=
  let paths := if isNew d then (User.required_paths ++ modified d)%list else modified d in
  if forallb (fun p => User.valid_path p (fields d)) paths then None
  else Some (mkError "ValidationError" "User validation failed").

(** ** The world and the handler monad *)

Record World := mkWorld {
  users : gmap nat User.t;   (* the users collection, by _id *)
  clock : Z;                 (* Date.now(), in milliseconds *)
  next_oid : nat;            (* ObjectId generator *)
  next_salt : nat            (* bcrypt.genSalt generator *)
}.

Definition M (A : Type) : Type := World -> outcome A * World.

#[global] Instance M_ret : MRet M := fun A a w => (Ok a, w).

#[global] Instance M_bind : MBind M := fun A B f c w =>
  match c w with
  | (Ok a, w') => f a w'
  | (Throw e, w') => (Throw e, w')
  end.

Definition throw {A} (e : Error) : M A := fun w => (Throw e, w).

Definition lift {A} (o : outcome A) : M A := fun w => (o, w).

(** [try { c } catch (error) { h error }] *)
Definition try_catch {A} (c : M A) (h : Error -> M A) : M A := fun w =>
  match c w with
  | (Ok a, w') => (Ok a, w')
  | (Throw e, w') => h e w'
  end.

Definition Date_now : M Z := fun w => (Ok (clock w), w).

Definition new_ObjectId : M nat := fun w =>
  (Ok (next_oid w), mkWorld (users w) (clock w) (S (next_oid w)) (next_salt w)).

Definition genSalt : M nat := fun w =>
  (Ok (next_salt w), mkWorld (users w) (clock w) (next_oid w) (S (next_salt w))).

Definition set_users (m : gmap nat User.t) (w : World) : World :=
  mkWorld m (clock w) (next_oid w) (next_salt w).

(** ** Mongoose: queries and persistence on the users collection *)

Definition E11000 : Error :=
  mkError "MongoServerError" "E11000 duplicate key error collection: users".

Definition DocumentNotFound : Error :=
  mkError "DocumentNotFoundError" "No document found for query".

Definition find_user (P : nat -> User.t -> bool) (m : gmap nat User.t)
    : option (nat * User.t) :=
  List.find (fun kv => P kv.1 kv.2) (map_to_list m).

(** The document of a stored record, with the two [select: false] paths
    loaded only on request. *)
Definition hydrate (with_password with_refreshToken : bool)
    (kv : nat * User.t) : Doc :=
  let u := kv.2 in
  mkDoc kv.1
    (User.set_refreshToken (if with_refreshToken then User.refreshToken u else None)
       (User.set_password (if with_password then User.password u else None) u))
    false [].

(** [User.findOne({ email })], optionally with [.select('+password')]. *)
Definition findOne_email {engine : Js.Engine} (email : string) (with_password : bool)
    : M (option Doc) := fun w =>
  (Ok (hydrate with_password false <$>
         find_user (fun _ u => bool_decide (User.email u = User.cast_email email))
           (users w)), w).

(** [User.findById(id).select('-password -refreshToken')] *)
Definition findById (id : nat) : M (option Doc) := fun w =>
  (Ok ((fun u => hydrate false false (id, u)) <$> users w !! id), w).

(** [User.findOne({ _id: id, refreshToken })] *)
Definition findOne_id_refreshToken (id : nat) (refreshToken : Jwt.token)
    : M (option Doc) := fun w =>
  (Ok (match users w !! id with
       | Some u =>
           if bool_decide (User.refreshToken u = Some refreshToken)
           then Some (hydrate false false (id, u))
           else None
       | None => None
       end), w).

(** [User.findByIdAndUpdate(id, { $unset: { refreshToken: 1 } })] *)
Definition findByIdAndUpdate_unset_refreshToken (id : nat)
    : M (option Doc) := fun w =>
  match users w !! id with
  | Some u =>
      let u' := User.set_timestamps (User.createdAt u) (Some (clock w))
                  (User.set_refreshToken None u) in
      (Ok (Some (hydrate false false (id, u))), set_users (<[id := u']> (users w)) w)
  | None => (Ok None, w)
  end.

(** Insertion under the unique indexes on [_id] and [email]. *)
Definition insertOne (id : nat) (u : User.t) : M unit := fun w =>
  match users w !! id with
  | Some _ => (Throw E11000, w)
  | None =>
      match find_user (fun _ v => bool_decide (User.email v = User.email u)) (users w) with
      | Some _ => (Throw E11000, w)
      | None => (Ok (), set_users (<[id := u]> (users w)) w)
      end
  end.

(** [updateOne({ _id: id }, { $set: paths of src })], with [updatedAt]. *)
Definition updateOne (id : nat) (paths : list string) (src : User.t) (now : Z)
    : M unit := fun w =>
  match users w !! id with
  | None => (Throw DocumentNotFound, w)
  | Some u =>
      match
        (if bool_decide ("email" ∈ paths) then
           find_user (fun k v => negb (bool_decide (k = id)) &&
                                 bool_decide (User.email v = User.email src)) (users w)
         else None)
      with
      | Some _ => (Throw E11000, w)
      | None =>
          let u' := User.set_timestamps (User.createdAt u) (Some now)
                      (User.copy_paths paths src u) in
          (Ok (), set_users (<[id := u']> (users w)) w)
      end
  end.

(** [userSchema.pre('save', ...)]: hash the password when it was modified. *)
Definition pre_save (d : Doc) : M Doc :=
  if negb (isModified "password" d) then mret d
  else
    salt ← genSalt;
    match User.password (fields d) with
    | Some pw =>
        mret (mkDoc (_id d)
                (User.set_password (Some (Bcrypt.hash pw 12 salt)) (fields d))
                (isNew d) (modified d))
    | None => throw (mkError "Error" "Illegal arguments: undefined, string")
    end.

(** [doc.save()]: validation, then the pre-save hook, then an insert for a
    new document and a [$set] of the modified paths for a loaded one. *)
Definition save (d : Doc) : M Doc :=
  match validateSync d with
  | Some e => throw e
  | None =>
      d ← pre_save d;
      now ← Date_now;
      if isNew d then
        let u := User.set_timestamps (Some now) (Some now) (fields d) in
        insertOne (_id d) u ;; mret (mkDoc (_id d) u false [])
      else if bool_decide (modified d = []) then mret d
      else
        updateOne (_id d) (modified d) (fields d) now ;;
        mret (mkDoc (_id d)
                (User.set_timestamps (User.createdAt (fields d)) (Some now) (fields d))
                false [])
  end.

Definition markModified (p : string) (paths : list string) : list string :=
  if bool_decide (p ∈ paths) then paths else (paths ++ [p])%list.

(** [doc.refreshToken = t]: the path is marked modified when the value
    changes. *)
Definition assign_refreshToken (t : Jwt.token) (d : Doc) : Doc :=
  if bool_decide (User.refreshToken (fields d) = Some t) then d
  else mkDoc (_id d) (User.set_refreshToken (Some t) (fields d)) (isNew d)
         (markModified "refreshToken" (modified d)).

(** [doc.lastLogin = new Date()] *)
Definition assign_lastLogin (now : Z) (d : Doc) : Doc :=
  if bool_decide (User.lastLogin (fields d) = Some now) then d
  else mkDoc (_id d) (User.set_lastLogin (Some now) (fields d)) (isNew d)
         (markModified "lastLogin" (modified d)).

(** [new User({ name, email, password, isEmailVerified: false })]: the
    setters run, the defaults are filled in, a fresh [_id] is generated. *)
Definition new_User {engine : Js.Engine} (name email password : string) : M Doc :=
  oid ← new_ObjectId;
  mret (mkDoc oid
          (User.mk (Js.trim name) (User.cast_email email)
             (Some (Bcrypt.Plain password)) false true None Role_user "" ""
             None None None)
          true ["name"; "email"; "password"; "isEmailVerified"]).

(** ** Methods of the User model *)

(** [userSchema.methods.comparePassword]: bcrypt throws on an argument
    that is [undefined], and the method rethrows. *)
Definition comparePassword (d : Doc) (candidatePassword : option string)
    : M bool :=
  match candidatePassword, User.password (fields d) with
  | Some candidate, Some h => mret (Bcrypt.compare candidate h)
  | _, _ => throw (mkError "Error" "Error comparing passwords")
  end.

(** [userSchema.methods.generateAuthTokens]; returns the document too, as
    the method assigns [this.refreshToken]. *)
Definition generateAuthTokens (env : Env) (d : Doc)
    : M (Doc * (Jwt.token * Jwt.token)) :=
  if negb (Js.env_truthy (JWT_SECRET env)) ||
     negb (Js.env_truthy (REFRESH_TOKEN_SECRET env))
  then throw (mkError "Error" "JWT secrets are not configured")
  else
    now ← Date_now;
    accessToken ← lift (Jwt.sign (_id d) (Some (User.role (fields d)))
                          (JWT_SECRET env) "15m" now);
    refreshToken ← lift (Jwt.sign (_id d) None
                           (REFRESH_TOKEN_SECRET env) "7d" now);
    mret (assign_refreshToken refreshToken d, (accessToken, refreshToken)).

(** [userSchema.methods.generateVerificationToken] *)
Definition generateVerificationToken (env : Env) (d : Doc) : M Jwt.token :=
  now ← Date_now;
  lift (Jwt.sign (_id d) None (JWT_SECRET env) "24h" now).

Definition json_opt {A} (k : string) (f : A -> json) (v : option A)
    : list (string * json) :=
  match v with Some a => [(k, f a)] | None => [] end.

Definition role_string (r : Role) : string :=
  match r with Role_user => "user" | Role_admin => "admin" end.

(** [doc.toObject()]: every loaded path, absent ones left out. *)
Definition toObject (d : Doc) : json :=
  let u := fields d in
  JObj ([("_id", JNum (Z.of_nat (_id d)));
         ("name", JStr (User.name u));
         ("email", JStr (User.email u))]
        ++ json_opt "password" JHash (User.password u)
        ++ [("isEmailVerified", JBool (User.isEmailVerified u));
            ("isActive", JBool (User.isActive u))]
        ++ json_opt "lastLogin" JNum (User.lastLogin u)
        ++ [("role", JStr (role_string (User.role u)));
            ("avatar", JStr (User.avatar u));
            ("phone", JStr (User.phone u))]
        ++ json_opt "refreshToken" JTok (User.refreshToken u)
        ++ json_opt "createdAt" JNum (User.createdAt u)
        ++ json_opt "updatedAt" JNum (User.updatedAt u)
        ++ [("__v", JNum 0)])%list.

(** ** Requests and responses *)

Record CookieOptions := mkCookieOptions {
  httpOnly : bool;
  secure : bool;
  sameSite : string;
  domain : option string;
  path : string;
  maxAge : option Z
}.

(** One call on the response: [res.cookie] or [res.clearCookie]. *)
Inductive SetCookie :=
| Cookie (cookie_name : string) (value : Jwt.token) (options : CookieOptions)
| ClearCookie (cookie_name : string) (options : CookieOptions).

Record Response := mkResponse {
  status : nat;
  cookies : list SetCookie;
  body : json
}.

(** [req.cookies], for the three names the server reads or clears. *)
Module Cookies.
Record t := mk {
  accessToken : option Jwt.token;
  refreshToken : option Jwt.token;
  token : option Jwt.token
}.
End Cookies.

Module RegisterBody.
Record t := mk { name : string; email : string; password : string }.
End RegisterBody.

(** [password] is [None] when the field is missing from the body. *)
Module LoginBody.
Record t := mk { email : string; password : option string }.
End LoginBody.

(** What a middleware does: calls [next()] with [req.user] attached, or
    answers itself. *)
Inductive MiddlewareResult :=
| Next (req_user : Doc)
| Respond (res : Response).

(** An async handler whose whole body is [try { c } catch (error) { h }]. *)
Definition handle {A} (c : M A) (h : Error -> A) : World -> A * World := fun w =>
  match c w with
  | (Ok a, w') => (a, w')
  | (Throw e, w') => (h e, w')
  end.

(** ** routes/auth.js *)

Definition getCookieOptions (env : Env) (isRefreshToken : bool) : CookieOptions :=
  mkCookieOptions
    true
    (production env)
    (if production env then "none" else "lax")
    (if production env then Some ".yourdomain.com" else None)
    (if isRefreshToken then "/api/auth/refresh-token" else "/")
    (Some (if isRefreshToken then 7 * 24 * 60 * 60 * 1000 else 15 * 60 * 1000)%Z).

Definition with_path (p : string) (o : CookieOptions) : CookieOptions :=
  mkCookieOptions (httpOnly o) (secure o) (sameSite o) (domain o) p (maxAge o).

Definition setTokenCookies (env : Env) (accessToken refreshToken : Jwt.token)
    : list SetCookie :=
  [ Cookie "accessToken" accessToken (getCookieOptions env false);
    Cookie "refreshToken" refreshToken (getCookieOptions env true);
    ClearCookie "token" (with_path "/" (getCookieOptions env false)) ].

Definition baseClearOpts (env : Env) : CookieOptions :=
  mkCookieOptions
    true
    (production env)
    (if production env then "none" else "lax")
    (if production env then Some ".yourdomain.com" else None)
    ""
    None.

Definition clearSessionCookies (env : Env) : list SetCookie :=
  [ ClearCookie "accessToken" (with_path "/" (baseClearOpts env));
    ClearCookie "refreshToken" (with_path "/api/auth/refresh-token" (baseClearOpts env));
    ClearCookie "token" (with_path "/" (baseClearOpts env)) ].

(** An entry of [errors.array()], reduced to its message and its field. *)
Definition validation_error (msg field : string) : json :=
  JObj [("msg", JStr msg); ("path", JStr field)].

(** [error: NODE_ENV === 'development' ? error.message : undefined] *)
Definition error_detail (env : Env) (error : Error) : list (string * json) :=
  if development env then [("error", JStr (message error))] else [].

(** The validation chain of [POST /register]; [name] and [email] have been
    trimmed by the sanitizers. *)
Definition register_errors (isEmail : string -> bool)
    (name email password : string) : list json :=
  ((if bool_decide (name = "") then [validation_error "Name is required" "name"] else [])
   ++ (if isEmail email then [] else [validation_error "Please include a valid email" "email"])
   ++ (if bool_decide (8 <= String.length password) then []
       else [validation_error "Password must be at least 8 characters" "password"]))%list.

(** [router.post('/register', ...)] *)
Definition register {engine : Js.Engine} (isEmail : string -> bool) (env : Env)
    (req_body : RegisterBody.t) : World -> Response * World :=
  let name := Js.trim (RegisterBody.name req_body) in
  let email := Js.trim (RegisterBody.email req_body) in
  let password := RegisterBody.password req_body in
  let errors := register_errors isEmail name email password in
  if negb (bool_decide (errors = [])) then
    fun w => (mkResponse 400 [] (JObj [("success", JBool false); ("errors", JArr errors)]), w)
  else
    handle
      (existingUser ← findOne_email email false;
       match existingUser with
       | Some _ =>
           mret (mkResponse 400 []
                   (JObj [("success", JBool false);
                          ("message", JStr "Email is already registered")]))
       | None =>
           user ← new_User name email password;
           user ← save user;
           verificationToken ← generateVerificationToken env user;
           '(user, (accessToken, refreshToken)) ← generateAuthTokens env user;
           let user := assign_refreshToken refreshToken user in
           user ← save user;
           let userResponse := toObject user in
           let userResponse := delete_key "password" userResponse in
           let userResponse := delete_key "refreshToken" userResponse in
           mret (mkResponse 201 (setTokenCookies env accessToken refreshToken)
                   (JObj [("success", JBool true);
                          ("message", JStr "Registration successful. Please check your email to verify your account.");
                          ("user", userResponse);
                          ("accessToken", JTok accessToken)]))
       end)
      (fun error =>
         mkResponse 500 []
           (JObj ([("success", JBool false);
                   ("message", JStr "Server error during registration")]
                  ++ error_detail env error)%list)).

(** The validation chain of [POST /login]. *)
Definition login_errors (isEmail : string -> bool) (req_body : LoginBody.t)
    : list json :=
  ((if isEmail (LoginBody.email req_body) then []
    else [validation_error "Please include a valid email" "email"])
   ++ (match LoginBody.password req_body with
       | Some _ => []
       | None => [validation_error "Password is required" "password"]
       end))%list.

(** [router.post('/login', ...)] *)
Definition login {engine : Js.Engine} (isEmail : string -> bool) (env : Env)
    (req_body : LoginBody.t) : World -> Response * World :=
  let errors := login_errors isEmail req_body in
  if negb (bool_decide (errors = [])) then
    fun w => (mkResponse 400 [] (JObj [("success", JBool false); ("errors", JArr errors)]), w)
  else
    let email := LoginBody.email req_body in
    let password := LoginBody.password req_body in
    handle
      (user ← findOne_email email true;
       match user with
       | None =>
           mret (mkResponse 401 []
                   (JObj [("success", JBool false);
                          ("message", JStr "Invalid credentials")]))
       | Some user =>
           isMatch ← comparePassword user password;
           if negb isMatch then
             mret (mkResponse 401 []
                     (JObj [("success", JBool false);
                            ("message", JStr "Invalid credentials")]))
           else if negb (User.isActive (fields user)) then
             mret (mkResponse 403 []
                     (JObj [("success", JBool false);
                            ("message", JStr "Account is deactivated. Please contact support.")]))
           else
             now ← Date_now;
             let user := assign_lastLogin now user in
             user ← save user;
             '(user, (accessToken, refreshToken)) ← generateAuthTokens env user;
             let user := assign_refreshToken refreshToken user in
             user ← save user;
             let userResponse := toObject user in
             let userResponse := delete_key "password" userResponse in
             let userResponse := delete_key "refreshToken" userResponse in
             mret (mkResponse 200 (setTokenCookies env accessToken refreshToken)
                     (JObj [("success", JBool true);
                            ("message", JStr "Login successful");
                            ("user", userResponse);
                            ("accessToken", JTok accessToken)]))
       end)
      (fun error =>
         mkResponse 500 []
           (JObj ([("success", JBool false);
                   ("message", JStr "Server error during login")]
                  ++ error_detail env error)%list)).

(** The value of [req.cookies.x] when it is truthy. *)
Definition truthy_cookie (c : option Jwt.token) : option Jwt.token :=
  match c with
  | Some t => if Jwt.truthy t then Some t else None
  | None => None
  end.

(** [a || b] on two cookie values. *)
Definition js_or (a b : option Jwt.token) : option Jwt.token :=
  match truthy_cookie a with
  | Some t => Some t
  | None => b
  end.

(** [router.post('/logout', ...)] *)
Definition logout (env : Env) (req_cookies : Cookies.t)
    : World -> Response * World :=
  handle
    (match truthy_cookie (Cookies.refreshToken req_cookies) with
     | Some refreshToken =>
         try_catch
           (now ← Date_now;
            decoded ← lift (Jwt.verify refreshToken (REFRESH_TOKEN_SECRET env) now);
            findByIdAndUpdate_unset_refreshToken (Jwt.id decoded) ;;
            mret ())
           (fun error => mret ())
     | None => mret ()
     end ;;
     mret (mkResponse 200 (clearSessionCookies env)
             (JObj [("success", JBool true);
                    ("message", JStr "Logout successful")])))
    (fun error =>
       mkResponse 500 []
         (JObj [("success", JBool false);
                ("message", JStr "Server error during logout")])).

(** [router.post('/refresh-token', ...)] *)
Definition refresh_token (env : Env) (req_cookies : Cookies.t)
    : World -> Response * World :=
  handle
    (match truthy_cookie (Cookies.refreshToken req_cookies) with
     | None =>
         mret (mkResponse 401 []
                 (JObj [("success", JBool false);
                        ("message", JStr "No refresh token provided");
                        ("shouldLogout", JBool true)]))
     | Some refreshToken =>
         now ← Date_now;
         decoded ← lift (Jwt.verify refreshToken (REFRESH_TOKEN_SECRET env) now);
         user ← findOne_id_refreshToken (Jwt.id decoded) refreshToken;
         match user with
         | None =>
             mret (mkResponse 403 []
                     (JObj [("success", JBool false);
                            ("message", JStr "Invalid refresh token");
                            ("shouldLogout", JBool true)]))
         | Some user =>
             '(user, (newAccessToken, newRefreshToken)) ← generateAuthTokens env user;
             let user := assign_refreshToken newRefreshToken user in
             user ← save user;
             mret (mkResponse 200 (setTokenCookies env newAccessToken newRefreshToken)
                     (JObj [("success", JBool true);
                            ("accessToken", JTok newAccessToken)]))
         end
     end)
    (fun error =>
       mkResponse 401 (clearSessionCookies env)
         (JObj [("success", JBool false);
                ("message", JStr "Invalid or expired refresh token");
                ("shouldLogout", JBool true)])).

(** ** middleware/authMiddleware.js *)

(** [verifyAccessToken] *)
Definition verifyAccessToken (env : Env) (token : Jwt.token) : M Jwt.Payload :=
  try_catch
    (if negb (Js.env_truthy (JWT_SECRET env))
     then throw (mkError "Error" "JWT_SECRET is not configured")
     else now ← Date_now; lift (Jwt.verify token (JWT_SECRET env) now))
    (fun error =>
       if bool_decide (name error = "TokenExpiredError")
       then throw (mkError "Error" "Access token expired")
       else throw (mkError "Error" "Invalid access token")).

(** [protect] *)
Definition protect (env : Env) (req_cookies : Cookies.t)
    : World -> MiddlewareResult * World :=
  handle
    (let accessToken :=
       js_or (Cookies.accessToken req_cookies) (Cookies.token req_cookies) in
     match truthy_cookie accessToken with
     | None =>
         mret (Respond (mkResponse 401 []
                 (JObj [("success", JBool false);
                        ("message", JStr "No access token provided");
                        ("shouldRefresh", JBool true)])))
     | Some accessToken =>
         try_catch
           (decoded ← verifyAccessToken env accessToken;
            user ← findById (Jwt.id decoded);
            match user with
            | None => throw (mkError "Error" "User not found")
            | Some user => mret (Next user)
            end)
           (fun error =>
              let isExpired := bool_decide (message error = "Access token expired") in
              mret (Respond (mkResponse 401 []
                      (JObj [("success", JBool false);
                             ("message", JStr (if isExpired then "Access token expired"
                                               else "Invalid access token"));
                             ("shouldRefresh", JBool isExpired);
                             ("shouldLogout", JBool (negb isExpired))]))))
     end)
    (fun error =>
       Respond (mkResponse 500 []
         (JObj ([("success", JBool false);
                 ("message", JStr "Authentication error")]
                ++ error_detail env error)%list))).

(** ** Observations on responses *)

(** The tokens and the password values that occur anywhere in a JSON
    value. *)
Fixpoint tokens_of (j : json) : list Jwt.token :=
  match j with
  | JTok t => [t]
  | JArr items => flat_map tokens_of items
  | JObj fields => flat_map (fun kv => tokens_of (snd kv)) fields
  | _ => []
  end.

Fixpoint hashes_of (j : json) : list Bcrypt.Password :=
  match j with
  | JHash h => [h]
  | JArr items => flat_map hashes_of items
  | JObj fields => flat_map (fun kv => hashes_of (snd kv)) fields
  | _ => []
  end.

Definition keys (j : json) : list string :=
  match j with
  | JObj fields => fst <$> fields
  | _ => []
  end.

Definition cleared (c : SetCookie) : option string :=
  match c with
  | ClearCookie n _ => Some n
  | Cookie _ _ _ => None
  end.

(** The unique index on [email], as a property of a collection. *)
Definition unique_email (m : gmap nat User.t) : Prop :=
  forall k1 k2 u1 u2,
    m !! k1 = Some u1 -> m !! k2 = Some u2 ->
    User.email u1 = User.email u2 -> k1 = k2.

(** The records of a collection stored under a given email. *)
Definition with_email (e : string) (m : gmap nat User.t) : list (nat * User.t) :=
  filter (fun kv : nat * User.t => User.email kv.2 = e) (map_to_list m).

(** The tokens [generateAuthTokens] issues for a document at a given time,
    written out: used to state what the handlers return. *)
Definition accessToken_at (k : string) (d : Doc) (now : Z) : Jwt.token :=
  Jwt.Signed k (Jwt.mkPayload (_id d) (Some (User.role (fields d)))
                  (Jwt.clockTimestamp now) (Jwt.clockTimestamp now + 15 * 60)).

Definition refreshToken_at (k : string) (d : Doc) (now : Z) : Jwt.token :=
  Jwt.Signed k (Jwt.mkPayload (_id d) None
                  (Jwt.clockTimestamp now) (Jwt.clockTimestamp now + 7 * 24 * 60 * 60)).

(** The failure responses the properties below name. *)
Definition invalid_refresh_token : Response :=
  mkResponse 403 []
    (JObj [("success", JBool false);
           ("message", JStr "Invalid refresh token");
           ("shouldLogout", JBool true)]).

(** The sanitized user projection of the success responses. *)
Definition user_projection (d : Doc) : json :=
  delete_key "refreshToken" (delete_key "password" (toObject d)).

Definition email_already_registered : Response :=
  mkResponse 400 []
    (JObj [("success", JBool false);
           ("message", JStr "Email is already registered")]).

Definition registration_successful (env : Env) (d : Doc)
    (accessToken refreshToken : Jwt.token) : Response :=
  mkResponse 201 (setTokenCookies env accessToken refreshToken)
    (JObj [("success", JBool true);
           ("message", JStr "Registration successful. Please check your email to verify your account.");
           ("user", user_projection d);
           ("accessToken", JTok accessToken)]).

Definition invalid_credentials : Response :=
  mkResponse 401 []
    (JObj [("success", JBool false);
           ("message", JStr "Invalid credentials")]).

Definition account_deactivated : Response :=
  mkResponse 403 []
    (JObj [("success", JBool false);
           ("message", JStr "Account is deactivated. Please contact support.")]).

Definition login_successful (env : Env) (d : Doc)
    (accessToken refreshToken : Jwt.token) : Response :=
  mkResponse 200 (setTokenCookies env accessToken refreshToken)
    (JObj [("success", JBool true);
           ("message", JStr "Login successful");
           ("user", user_projection d);
           ("accessToken", JTok accessToken)]).

Definition no_refresh_token : Response :=
  mkResponse 401 []
    (JObj [("success", JBool false);
           ("message", JStr "No refresh token provided");
           ("shouldLogout", JBool true)]).

Definition invalid_or_expired_refresh_token (env : Env) : Response :=
  mkResponse 401 (clearSessionCookies env)
    (JObj [("success", JBool false);
           ("message", JStr "Invalid or expired refresh token");
           ("shouldLogout", JBool true)]).

Definition no_access_token : Response :=
  mkResponse 401 []
    (JObj [("success", JBool false);
           ("message", JStr "No access token provided");
           ("shouldRefresh", JBool true)]).

Definition access_token_expired : Response :=
  mkResponse 401 []
    (JObj [("success", JBool false);
           ("message", JStr "Access token expired");
           ("shouldRefresh", JBool true);
           ("shouldLogout", JBool false)]).

Definition invalid_access_token : Response :=
  mkResponse 401 []
    (JObj [("success", JBool false);
           ("message", JStr "Invalid access token");
           ("shouldRefresh", JBool false);
           ("shouldLogout", JBool true)]).

(** ** A small deployment used to exercise the model *)

Module Fixture.

(** The engine of the deployment. Of the Unicode tables it holds the
    Latin-1 Supplement, enough for the strings used here: the capital
    letters U+00C0 to U+00DE (U+00D7, the multiplication sign, apart) are
    32 below their small letters; in UTF-8 the first byte is 195 and the
    second one moves. *)
Definition is_latin1_capital (a b : ascii) : bool :=
  let x := Ascii.N_of_ascii a in
  let y := Ascii.N_of_ascii b in
  bool_decide (x = 195 /\ 128 <= y <= 158 /\ y <> 151)%N.

Fixpoint toLowerCase_latin1 (s : string) : string :=
  match s with
  | EmptyString => EmptyString
  | String a r =>
      match r with
      | String b r' =>
          if is_latin1_capital a b
          then String a (String (Ascii.ascii_of_N (Ascii.N_of_ascii b + 32))
                           (toLowerCase_latin1 r'))
          else String (Js.lower_ascii a) (toLowerCase_latin1 r)
      | EmptyString => String (Js.lower_ascii a) EmptyString
      end
  end.

Definition engine : Js.Engine :=
  {| Js.toLowerCase_unicode := toLowerCase_latin1 |}.

#[local] Existing Instance engine.

Definition isEmail (s : string) : bool := User.email_match s.

Definition env : Env := mkEnv (Some "development") (Some "secret-A") (Some "secret-B").

Definition t0 : Z := 1700000000123.

Definition empty_world : World := mkWorld ∅ t0 1 7.

Definition alice : RegisterBody.t :=
  RegisterBody.mk " Alice " " Alice@Example.COM " "correct horse".

Definition alice_again : RegisterBody.t :=
  RegisterBody.mk "Alice B" " ALICE@EXAMPLE.com " "battery staple".

(** The world after Alice registered. *)
Definition world1 : World := (register isEmail env alice empty_world).2.

Definition at_time (now : Z) (w : World) : World :=
  mkWorld (users w) now (next_oid w) (next_salt w).

Definition minutes (n : Z) : Z := n * 60 * 1000.
Definition days (n : Z) : Z := n * 24 * 60 * 60 * 1000.

(** The tokens issued to Alice at registration. *)
Definition alice_access : Jwt.token :=
  Jwt.Signed "secret-A" (Jwt.mkPayload 1 (Some Role_user) 1700000000 1700000900).

Definition alice_refresh : Jwt.token :=
  Jwt.Signed "secret-B" (Jwt.mkPayload 1 None 1700000000 1700604800).

Definition alice_login : LoginBody.t :=
  LoginBody.mk "alice@example.com" (Some "correct horse").

Definition alice_wrong_password : LoginBody.t :=
  LoginBody.mk "alice@example.com" (Some "incorrect horse").

Definition nobody_login : LoginBody.t :=
  LoginBody.mk "nobody@example.com" (Some "correct horse").

(** The world after Alice logged in again one minute later: her stored
    refresh token has been replaced. *)
Definition world2 : World :=
  (login isEmail env alice_login (at_time (t0 + minutes 1) world1)).2.

(** Eight days after Alice registered: her refresh token has expired. *)
Definition world1_after_8_days : World := at_time (t0 + days 8) world1.

Definition deactivate (u : User.t) : User.t :=
  User.mk (User.name u) (User.email u) (User.password u) (User.isEmailVerified u)
    false (User.lastLogin u) (User.role u) (User.avatar u) (User.phone u)
    (User.refreshToken u) (User.createdAt u) (User.updatedAt u).

(** The world after an administrator deactivated Alice's account. *)
Definition world_deactivated : World :=
  set_users (alter deactivate 1 (users world1)) world1.

Definition refresh_cookie (t : Jwt.token) : Cookies.t :=
  Cookies.mk None (Some t) None.

Definition access_cookie (t : Jwt.token) : Cookies.t :=
  Cookies.mk (Some t) None None.

Definition legacy_cookie (t : Jwt.token) : Cookies.t :=
  Cookies.mk None None (Some t).

Definition no_cookies : Cookies.t := Cookies.mk None None None.

End Fixture.

(** * The rest of the code around the session core *)

(** The world at another time: between two requests only the clock moves. *)
Definition set_clock (now : Z) (w : World) : World :=
  mkWorld (users w) now (next_oid w) (next_salt w).

(** What the session handlers are not meant to touch: everything of a
    record but [lastLogin], [refreshToken] and the timestamps. *)
Definition account (u : User.t) : User.t :=
  User.set_timestamps None None
    (User.set_refreshToken None (User.set_lastLogin None u)).

Definition accounts (w : World) : gmap nat User.t := account <$> users w.

(** ** middleware/authMiddleware.js, continued *)

(** [verifyRefreshToken]; [User.findById(decoded.id)] loads the default
    projection, which leaves out the [select: false] paths. *)
Definition verifyRefreshToken (env : Env) (token : Jwt.token) : M Doc :=
  try_catch
    (if negb (Js.env_truthy (REFRESH_TOKEN_SECRET env))
     then throw (mkError "Error" "REFRESH_TOKEN_SECRET is not configured")
     else
       now ← Date_now;
       decoded ← lift (Jwt.verify token (REFRESH_TOKEN_SECRET env) now);
       user ← findById (Jwt.id decoded);
       match user with
       | None => throw (mkError "Error" "Invalid refresh token")
       | Some user =>
           if negb (bool_decide (User.refreshToken (fields user) = Some token))
           then throw (mkError "Error" "Invalid refresh token")
           else mret user
       end)
    (fun error =>
       if bool_decide (name error = "TokenExpiredError")
       then throw (mkError "Error" "Refresh token expired")
       else throw (mkError "Error" "Invalid refresh token")).

Definition not_authorized_as_admin : Response :=
  mkResponse 403 [] (JObj [("message", JStr "Not authorized as an admin")]).

(** [admin]: [req.user] is [None] when no middleware attached one. *)
Definition admin (req_user : option Doc) : MiddlewareResult :=
  match req_user with
  | Some u =>
      if bool_decide (User.role (fields u) = Role_admin) then Next u
      else Respond not_authorized_as_admin
  | None => Respond not_authorized_as_admin
  end.

(** The chain [protect, admin] of a route: [admin] runs when [protect]
    called [next()]. *)
Definition protect_admin (env : Env) (req_cookies : Cookies.t)
    : World -> MiddlewareResult * World := fun w =>
  match protect env req_cookies w with
  | (Next u, w') => (admin (Some u), w')
  | (Respond res, w') => (Respond res, w')
  end.

(** ** models/User.js, continued *)

(** [userSchema.methods.generatePasswordResetToken] *)
Definition generatePasswordResetToken (env : Env) (d : Doc) : M Jwt.token :=
  now ← Date_now;
  lift (Jwt.sign (_id d) None (JWT_SECRET env) "1h" now).

(** ** routes/users.js: the read and delete routes *)

Definition user_not_found : Response :=
  mkResponse 404 [] (JObj [("msg", JStr "User not found")]).

Definition server_error_text : Response :=
  mkResponse 500 [] (JStr "Server Error").

(** [router.get('/profile', protect, ...)], with the [req.user] that
    [protect] attached. *)
Definition get_profile (req_user : Doc) : World -> Response * World :=
  handle
    (user ← findById (_id req_user);
     match user with
     | None =>
         mret (mkResponse 404 []
                 (JObj [("success", JBool false); ("message", JStr "User not found")]))
     | Some user =>
         mret (mkResponse 200 []
                 (JObj [("success", JBool true); ("user", toObject user)]))
     end)
    (fun err =>
       mkResponse 500 []
         (JObj [("success", JBool false); ("message", JStr "Server Error")])).

(** Casting [req.params.id] to an ObjectId: [None] stands for a string
    that is not one, on which the query throws a CastError of kind
    [ObjectId]. *)
Definition cast_ObjectId (param : option nat) : M nat :=
  match param with
  | Some id => mret id
  | None => throw (mkError "CastError" "ObjectId")
  end.

(** [err.kind === 'ObjectId'] *)
Definition is_cast_error (err : Error) : bool :=
  bool_decide (name err = "CastError").

(** [router.get('/:id', protect, admin, ...)] *)
Definition get_user (req_params_id : option nat) : World -> Response * World :=
  handle
    (id ← cast_ObjectId req_params_id;
     user ← findById id;
     match user with
     | None => mret user_not_found
     | Some user => mret (mkResponse 200 [] (toObject user))
     end)
    (fun err => if is_cast_error err then user_not_found else server_error_text).

(** [doc.remove()], Mongoose's [Document.prototype.remove] (Mongoose 6 and
    before): the document of that [_id] leaves the collection. *)
Definition remove (d : Doc) : M unit := fun w =>
  (Ok (), set_users (delete (_id d) (users w)) w).

(** [router.delete('/:id', [protect, admin], ...)] *)
Definition delete_user (req_user : Doc) (req_params_id : option nat)
    : World -> Response * World :=
  handle
    (id ← cast_ObjectId req_params_id;
     user ← findById id;
     match user with
     | None => mret user_not_found
     | Some user =>
         if bool_decide (_id user = _id req_user) then
           mret (mkResponse 400 []
                   (JObj [("msg", JStr "Cannot delete your own account")]))
         else
           remove user ;;
           mret (mkResponse 200 [] (JObj [("msg", JStr "User removed")]))
     end)
    (fun err => if is_cast_error err then user_not_found else server_error_text).

(** ** server.js *)

Definition allowedOrigins : list string :=
  [ "http://localhost:3000";
    "http://localhost:8080";
    "http://localhost:5173";
    "http://127.0.0.1:3000";
    "http://127.0.0.1:8080";
    "http://127.0.0.1:5173" ].

(** [!origin] for a header that is absent or a string. *)
Definition no_origin (origin : option string) : bool :=
  match origin with
  | Some s => negb (Js.truthy s)
  | None => true
  end.

(** [allowedOrigins.includes(origin)] *)
Definition origin_included (origin : option string) : bool :=
  match origin with
  | Some s => bool_decide (s ∈ allowedOrigins)
  | None => false
  end.

(** [corsOptions.origin]: [Ok true] is [callback(null, true)], a throw is
    [callback(new Error(...))]. *)
Definition cors_origin (env : Env) (origin : option string) : outcome bool :=
  if no_origin origin && negb (production env) then Ok true
  else if origin_included origin || no_origin origin then Ok true
  else Throw (mkError "Error" "Not allowed by CORS").

(** [new User({ name, email, password, role })] with a password value that
    may already be a hash. *)
Definition new_User_with_role {engine : Js.Engine} (name email : string)
    (password : Bcrypt.Password) (role : Role) : M Doc :=
  oid ← new_ObjectId;
  mret (mkDoc oid
          (User.mk (Js.trim name) (User.cast_email email)
             (Some password) false true None role "" ""
             None None None)
          true ["name"; "email"; "password"; "role"]).

(** The default-admin block of [startServer]; its [catch] only logs. *)
Definition create_default_admin {engine : Js.Engine} : World -> unit * World :=
  handle
    (adminExists ← findOne_email "admin@example.com" false;
     match adminExists with
     | Some _ => mret ()
     | None =>
         salt ← genSalt;
         let hashedPassword := Bcrypt.hash (Bcrypt.Plain "admin123") 10 salt in
         adminUser ← new_User_with_role "Admin" "admin@example.com"
                       hashedPassword Role_admin;
         save adminUser ;;
         mret ()
     end)
    (fun userError => ()).

(** ** middleware/uploadMiddleware.js *)

Module Upload.

Fixpoint starts_with (needle s : string) : bool :=
  match needle, s with
  | EmptyString, _ => true
  | String a n', String b s' => bool_decide (a = b) && starts_with n' s'
  | String _ _, EmptyString => false
  end.

(** [RegExp.test] for a pattern that is a plain literal: the literal occurs
    somewhere in the string. *)
Fixpoint includes (needle s : string) : bool :=
  starts_with needle s ||
  match s with
  | EmptyString => false
  | String _ s' => includes needle s'
  end.

(** [/jpe?g|png|webp|gif/.test(s)] *)
Definition filetypes_test (s : string) : bool :=
  includes "jpg" s || includes "jpeg" s || includes "png" s ||
  includes "webp" s || includes "gif" s.

(** [/image\/jpe?g|image\/png|image\/webp|image\/gif/.test(s)] *)
Definition mimetypes_test (s : string) : bool :=
  includes "image/jpg" s || includes "image/jpeg" s || includes "image/png" s ||
  includes "image/webp" s || includes "image/gif" s.

(** [fileFilter]; [extname] is Node's [path.extname]. [Ok true] is
    [cb(null, true)], the throw is [cb(new Error(...), false)]. *)
Definition fileFilter {engine : Js.Engine} (extname : string -> string)
    (originalname mimetype : string) : outcome bool :=
  let extname_ok := filetypes_test (Js.toLowerCase (extname originalname)) in
  let mimetype_ok := mimetypes_test mimetype in
  if extname_ok && mimetype_ok then Ok true
  else Throw (mkError "Error" "Only image files are allowed!").

End Upload.

(** ** More of the small deployment *)

Module Scenario.

#[local] Existing Instance Fixture.engine.

(** Bob registers after Alice and is made an administrator. *)
Definition bob : RegisterBody.t :=
  RegisterBody.mk "Bob" "bob@example.com" "tr0ub4dor&3".

Definition promote (u : User.t) : User.t :=
  User.mk (User.name u) (User.email u) (User.password u) (User.isEmailVerified u)
    (User.isActive u) (User.lastLogin u) Role_admin (User.avatar u) (User.phone u)
    (User.refreshToken u) (User.createdAt u) (User.updatedAt u).

Definition world_before_promotion : World :=
  (register Fixture.isEmail Fixture.env bob Fixture.world1).2.

Definition world_two_users : World :=
  set_users (alter promote 2 (users world_before_promotion)) world_before_promotion.

Definition bob_access : Jwt.token :=
  Jwt.Signed "secret-A" (Jwt.mkPayload 2 (Some Role_user) 1700000000 1700000900).

Definition bob_refresh : Jwt.token :=
  Jwt.Signed "secret-B" (Jwt.mkPayload 2 None 1700000000 1700604800).

(** A deployment whose REFRESH_TOKEN_SECRET was left unset. *)
Definition env_no_refresh_secret : Env :=
  mkEnv (Some "production") (Some "secret-A") None.

(** The refresh token Alice gets when she logs in one minute after her
    registration. *)
Definition alice_refresh2 : Jwt.token :=
  Jwt.Signed "secret-B" (Jwt.mkPayload 1 None 1700000060 1700604860).

(** A record used where only the identifier of a document matters. *)
Definition nobody : User.t :=
  User.mk "" "" None false true None Role_user "" "" None None None.

(** Two requests whose emails differ in the case of a letter outside
    ASCII. *)
Definition ecole_capital : RegisterBody.t :=
  RegisterBody.mk "Cours du soir" "ÉCOLE@EXAMPLE.COM" "mot de passe".

Definition ecole_small : RegisterBody.t :=
  RegisterBody.mk "Cours du matin" "école@example.com" "autre mot de passe".

(** Carol's password is longer than the 72 bytes bcrypt reads. *)
Definition x72 : string :=
  "xxxxxxxxxxxxxxxxxxxxxxxxxxxxxxxxxxxxxxxxxxxxxxxxxxxxxxxxxxxxxxxxxxxxxxxx".

Definition carol : RegisterBody.t :=
  RegisterBody.mk "Carol" "carol@example.com" (x72 ++ "AAAA").

Definition carol_other_tail : LoginBody.t :=
  LoginBody.mk "carol@example.com" (Some (x72 ++ "BBBB")).

Definition carol_other_head : LoginBody.t :=
  LoginBody.mk "carol@example.com" (Some ("y" ++ x72 ++ "AAAA")).

Definition alice_trimmed_login : LoginBody.t :=
  LoginBody.mk "Alice@Example.COM" (Some "correct horse").

Definition admin_login : LoginBody.t :=
  LoginBody.mk "admin@example.com" (Some "admin123").

(** A stand-in for [path.extname]: the text from the last dot on. *)
Fixpoint extname_from (s : string) (acc : option string) : string :=
  match s with
  | EmptyString => match acc with Some e => e | None => "" end
  | String c r =>
      extname_from r
        (if bool_decide (c = "."%char) then Some (String c r) else acc)
  end.

Definition extname (s : string) : string := extname_from s None.

End Scenario.

(** ** Responses and records the properties speak of *)

(** Saving a loaded document whose session paths were assigned. *)

Definition session_paths (ps : list string) : Prop :=
  forall p, p ∈ ps -> p = "lastLogin" \/ p = "refreshToken".

(** ** The refresh and logout routes, run *)

Definition refreshed (env : Env) (accessToken refreshToken : Jwt.token) : Response :=
  mkResponse 200 (setTokenCookies env accessToken refreshToken)
    (JObj [("success", JBool true); ("accessToken", JTok accessToken)]).

Definition logged_out (env : Env) : Response :=
  mkResponse 200 (clearSessionCookies env)
    (JObj [("success", JBool true); ("message", JStr "Logout successful")]).

Definition access_payload (id : nat) (r : Role) (now : Z) : Jwt.Payload :=
  Jwt.mkPayload id (Some r) (Jwt.clockTimestamp now) (Jwt.clockTimestamp now + 15 * 60).

Definition refresh_payload (id : nat) (now : Z) : Jwt.Payload :=
  Jwt.mkPayload id None (Jwt.clockTimestamp now) (Jwt.clockTimestamp now + 7 * 24 * 60 * 60).

(** ** The registration route, run *)

Definition registration_failed (env : Env) (error : Error) : Response :=
  mkResponse 500 []
    (JObj ([("success", JBool false);
            ("message", JStr "Server error during registration")]
           ++ error_detail env error)%list).

(** The record a registration stores, before and after the refresh token
    is saved on it. *)
Definition registered_user {engine : Js.Engine} (name email password : string) (salt : nat) (now : Z)
    (refreshToken : option Jwt.token) : User.t :=
  User.mk (Js.trim name) (User.cast_email email)
    (Some (Bcrypt.hash (Bcrypt.Plain password) 12 salt))
    false true None Role_user "" "" refreshToken (Some now) (Some now).

Definition new_user_doc {engine : Js.Engine} (b : RegisterBody.t) (w : World) : Doc :=
  mkDoc (next_oid w)
    (User.mk (Js.trim (Js.trim (RegisterBody.name b)))
       (User.cast_email (Js.trim (RegisterBody.email b)))
       (Some (Bcrypt.Plain (RegisterBody.password b))) false true None Role_user "" ""
       None None None)
    true ["name"; "email"; "password"; "isEmailVerified"].

(** What a request needs for [register] to reach the token generation:
    it passes both validations, its email is free and so is the next id. *)
Definition registrable {engine : Js.Engine} isEmail (b : RegisterBody.t) (w : World) : Prop :=
  register_errors isEmail (Js.trim (RegisterBody.name b))
    (Js.trim (RegisterBody.email b)) (RegisterBody.password b) = [] /\
  find_user (fun _ u => bool_decide
               (User.email u = User.cast_email (Js.trim (RegisterBody.email b))))
    (users w) = None /\
  validateSync (new_user_doc b w) = None /\
  users w !! next_oid w = None.

Definition stored_by_register {engine : Js.Engine} (b : RegisterBody.t) (w : World)
    (r : option Jwt.token) : World :=
  mkWorld
    (<[next_oid w :=
         registered_user (Js.trim (RegisterBody.name b)) (Js.trim (RegisterBody.email b))
           (RegisterBody.password b) (next_salt w) (clock w) r]> (users w))
    (clock w) (S (next_oid w)) (S (next_salt w)).

(** ** The default admin *)

Definition default_admin_record (salt : nat) (now : Z) : User.t :=
  User.mk "Admin" "admin@example.com"
    (Some (Bcrypt.hash (Bcrypt.hash (Bcrypt.Plain "admin123") 10 salt) 12 (S salt)))
    false true None Role_admin "" "" None (Some now) (Some now).

Definition has_email (e : string) : nat -> User.t -> bool :=
  fun _ u => bool_decide (User.email u = e).

(** ** The users routes *)

Definition cannot_delete_own_account : Response :=
  mkResponse 400 [] (JObj [("msg", JStr "Cannot delete your own account")]).

Definition user_removed : Response :=
  mkResponse 200 [] (JObj [("msg", JStr "User removed")]).

(** Closed goals over the small deployment are decided by evaluation. *)
Ltac decide_closed := vm_compute; first [reflexivity | discriminate].

(** * Properties *)

(** ** Running the monad *)

Ltac munfold :=
  unfold handle, try_catch, mbind, M_bind, mret, M_ret, lift, throw, Date_now.

Section Properties.

Context {engine : Js.Engine}.

(** ** Queries *)

Lemma find_user_Some P m k u :
  find_user P m = Some (k, u) -> m !! k = Some u /\ P k u = true.
Proof.
  unfold find_user. intros H. apply find_some in H as [Hin HP].
  split; [|exact HP].
  apply elem_of_map_to_list, list_elem_of_In. exact Hin.
Qed.

Lemma find_user_None P m k u :
  find_user P m = None -> m !! k = Some u -> P k u = false.
Proof.
  unfold find_user. intros H Hk.
  apply (find_none _ _ H (k, u)).
  apply list_elem_of_In, elem_of_map_to_list. exact Hk.
Qed.

Lemma find_user_is_Some P m k u :
  m !! k = Some u -> P k u = true -> is_Some (find_user P m).
Proof.
  intros Hk HP. destruct (find_user P m) as [kv|] eqn:E; [eauto|].
  rewrite (find_user_None _ _ _ _ E Hk) in HP. discriminate.
Qed.

Lemma truthy_cookie_Some c t :
  truthy_cookie c = Some t -> c = Some t /\ Jwt.truthy t = true.
Proof.
  destruct c as [t'|]; cbn; [|discriminate].
  destruct (Jwt.truthy t') eqn:E; intros [= <-]; auto.
Qed.

Lemma verify_Ok_truthy t s now p :
  Jwt.verify t s now = Ok p -> Jwt.truthy t = true.
Proof. destruct t; cbn; [destruct (Js.truthy raw); discriminate | auto]. Qed.

(** ** Token issuance *)

Lemma env_truthy_Some v :
  Js.env_truthy v = true -> exists k, v = Some k /\ Js.truthy k = true.
Proof. destruct v as [k|]; cbn; [eauto|discriminate]. Qed.

Lemma generateAuthTokens_ok env d w ka kb :
  JWT_SECRET env = Some ka -> Js.truthy ka = true ->
  REFRESH_TOKEN_SECRET env = Some kb -> Js.truthy kb = true ->
  generateAuthTokens env d w =
    (Ok (assign_refreshToken (refreshToken_at kb d (clock w)) d,
         (accessToken_at ka d (clock w), refreshToken_at kb d (clock w))), w).
Proof.
  intros Ha Hta Hb Htb. unfold generateAuthTokens.
  rewrite Ha, Hb. cbn [Js.env_truthy]. rewrite Hta, Htb. cbn [negb orb].
  munfold. unfold Jwt.sign. rewrite Hta, Htb. reflexivity.
Qed.

Lemma generateAuthTokens_inv env d w o w' :
  generateAuthTokens env d w = (o, w') ->
  w' = w /\
  match o with
  | Ok r => exists ka kb,
      JWT_SECRET env = Some ka /\ Js.truthy ka = true /\
      REFRESH_TOKEN_SECRET env = Some kb /\ Js.truthy kb = true /\
      r = (assign_refreshToken (refreshToken_at kb d (clock w)) d,
           (accessToken_at ka d (clock w), refreshToken_at kb d (clock w)))
  | Throw e =>
      Js.env_truthy (JWT_SECRET env) && Js.env_truthy (REFRESH_TOKEN_SECRET env) = false
  end.
Proof.
  destruct (Js.env_truthy (JWT_SECRET env)) eqn:Ea.
  - destruct (Js.env_truthy (REFRESH_TOKEN_SECRET env)) eqn:Eb.
    + apply env_truthy_Some in Ea as (ka & Ha & Hta).
      apply env_truthy_Some in Eb as (kb & Hb & Htb).
      rewrite (generateAuthTokens_ok env d w ka kb) by assumption.
      intros [= <- <-]. split; [reflexivity|]. exists ka, kb. auto.
    + unfold generateAuthTokens. rewrite Ea, Eb. cbn. intros [= <- <-]. auto.
  - unfold generateAuthTokens. rewrite Ea. cbn. intros [= <- <-]. auto.
Qed.

Lemma generateVerificationToken_world env d w o w' :
  generateVerificationToken env d w = (o, w') -> w' = w.
Proof.
  unfold generateVerificationToken. munfold. intros [= _ <-]. reflexivity.
Qed.

(** ** Assignments to a document and [save] *)

Lemma assign_refreshToken_idem t d :
  assign_refreshToken t (assign_refreshToken t d) = assign_refreshToken t d.
Proof.
  unfold assign_refreshToken at 2.
  case_bool_decide as H.
  - unfold assign_refreshToken. rewrite bool_decide_eq_true_2; auto.
  - unfold assign_refreshToken. cbn. rewrite bool_decide_eq_true_2 by reflexivity.
    rewrite bool_decide_eq_false_2 by assumption. reflexivity.
Qed.

Lemma assign_refreshToken_loaded t k u :
  assign_refreshToken t (hydrate false false (k, u)) =
    mkDoc k (User.set_refreshToken (Some t) (fields (hydrate false false (k, u))))
      false ["refreshToken"].
Proof. reflexivity. Qed.

Lemma save_unmodified d w :
  isNew d = false -> modified d = [] -> save d w = (Ok d, w).
Proof.
  intros Hn Hm. unfold save, validateSync, pre_save, isModified.
  rewrite Hn, Hm. cbn [forallb].
  replace (bool_decide ("password" ∈ [])) with false by reflexivity.
  cbn [negb]. munfold. rewrite Hn, Hm. reflexivity.
Qed.

(** Saving a loaded document whose only modified path is [lastLogin] or
    [refreshToken] sets that path on the stored record. *)
Lemma save_set1 d w p :
  isNew d = false -> modified d = [p] ->
  p = "lastLogin" \/ p = "refreshToken" ->
  save d w =
    match users w !! _id d with
    | None => (Throw DocumentNotFound, w)
    | Some u =>
        (Ok (mkDoc (_id d)
               (User.set_timestamps (User.createdAt (fields d)) (Some (clock w)) (fields d))
               false []),
         set_users (<[_id d := User.set_timestamps (User.createdAt u) (Some (clock w))
                                 (User.copy_path p (fields d) u)]> (users w)) w)
    end.
Proof.
  intros Hn Hm Hp. unfold save, validateSync, pre_save, isModified, updateOne.
  rewrite Hn, Hm.
  destruct Hp as [-> | ->].
  - replace (forallb _ _) with true by reflexivity.
    replace (bool_decide ("password" ∈ ["lastLogin"])) with false by reflexivity.
    cbn [negb]. munfold. rewrite Hn, Hm.
    replace (bool_decide ("email" ∈ ["lastLogin"])) with false by reflexivity.
    replace (bool_decide (["lastLogin"] = [])) with false by reflexivity.
    destruct (users w !! _id d); reflexivity.
  - replace (forallb _ _) with true by reflexivity.
    replace (bool_decide ("password" ∈ ["refreshToken"])) with false by reflexivity.
    cbn [negb]. munfold. rewrite Hn, Hm.
    replace (bool_decide ("email" ∈ ["refreshToken"])) with false by reflexivity.
    replace (bool_decide (["refreshToken"] = [])) with false by reflexivity.
    destruct (users w !! _id d); reflexivity.
Qed.

Lemma copy_path_email p src u :
  User.email (User.copy_path p src u) =
  if bool_decide (p = "email") then User.email src else User.email u.
Proof.
  unfold User.copy_path.
  repeat (case_bool_decide; subst; try discriminate; try reflexivity).
Qed.

Lemma copy_paths_email ps src u :
  User.email (User.copy_paths ps src u) =
  if bool_decide ("email" ∈ ps) then User.email src else User.email u.
Proof.
  unfold User.copy_paths. revert u.
  induction ps as [|p ps IH]; intros u; cbn [fold_left].
  - rewrite bool_decide_eq_false_2 by apply not_elem_of_nil. reflexivity.
  - rewrite IH, copy_path_email.
    destruct (decide (p = "email")) as [->|Hp].
    + rewrite (bool_decide_eq_true_2 ("email" = "email")) by reflexivity.
      rewrite (bool_decide_eq_true_2 ("email" ∈ "email" :: ps))
        by (apply elem_of_cons; auto).
      case_bool_decide; reflexivity.
    + rewrite (bool_decide_eq_false_2 (p = "email")) by assumption.
      destruct (decide ("email" ∈ ps)) as [Hin|Hin].
      * rewrite !bool_decide_eq_true_2 by (try apply elem_of_cons; auto).
        reflexivity.
      * rewrite !bool_decide_eq_false_2
          by (try apply not_elem_of_cons; auto).
        reflexivity.
Qed.

Lemma unique_email_insert_fresh m id u :
  unique_email m -> m !! id = None ->
  find_user (fun _ v => bool_decide (User.email v = User.email u)) m = None ->
  unique_email (<[id := u]> m).
Proof.
  intros Hm Hid Hf k1 k2 u1 u2 H1 H2 He.
  destruct (decide (k1 = id)) as [->|N1]; destruct (decide (k2 = id)) as [->|N2];
    try reflexivity.
  - rewrite lookup_insert_eq in H1. rewrite lookup_insert_ne in H2 by auto.
    injection H1 as <-.
    pose proof (find_user_None _ _ _ _ Hf H2) as Hx. cbn in Hx.
    apply bool_decide_eq_false in Hx. congruence.
  - rewrite lookup_insert_eq in H2. rewrite lookup_insert_ne in H1 by auto.
    injection H2 as <-.
    pose proof (find_user_None _ _ _ _ Hf H1) as Hx. cbn in Hx.
    apply bool_decide_eq_false in Hx. congruence.
  - rewrite lookup_insert_ne in H1, H2 by auto. eauto.
Qed.

Lemma unique_email_update m id u u' :
  unique_email m -> m !! id = Some u ->
  (User.email u' = User.email u \/
   find_user (fun k v => negb (bool_decide (k = id)) &&
                         bool_decide (User.email v = User.email u')) m = None) ->
  unique_email (<[id := u']> m).
Proof.
  intros Hm Hid Hor k1 k2 u1 u2 H1 H2 He.
  destruct (decide (k1 = id)) as [->|N1]; destruct (decide (k2 = id)) as [->|N2];
    try reflexivity.
  - rewrite lookup_insert_eq in H1. rewrite lookup_insert_ne in H2 by auto.
    injection H1 as <-. destruct Hor as [Hsame | Hf].
    + apply (Hm _ _ _ _ Hid H2). congruence.
    + pose proof (find_user_None _ _ _ _ Hf H2) as Hx. cbn in Hx.
      rewrite (bool_decide_eq_false_2 (k2 = id)) in Hx by auto. cbn in Hx.
      apply bool_decide_eq_false in Hx. congruence.
  - rewrite lookup_insert_eq in H2. rewrite lookup_insert_ne in H1 by auto.
    injection H2 as <-. destruct Hor as [Hsame | Hf].
    + apply (Hm _ _ _ _ H1 Hid). congruence.
    + pose proof (find_user_None _ _ _ _ Hf H1) as Hx. cbn in Hx.
      rewrite (bool_decide_eq_false_2 (k1 = id)) in Hx by auto. cbn in Hx.
      apply bool_decide_eq_false in Hx. congruence.
  - rewrite lookup_insert_ne in H1, H2 by auto. eauto.
Qed.

Lemma insertOne_unique_email id u w o w' :
  insertOne id u w = (o, w') -> unique_email (users w) -> unique_email (users w').
Proof.
  unfold insertOne. intros H Hu.
  destruct (users w !! id) eqn:Hid; [injection H as _ <-; exact Hu|].
  destruct (find_user _ _) eqn:Hf; injection H as _ <-; [exact Hu|].
  cbn. apply unique_email_insert_fresh; assumption.
Qed.

Lemma updateOne_unique_email id ps src now w o w' :
  updateOne id ps src now w = (o, w') -> unique_email (users w) -> unique_email (users w').
Proof.
  unfold updateOne. intros H Hu.
  destruct (users w !! id) as [u|] eqn:Hid; [|injection H as _ <-; exact Hu].
  destruct (if bool_decide ("email" ∈ ps) then _ else None) eqn:Hf;
    injection H as _ <-; [exact Hu|].
  cbn. eapply unique_email_update; [exact Hu|exact Hid|].
  change (User.email (User.set_timestamps ?a ?b ?x)) with (User.email x).
  rewrite copy_paths_email.
  case_bool_decide; [right; exact Hf | left; reflexivity].
Qed.

Lemma pre_save_users d w o w' : pre_save d w = (o, w') -> users w' = users w /\ clock w' = clock w.
Proof.
  unfold pre_save. destruct (negb _); munfold; [intros [= _ <-]; auto|].
  unfold genSalt. destruct (User.password (fields d)); intros [= _ <-]; auto.
Qed.

Lemma save_unique_email d w o w' :
  save d w = (o, w') -> unique_email (users w) -> unique_email (users w').
Proof.
  unfold save. destruct (validateSync d); [intros [= _ <-]; auto|].
  unfold mbind at 1. unfold M_bind.
  destruct (pre_save d w) as [[d1|e] w1] eqn:Hp; apply pre_save_users in Hp as [Hp _];
    [|intros [= _ <-] ?; rewrite Hp; auto].
  munfold. destruct (isNew d1).
  - destruct (insertOne _ _ w1) as [[[]|e] w2] eqn:Hi; intros [= _ <-] Hu;
      eapply insertOne_unique_email; eauto; rewrite Hp; auto.
  - case_bool_decide; [intros [= _ <-] ?; rewrite Hp; auto|].
    destruct (updateOne _ _ _ _ w1) as [[[]|e] w2] eqn:Hi; intros [= _ <-] Hu;
      eapply updateOne_unique_email; eauto; rewrite Hp; auto.
Qed.

Lemma save_new_Ok d w d' w' :
  isNew d = true -> save d w = (Ok d', w') ->
  users w !! _id d = None /\
  users w' = <[_id d := fields d']> (users w) /\
  clock w' = clock w /\
  _id d' = _id d /\ isNew d' = false /\ modified d' = [] /\
  User.email (fields d') = User.email (fields d) /\
  User.refreshToken (fields d') = User.refreshToken (fields d) /\
  User.role (fields d') = User.role (fields d).
Proof.
  intros Hn. unfold save. destruct (validateSync d); [discriminate|].
  unfold mbind at 1. unfold M_bind.
  destruct (pre_save d w) as [[d1|e] w1] eqn:Hp; [|discriminate].
  assert (Hd1 : _id d1 = _id d /\ isNew d1 = true /\
                User.email (fields d1) = User.email (fields d) /\
                User.refreshToken (fields d1) = User.refreshToken (fields d) /\
                User.role (fields d1) = User.role (fields d)).
  { revert Hp. unfold pre_save. destruct (negb _); munfold.
    - intros [= <- _]. auto.
    - unfold genSalt. destruct (User.password (fields d)); [|discriminate].
      intros [= <- _]. cbn. auto. }
  apply pre_save_users in Hp as [Hu Hc].
  destruct Hd1 as (Hid & Hn1 & He & Hr & Hro).
  munfold. rewrite Hn1. unfold insertOne.
  destruct (users w1 !! _id d1) eqn:Hl; [discriminate|].
  destruct (find_user _ _); [discriminate|].
  intros [= <- <-]. cbn. rewrite <- Hu, <- Hid, Hc. auto 10.
Qed.

(** ** The outcomes of a registration *)

Lemma register_cases isEmail env b w :
  let email := Js.trim (RegisterBody.email b) in
  let r := register isEmail env b w in
  (status r.1 = 400 /\ r.2 = w /\
   (r.1 = email_already_registered <->
    register_errors isEmail (Js.trim (RegisterBody.name b)) email (RegisterBody.password b) = [] /\
    is_Some (find_user (fun _ u => bool_decide (User.email u = User.cast_email email)) (users w))))
  \/ status r.1 = 500
  \/ (exists d ka kb u,
        JWT_SECRET env = Some ka /\ REFRESH_TOKEN_SECRET env = Some kb /\
        r.1 = registration_successful env d
                (accessToken_at ka d (clock w)) (refreshToken_at kb d (clock w)) /\
        find_user (fun _ u => bool_decide (User.email u = User.cast_email email)) (users w) = None /\
        users r.2 !! _id d = Some u /\
        User.email u = User.cast_email email /\
        User.refreshToken u = Some (refreshToken_at kb d (clock w))).
Proof.
  cbv zeta. unfold register.
  case_bool_decide as Herr; cbn [negb].
  2:{ left. cbn. repeat split; try discriminate. all: try (intros [? _]; contradiction). }
  unfold findOne_email, new_User, new_ObjectId. munfold.
  destruct (find_user _ _) as [kv|] eqn:Hf; cbn [fmap option_fmap option_map].
  { left. cbn. repeat split; eauto using mk_is_Some. }
  set (d0 := mkDoc _ _ _ _).
  set (w0 := mkWorld _ _ _ _).
  destruct (save d0 w0) as [[d1|e] w1] eqn:Hs; [|right; left; reflexivity].
  apply save_new_Ok in Hs as (Hnone & Hu1 & Hc1 & Hid & Hn & Hm & He & Hr & Hro); [|reflexivity].
  destruct (generateVerificationToken env d1 w1) as [[v|e] w2] eqn:Hv;
    apply generateVerificationToken_world in Hv as ->; [|right; left; reflexivity].
  destruct (generateAuthTokens env d1 w1) as [[[d2 [a r]]|e] w2] eqn:Hg;
    apply generateAuthTokens_inv in Hg as [-> Hg]; [|right; left; reflexivity].
  destruct Hg as (ka & kb & Ha & _ & Hb & _ & Hg). injection Hg as -> -> ->.
  rewrite assign_refreshToken_idem.
  assert (Hd2 : assign_refreshToken (refreshToken_at kb d1 (clock w1)) d1 =
                mkDoc (_id d1) (User.set_refreshToken (Some (refreshToken_at kb d1 (clock w1))) (fields d1))
                  false ["refreshToken"]).
  { unfold assign_refreshToken. rewrite Hr. cbn [d0 fields User.refreshToken].
    rewrite bool_decide_eq_false_2 by discriminate. rewrite Hn, Hm. reflexivity. }
  rewrite Hd2. erewrite save_set1 by (reflexivity || auto). cbn [_id].
  rewrite Hu1, Hid, lookup_insert_eq. cbn [fst snd].
  right; right.
  match goal with |- context [toObject ?d] => exists d end.
  exists ka, kb. eexists.
  split; [exact Ha|]. split; [exact Hb|].
  split; [|split; [reflexivity|split; [|split]]].
  - unfold registration_successful, user_projection, accessToken_at, refreshToken_at.
    cbn [_id fields User.role User.set_timestamps User.set_refreshToken].
    rewrite Hc1, Hid. reflexivity.
  - cbn [users set_users _id]. apply lookup_insert_eq.
  - cbn. exact He.
  - unfold refreshToken_at. cbn. rewrite Hc1, Hid. reflexivity.
Qed.

Lemma with_email_elem e m k u :
  (k, u) ∈ with_email e m <-> m !! k = Some u /\ User.email u = e.
Proof.
  unfold with_email. rewrite list_elem_of_filter, elem_of_map_to_list.
  cbn. tauto.
Qed.

Lemma with_email_length e m :
  unique_email m -> length (with_email e m) <= 1.
Proof.
  intros Hu.
  assert (Hnd : NoDup (with_email e m)).
  { unfold with_email. apply NoDup_filter, NoDup_map_to_list. }
  destruct (with_email e m) as [|[k1 u1] [|[k2 u2] l]] eqn:E; cbn; try lia.
  exfalso.
  assert (H1 : (k1, u1) ∈ with_email e m) by (rewrite E; set_solver).
  assert (H2 : (k2, u2) ∈ with_email e m) by (rewrite E; set_solver).
  apply with_email_elem in H1 as [H1 E1], H2 as [H2 E2].
  assert (k1 = k2) by (eapply Hu; eauto; congruence). subst k2.
  assert (u1 = u2) by congruence. subst u2.
  apply NoDup_cons in Hnd as [Hnin _]. apply Hnin. set_solver.
Qed.

Lemma with_email_nonempty e m k u :
  m !! k = Some u -> User.email u = e -> 1 <= length (with_email e m).
Proof.
  intros Hk He. assert (H : (k, u) ∈ with_email e m) by (apply with_email_elem; auto).
  destruct (with_email e m); [set_solver | cbn; lia].
Qed.

Lemma register_unique_email isEmail env b w :
  unique_email (users w) -> unique_email (users (register isEmail env b w).2).
Proof.
  intros Hu. unfold register. case_bool_decide; cbn [negb]; [|exact Hu].
  unfold findOne_email, new_User, new_ObjectId. munfold.
  destruct (find_user _ _); cbn [fmap option_fmap option_map]; [exact Hu|].
  set (d0 := mkDoc _ _ _ _). set (w0 := mkWorld _ _ _ _).
  assert (Hu0 : unique_email (users w0)) by exact Hu.
  destruct (save d0 w0) as [[d1|e] w1] eqn:Hs;
    apply save_unique_email in Hs; auto.
  destruct (generateVerificationToken env d1 w1) as [[v|e] w2] eqn:Hv;
    apply generateVerificationToken_world in Hv as ->; auto.
  destruct (generateAuthTokens env d1 w1) as [[[d2 [a r]]|e] w2] eqn:Hg;
    apply generateAuthTokens_inv in Hg as [-> _]; auto.
  destruct (save _ w1) as [[d3|e] w3] eqn:Hs2;
    apply save_unique_email in Hs2; auto.
Qed.

(** ** The outcomes of a login *)

Lemma insertOne_clock id u w o w' : insertOne id u w = (o, w') -> clock w' = clock w.
Proof.
  unfold insertOne. destruct (users w !! id); [intros [= _ <-]; auto|].
  destruct (find_user _ _); intros [= _ <-]; auto.
Qed.

Lemma updateOne_clock id ps src now w o w' :
  updateOne id ps src now w = (o, w') -> clock w' = clock w.
Proof.
  unfold updateOne. destruct (users w !! id); [|intros [= _ <-]; auto].
  destruct (if bool_decide _ then _ else None); intros [= _ <-]; auto.
Qed.

Lemma save_clock d w o w' : save d w = (o, w') -> clock w' = clock w.
Proof.
  unfold save. destruct (validateSync d); [intros [= _ <-]; auto|].
  unfold mbind at 1. unfold M_bind.
  destruct (pre_save d w) as [[d1|e] w1] eqn:Hp; apply pre_save_users in Hp as [_ Hp];
    [|intros [= _ <-]; auto].
  munfold. destruct (isNew d1).
  - destruct (insertOne _ _ w1) as [[[]|e] w2] eqn:Hi; intros [= _ <-];
      apply insertOne_clock in Hi; congruence.
  - case_bool_decide; [intros [= _ <-]; auto|].
    destruct (updateOne _ _ _ _ w1) as [[[]|e] w2] eqn:Hi; intros [= _ <-];
      apply updateOne_clock in Hi; congruence.
Qed.

Lemma login_errors_nil isEmail b :
  login_errors isEmail b = [] ->
  isEmail (LoginBody.email b) = true /\ exists c, LoginBody.password b = Some c.
Proof.
  unfold login_errors. destruct (isEmail _); [|discriminate].
  destruct (LoginBody.password b); [eauto|discriminate].
Qed.

Lemma login_spec isEmail env b w :
  login_errors isEmail b = [] ->
  let r := login isEmail env b w in
  match find_user (fun _ u => bool_decide (User.email u = User.cast_email (LoginBody.email b)))
          (users w) with
  | None => r = (invalid_credentials, w)
  | Some kv =>
      match LoginBody.password b, User.password kv.2 with
      | Some c, Some h =>
          if Bcrypt.compare c h then
            if User.isActive kv.2 then
              status r.1 = 500 \/
              exists d d' ka kb,
                JWT_SECRET env = Some ka /\ REFRESH_TOKEN_SECRET env = Some kb /\
                r.1 = login_successful env d (accessToken_at ka d' (clock w))
                        (refreshToken_at kb d' (clock w))
            else r = (account_deactivated, w)
          else r = (invalid_credentials, w)
      | _, _ => status r.1 = 500
      end
  end.
Proof.
  intros Herr. cbv zeta. unfold login. rewrite Herr.
  rewrite (bool_decide_eq_true_2 ([] = [])) by reflexivity. cbn [negb].
  unfold findOne_email. munfold.
  destruct (find_user _ _) as [[k u]|] eqn:Hf; cbn [fmap option_fmap option_map];
    [|reflexivity].
  unfold comparePassword. cbn [hydrate fields snd User.password User.set_password User.set_refreshToken].
  destruct (LoginBody.password b) as [c|]; [|reflexivity].
  destruct (User.password u) as [h|]; [|reflexivity].
  munfold. destruct (Bcrypt.compare c h); cbn [negb]; [|reflexivity].
  change (User.isActive (User.set_refreshToken _ (User.set_password _ u)))
    with (User.isActive u).
  destruct (User.isActive u); cbn [negb]; [|reflexivity].
  destruct (save _ w) as [[d1|e] w1] eqn:Hs; [|left; reflexivity].
  apply save_clock in Hs.
  destruct (generateAuthTokens env d1 w1) as [[[d2 [a r]]|e] w2] eqn:Hg;
    apply generateAuthTokens_inv in Hg as [-> Hg]; [|left; reflexivity].
  destruct Hg as (ka & kb & Ha & _ & Hb & _ & Hg). injection Hg as -> -> ->.
  destruct (save _ w1) as [[d3|e] w3] eqn:Hs2; [|left; reflexivity].
  right. exists d3, d1, ka, kb. rewrite <- Hs. auto.
Qed.

Lemma findOne_email_inv e sel w o :
  findOne_email e sel w = (Ok o, w) ->
  o = hydrate sel false <$>
        find_user (fun _ u => bool_decide (User.email u = User.cast_email e)) (users w).
Proof. unfold findOne_email. intros [= <-]. reflexivity. Qed.

Lemma comparePassword_inv d c w b :
  comparePassword d c w = (Ok b, w) ->
  exists s h, c = Some s /\ User.password (fields d) = Some h /\ Bcrypt.compare s h = b.
Proof.
  unfold comparePassword. destruct c as [s|]; [|discriminate].
  destruct (User.password (fields d)) as [h|]; [|discriminate].
  munfold. intros [= <-]. eauto.
Qed.

(** ** The sanitized projection *)

Lemma user_projection_clean d :
  get "password" (user_projection d) = None /\
  get "refreshToken" (user_projection d) = None /\
  tokens_of (user_projection d) = [] /\
  hashes_of (user_projection d) = [].
Proof.
  destruct d as [id [n e pw v a ll r av ph rt ca ua] nw md].
  destruct pw, ll, rt, ca, ua; repeat split; reflexivity.
Qed.

(** ** The request authenticator *)

Lemma verifyAccessToken_spec env t w :
  verifyAccessToken env t w =
    (match Jwt.verify t (JWT_SECRET env) (clock w) with
     | Ok p => Ok p
     | Throw e =>
         if bool_decide (name e = "TokenExpiredError")
         then Throw (mkError "Error" "Access token expired")
         else Throw (mkError "Error" "Invalid access token")
     end, w).
Proof.
  unfold verifyAccessToken. munfold.
  destruct (Js.env_truthy (JWT_SECRET env)) eqn:E; cbn [negb].
  - destruct (Jwt.verify _ _ _) as [p|e]; [reflexivity|].
    destruct (bool_decide _); reflexivity.
  - destruct t as [raw|k p]; cbn; [destruct (Js.truthy raw); reflexivity|].
    rewrite E. reflexivity.
Qed.

Lemma protect_spec env c w :
  protect env c w =
    (match truthy_cookie (js_or (Cookies.accessToken c) (Cookies.token c)) with
     | None => Respond no_access_token
     | Some t =>
         match Jwt.verify t (JWT_SECRET env) (clock w) with
         | Ok p =>
             match users w !! Jwt.id p with
             | Some u => Next (hydrate false false (Jwt.id p, u))
             | None => Respond invalid_access_token
             end
         | Throw e =>
             if bool_decide (name e = "TokenExpiredError")
             then Respond access_token_expired
             else Respond invalid_access_token
         end
     end, w).
Proof.
  unfold protect, handle.
  destruct (truthy_cookie _) as [t|]; [|reflexivity].
  unfold try_catch. unfold mbind at 1. unfold M_bind.
  rewrite verifyAccessToken_spec.
  destruct (Jwt.verify _ _ _) as [p|e].
  - unfold findById. munfold. destruct (users w !! Jwt.id p); reflexivity.
  - destruct (bool_decide _); reflexivity.
Qed.

(** ** The refresh and logout routes, run *)

Lemma verify_Ok_secret t s now p :
  Jwt.verify t s now = Ok p ->
  exists k, s = Some k /\ Js.truthy k = true /\ t = Jwt.Signed k p /\
            (Jwt.clockTimestamp now < Jwt.exp p)%Z.
Proof.
  destruct t as [raw|k q]; cbn; [destruct (Js.truthy raw); discriminate|].
  destruct (Js.env_truthy s) eqn:Es; [|discriminate].
  case_bool_decide as Hk; [|discriminate].
  case_bool_decide as He; [discriminate|].
  intros [= <-]. exists k. subst s. cbn in Es. repeat split; auto. lia.
Qed.

Lemma verify_Signed k p now :
  Js.truthy k = true ->
  Jwt.verify (Jwt.Signed k p) (Some k) now =
    if bool_decide (Jwt.exp p <= Jwt.clockTimestamp now)%Z
    then Throw (mkError "TokenExpiredError" "jwt expired")
    else Ok p.
Proof.
  intros Hk. cbn. rewrite Hk. rewrite bool_decide_eq_true_2 by reflexivity. reflexivity.
Qed.

Lemma refresh_token_run env c w :
  refresh_token env c w =
    match truthy_cookie (Cookies.refreshToken c) with
    | None => (no_refresh_token, w)
    | Some t =>
        match Jwt.verify t (REFRESH_TOKEN_SECRET env) (clock w) with
        | Throw _ => (invalid_or_expired_refresh_token env, w)
        | Ok p =>
            match users w !! Jwt.id p with
            | None => (invalid_refresh_token, w)
            | Some u =>
                if bool_decide (User.refreshToken u = Some t) then
                  match JWT_SECRET env, REFRESH_TOKEN_SECRET env with
                  | Some ka, Some kb =>
                      if Js.truthy ka then
                        let r := Jwt.Signed kb (refresh_payload (Jwt.id p) (clock w)) in
                        (refreshed env
                           (Jwt.Signed ka (access_payload (Jwt.id p) (User.role u) (clock w)))
                           r,
                         set_users
                           (<[Jwt.id p :=
                                User.set_timestamps (User.createdAt u) (Some (clock w))
                                  (User.set_refreshToken (Some r) u)]> (users w)) w)
                      else (invalid_or_expired_refresh_token env, w)
                  | _, _ => (invalid_or_expired_refresh_token env, w)
                  end
                else (invalid_refresh_token, w)
            end
        end
    end.
Proof.
  unfold refresh_token, handle.
  destruct (truthy_cookie _) as [t|]; [|reflexivity].
  munfold. destruct (Jwt.verify _ _ _) as [p|e] eqn:Hv; [|reflexivity].
  unfold findOne_id_refreshToken.
  destruct (users w !! Jwt.id p) as [u|] eqn:Hu; [|reflexivity].
  case_bool_decide as Hrt; [|reflexivity].
  apply verify_Ok_secret in Hv as (kb & Hb & Htb & _ & _). rewrite Hb.
  destruct (JWT_SECRET env) as [ka|] eqn:Ha.
  - destruct (Js.truthy ka) eqn:Hta.
    + rewrite (generateAuthTokens_ok env _ w ka kb) by assumption.
      rewrite assign_refreshToken_idem, assign_refreshToken_loaded.
      erewrite save_set1 by (reflexivity || auto). cbn [_id]. rewrite Hu.
      reflexivity.
    + unfold generateAuthTokens. rewrite Ha. cbn [Js.env_truthy]. rewrite Hta.
      reflexivity.
  - unfold generateAuthTokens. rewrite Ha. reflexivity.
Qed.

Lemma logout_run env c w :
  logout env c w =
    (logged_out env,
     match truthy_cookie (Cookies.refreshToken c) with
     | None => w
     | Some t =>
         match Jwt.verify t (REFRESH_TOKEN_SECRET env) (clock w) with
         | Throw _ => w
         | Ok p =>
             match users w !! Jwt.id p with
             | None => w
             | Some u =>
                 set_users
                   (<[Jwt.id p :=
                        User.set_timestamps (User.createdAt u) (Some (clock w))
                          (User.set_refreshToken None u)]> (users w)) w
             end
         end
     end).
Proof.
  unfold logout, handle.
  destruct (truthy_cookie _) as [t|]; [|reflexivity].
  munfold. destruct (Jwt.verify _ _ _) as [p|e]; [|reflexivity].
  unfold findByIdAndUpdate_unset_refreshToken.
  destruct (users w !! Jwt.id p) as [u|]; reflexivity.
Qed.

(** * The claims of the specification *)


(** C2, as amended. A missing or empty refresh cookie is answered 401
    no-token; a token that fails verification (malformed, bad signature,
    elapsed expiry) is answered 401 invalid-or-expired with the session
    cookies cleared; a verified token that does not match the stored value
    is answered 403; a verified, matching token is answered 200 when the
    access secret is configured, and every 200 body holds the success flag
    and the new access token only. The three failures carry shouldLogout. *)
Theorem refresh_responses (env : Env) (c : Cookies.t) (w : World) :
  let res := (refresh_token env c w).1 in
  (truthy_cookie (Cookies.refreshToken c) = None -> res = no_refresh_token) /\
  (forall t e,
     truthy_cookie (Cookies.refreshToken c) = Some t ->
     Jwt.verify t (REFRESH_TOKEN_SECRET env) (clock w) = Throw e ->
     res = invalid_or_expired_refresh_token env) /\
  (forall t p,
     truthy_cookie (Cookies.refreshToken c) = Some t ->
     Jwt.verify t (REFRESH_TOKEN_SECRET env) (clock w) = Ok p ->
     (forall u, users w !! Jwt.id p = Some u -> User.refreshToken u <> Some t) ->
     res = invalid_refresh_token) /\
  (forall t p u,
     truthy_cookie (Cookies.refreshToken c) = Some t ->
     Jwt.verify t (REFRESH_TOKEN_SECRET env) (clock w) = Ok p ->
     users w !! Jwt.id p = Some u -> User.refreshToken u = Some t ->
     Js.env_truthy (JWT_SECRET env) = true ->
     status res = 200) /\
  (status res = 200 ->
     exists a r,
       body res = JObj [("success", JBool true); ("accessToken", JTok a)] /\
       cookies res = setTokenCookies env a r /\ r <> a) /\
  get "shouldLogout" (body no_refresh_token) = Some (JBool true) /\
  get "shouldLogout" (body (invalid_or_expired_refresh_token env)) = Some (JBool true) /\
  get "shouldLogout" (body invalid_refresh_token) = Some (JBool true).
Proof.
  cbv zeta. unfold refresh_token, handle.
  split; [|split; [|split; [|split; [|split; [|repeat split]]]]].
  - intros ->. reflexivity.
  - intros t e -> Hv. munfold. rewrite Hv. reflexivity.
  - intros t p -> Hv Hne. munfold. rewrite Hv. unfold findOne_id_refreshToken.
    destruct (users w !! Jwt.id p) as [u|] eqn:Hu; [|reflexivity].
    rewrite bool_decide_eq_false_2 by (apply Hne; reflexivity). reflexivity.
  - intros t p u -> Hv Hu Hrt Ha. munfold. rewrite Hv. unfold findOne_id_refreshToken.
    rewrite Hu, bool_decide_eq_true_2 by assumption.
    apply env_truthy_Some in Ha as (ka & Ha & Hta).
    assert (Hb : Js.env_truthy (REFRESH_TOKEN_SECRET env) = true).
    { destruct t as [raw|k q]; cbn in Hv; [destruct (Js.truthy raw); discriminate|].
      destruct (Js.env_truthy _); [reflexivity|discriminate]. }
    apply env_truthy_Some in Hb as (kb & Hb & Htb).
    rewrite (generateAuthTokens_ok env _ w ka kb) by assumption.
    rewrite assign_refreshToken_idem, assign_refreshToken_loaded.
    erewrite save_set1 by (reflexivity || auto). cbn [_id]. rewrite Hu. reflexivity.
  - destruct (truthy_cookie _) as [t|]; [|discriminate].
    munfold. destruct (Jwt.verify _ _ _) as [p|e]; [|discriminate].
    unfold findOne_id_refreshToken.
    destruct (users w !! Jwt.id p) as [u|]; [|discriminate].
    case_bool_decide; [|discriminate].
    destruct (generateAuthTokens _ _ _) as [[[d [a r]]|e] w1] eqn:Hg; [|discriminate].
    apply generateAuthTokens_inv in Hg as [-> (ka & kb & _ & _ & _ & _ & Hr)].
    injection Hr as -> -> ->.
    destruct (save _ w) as [[d3|e] w3]; [|discriminate].
    intros _. eexists _, _. repeat split. discriminate.
Qed.

(** C3. For login requests that pass validation, the response when no record
    matches the email and the response when a record matches but the
    password comparison is false are the same response, the 401
    invalid-credentials one (same status, cookies and body). *)
Theorem login_failures_identical isEmail (env : Env)
    (b1 b2 : LoginBody.t) (w1 w2 : World) (d : Doc) :
  login_errors isEmail b1 = [] ->
  login_errors isEmail b2 = [] ->
  findOne_email (LoginBody.email b1) true w1 = (Ok None, w1) ->
  findOne_email (LoginBody.email b2) true w2 = (Ok (Some d), w2) ->
  comparePassword d (LoginBody.password b2) w2 = (Ok false, w2) ->
  (login isEmail env b1 w1).1 = (login isEmail env b2 w2).1 /\
  (login isEmail env b1 w1).1 = invalid_credentials.
Proof.
  intros He1 He2 Hf1 Hf2 Hc.
  apply findOne_email_inv in Hf1, Hf2.
  apply comparePassword_inv in Hc as (s & h & Hs & Hh & Hcmp).
  pose proof (login_spec isEmail env b1 w1 He1) as H1.
  pose proof (login_spec isEmail env b2 w2 He2) as H2.
  cbv zeta in H1, H2.
  destruct (find_user _ (users w1)); [discriminate|].
  destruct (find_user _ (users w2)) as [[k u]|]; [|discriminate].
  injection Hf2 as ->. cbn in Hh. cbn [snd] in H2.
  rewrite Hs, Hh, Hcmp in H2. rewrite H1, H2. auto.
Qed.

(** C4. In [protect], for the access token read from the cookies: a token
    signed with the configured secret whose expiry has elapsed is answered
    with shouldRefresh true and shouldLogout false; a malformed token or one
    signed with another secret is answered with shouldRefresh false and
    shouldLogout true; a token that verifies but whose subject has no
    record gets that same invalid-token answer. *)
Theorem protect_failure_signals (env : Env) (c : Cookies.t) (w : World) (t : Jwt.token) :
  truthy_cookie (js_or (Cookies.accessToken c) (Cookies.token c)) = Some t ->
  (forall k p,
     t = Jwt.Signed k p -> JWT_SECRET env = Some k -> Js.truthy k = true ->
     (Jwt.exp p <= Jwt.clockTimestamp (clock w))%Z ->
     protect env c w = (Respond access_token_expired, w)) /\
  ((exists raw, t = Jwt.Malformed raw) \/
   (exists k p, t = Jwt.Signed k p /\ JWT_SECRET env <> Some k) ->
   protect env c w = (Respond invalid_access_token, w)) /\
  (forall p,
     Jwt.verify t (JWT_SECRET env) (clock w) = Ok p ->
     users w !! Jwt.id p = None ->
     protect env c w = (Respond invalid_access_token, w)) /\
  get "shouldRefresh" (body access_token_expired) = Some (JBool true) /\
  get "shouldLogout" (body access_token_expired) = Some (JBool false) /\
  get "shouldRefresh" (body invalid_access_token) = Some (JBool false) /\
  get "shouldLogout" (body invalid_access_token) = Some (JBool true).
Proof.
  intros Ht. rewrite protect_spec, Ht.
  split; [|split; [|split; [|repeat split]]].
  - intros k p -> Hk Htk Hexp. cbn. rewrite Hk. cbn. rewrite Htk.
    rewrite bool_decide_eq_true_2 by reflexivity.
    rewrite bool_decide_eq_true_2 by assumption. reflexivity.
  - intros [[raw ->] | (k & p & -> & Hk)]; cbn.
    + destruct (Js.truthy raw); reflexivity.
    + destruct (Js.env_truthy _); [|reflexivity].
      rewrite bool_decide_eq_false_2 by assumption. reflexivity.
  - intros p Hv Hu. rewrite Hv, Hu. reflexivity.
Qed.

(** C5. Logout answers 200 with the success body and clears the cookies
    accessToken, refreshToken and token, whatever the refresh cookie is:
    absent, empty, malformed, forged, expired or valid. *)
Theorem logout_always_succeeds (env : Env) (req_cookies : Cookies.t) (w : World) :
  let res := (logout env req_cookies w).1 in
  status res = 200 /\
  cleared <$> cookies res = [Some "accessToken"; Some "refreshToken"; Some "token"] /\
  body res = JObj [("success", JBool true); ("message", JStr "Logout successful")].
Proof.
  unfold logout, handle.
  destruct (truthy_cookie (Cookies.refreshToken req_cookies)) as [t|];
    [|cbn; auto].
  munfold.
  destruct (Jwt.verify t (REFRESH_TOKEN_SECRET env) (clock w)) as [p|e];
    [|cbn; auto].
  destruct (findByIdAndUpdate_unset_refreshToken (Jwt.id p) w) as [[o|e] w'];
    cbn; auto.
Qed.

(** C6. For a login request that passes validation, the status is 403
    exactly when the email resolves to a record, the password comparison is
    true and the record's isActive flag is false, and the response is then
    the account-deactivated one; a record with isActive false and a failing
    password comparison gets the 401 invalid-credentials response. *)
Theorem login_deactivated_exactly isEmail (env : Env) (b : LoginBody.t) (w : World) :
  login_errors isEmail b = [] ->
  let res := (login isEmail env b w).1 in
  (status res = 403 <->
     exists d,
       findOne_email (LoginBody.email b) true w = (Ok (Some d), w) /\
       comparePassword d (LoginBody.password b) w = (Ok true, w) /\
       User.isActive (fields d) = false) /\
  (status res = 403 -> res = account_deactivated) /\
  (forall d,
     findOne_email (LoginBody.email b) true w = (Ok (Some d), w) ->
     User.isActive (fields d) = false ->
     comparePassword d (LoginBody.password b) w = (Ok false, w) ->
     res = invalid_credentials).
Proof.
  intros Herr. cbv zeta.
  pose proof (login_spec isEmail env b w Herr) as H. cbv zeta in H.
  unfold findOne_email, comparePassword.
  destruct (find_user _ (users w)) as [[k u]|]; cbn [fmap option_fmap option_map].
  { cbn [snd] in H.
    destruct (LoginBody.password b) as [c|].
    - destruct (User.password u) as [h|] eqn:Hpw.
      + destruct (Bcrypt.compare c h) eqn:Hcmp.
        * destruct (User.isActive u) eqn:Hact.
          -- assert (Hne : status (login isEmail env b w).1 <> 403).
             { destruct H as [H | (? & ? & ? & ? & _ & _ & H)]; rewrite H; discriminate. }
             split; [split|split]; try (intros Hst; contradiction).
             ++ intros (d & [= <-] & _ & Hd). cbn in Hd. congruence.
             ++ intros d [= <-] _ Hc. cbn in Hc. rewrite Hpw in Hc.
                revert Hc. munfold. rewrite Hcmp. discriminate.
          -- rewrite H. split; [split|split]; auto.
             ++ intros _. eexists. split; [reflexivity|]. cbn. rewrite Hpw.
                munfold. rewrite Hcmp. auto.
             ++ intros d [= <-] _ Hc. cbn in Hc. rewrite Hpw in Hc.
                revert Hc. munfold. rewrite Hcmp. discriminate.
        * rewrite H. split; [split|split]; auto; try discriminate.
          intros (d & [= <-] & Hc & _). cbn in Hc. rewrite Hpw in Hc.
          revert Hc. munfold. rewrite Hcmp. discriminate.
      + split; [split|split]; try (rewrite H; discriminate).
        * intros (d & [= <-] & Hc & _). cbn in Hc. rewrite Hpw in Hc. discriminate.
        * intros d [= <-] _ Hc. cbn in Hc. rewrite Hpw in Hc. discriminate.
    - split; [split|split]; try (rewrite H; discriminate).
      + intros (d & _ & Hc & _). discriminate.
      + intros d _ _ Hc. discriminate. }
  rewrite H. split; [split|split];
    first [discriminate | intros (d & [=] & _) | intros d [=]].
Qed.

(** C7. Two registrations whose emails are equal up to letter case, that is,
    have the same [toLowerCase] once the validation chain has trimmed them,
    whatever the engine's lower-case mapping is outside ASCII. Run one
    after the other on a collection that satisfies the unique index, they
    leave at most one record under that email. When the first is answered
    201, the second is answered 400 and leaves the world as it was (no
    insert, no salt drawn, so no hash computed), exactly one record is
    stored under the email, and the 400 is the email-already-registered
    response whenever the second request passes validation. *)
Theorem register_twice_same_email isEmail env b1 b2 w :
  Js.toLowerCase (Js.trim (RegisterBody.email b1))
    = Js.toLowerCase (Js.trim (RegisterBody.email b2)) ->
  unique_email (users w) ->
  let r1 := register isEmail env b1 w in
  let r2 := register isEmail env b2 r1.2 in
  let e := User.cast_email (Js.trim (RegisterBody.email b1)) in
  length (with_email e (users r2.2)) <= 1 /\
  (status r1.1 = 201 ->
     status r2.1 = 400 /\ r2.2 = r1.2 /\
     length (with_email e (users r2.2)) = 1 /\
     (register_errors isEmail (Js.trim (RegisterBody.name b2))
        (Js.trim (RegisterBody.email b2)) (RegisterBody.password b2) = [] ->
      r2.1 = email_already_registered)).
Proof.
  intros Heq Hu. cbv zeta. split.
  { apply with_email_length. do 2 apply register_unique_email. exact Hu. }
  intros H201.
  assert (Hcast : User.cast_email (Js.trim (RegisterBody.email b1))
                  = User.cast_email (Js.trim (RegisterBody.email b2)))
    by (unfold User.cast_email; rewrite Heq; reflexivity).
  destruct (register_cases isEmail env b1 w) as [(H400 & _) | [H500 | Hok]];
    [rewrite H400 in H201; discriminate | rewrite H500 in H201; discriminate |].
  destruct Hok as (d & ka & kb & u & _ & _ & _ & _ & Hl & He & _).
  assert (Hsome : is_Some (find_user
            (fun _ v => bool_decide (User.email v = User.cast_email (Js.trim (RegisterBody.email b2))))
            (users (register isEmail env b1 w).2))).
  { eapply find_user_is_Some; [exact Hl|]. apply bool_decide_eq_true. congruence. }
  assert (Hcount : length (with_email (User.cast_email (Js.trim (RegisterBody.email b1)))
                            (users (register isEmail env b1 w).2)) = 1).
  { pose proof (with_email_length (User.cast_email (Js.trim (RegisterBody.email b1))) _
                  (register_unique_email isEmail env b1 w Hu)).
    pose proof (with_email_nonempty _ _ _ _ Hl He). lia. }
  clear Hl. generalize dependent (register isEmail env b1 w).2. intros w1 Hsome Hcount.
  destruct (register_cases isEmail env b2 w1) as [(H400 & Hw & Hiff) | [H500 | Hok]].
  - rewrite Hw. repeat split; auto. intros Hv. apply Hiff. auto.
  - exfalso. revert H500. unfold register. case_bool_decide; cbn [negb]; [|discriminate].
    unfold findOne_email. munfold. destruct Hsome as [kv ->]. discriminate.
  - destruct Hok as (? & ? & ? & ? & _ & _ & _ & Hnone & _).
    destruct Hsome as [kv Hkv]. rewrite Hkv in Hnone. discriminate.
Qed.

(** C8. The body of a 201 registration response and of a 200 login response
    has the keys success, message, user and accessToken; its user object
    has neither a password nor a refreshToken key; no bcrypt hash occurs
    anywhere in the body and the only token in it is the access token; the
    refresh token, a different value, is set in the refreshToken cookie. *)
Theorem success_body_hides_credentials isEmail (env : Env) :
  (forall b w,
     let res := (register isEmail env b w).1 in
     status res = 201 ->
     exists userj a r,
       keys (body res) = ["success"; "message"; "user"; "accessToken"] /\
       get "user" (body res) = Some userj /\
       get "accessToken" (body res) = Some (JTok a) /\
       get "password" userj = None /\
       get "refreshToken" userj = None /\
       hashes_of (body res) = [] /\
       tokens_of (body res) = [a] /\
       cookies res = setTokenCookies env a r /\
       r <> a) /\
  (forall b w,
     let res := (login isEmail env b w).1 in
     status res = 200 ->
     exists userj a r,
       keys (body res) = ["success"; "message"; "user"; "accessToken"] /\
       get "user" (body res) = Some userj /\
       get "accessToken" (body res) = Some (JTok a) /\
       get "password" userj = None /\
       get "refreshToken" userj = None /\
       hashes_of (body res) = [] /\
       tokens_of (body res) = [a] /\
       cookies res = setTokenCookies env a r /\
       r <> a).
Proof.
  split; intros b w; cbv zeta; intros Hst.
  - destruct (register_cases isEmail env b w) as [(H400 & _) | [H500 | Hok]];
      [rewrite H400 in Hst; discriminate | rewrite H500 in Hst; discriminate |].
    destruct Hok as (d & ka & kb & u & _ & _ & -> & _).
    destruct (user_projection_clean d) as (Hp & Hr & Ht & Hh).
    exists (user_projection d). eexists _, _.
    cbn [body cookies registration_successful tokens_of hashes_of flat_map snd].
    rewrite Ht, Hh. repeat split; auto; discriminate.
  - destruct (login_errors isEmail b) eqn:Herr.
    2:{ revert Hst. unfold login. rewrite Herr. cbn. discriminate. }
    pose proof (login_spec isEmail env b w Herr) as H. cbv zeta in H.
    destruct (find_user _ (users w)) as [[k u]|]; [|rewrite H in Hst; discriminate].
    cbn [snd] in H.
    destruct (LoginBody.password b) as [c|]; [|rewrite H in Hst; discriminate].
    destruct (User.password u) as [h|]; [|rewrite H in Hst; discriminate].
    destruct (Bcrypt.compare c h); [|rewrite H in Hst; discriminate].
    destruct (User.isActive u); [|rewrite H in Hst; discriminate].
    destruct H as [H | (d & d' & ka & kb & _ & _ & H)]; [rewrite H in Hst; discriminate|].
    rewrite H.
    destruct (user_projection_clean d) as (Hp & Hr & Ht & Hh).
    exists (user_projection d). eexists _, _.
    cbn [body cookies login_successful tokens_of hashes_of flat_map snd].
    rewrite Ht, Hh. repeat split; auto; discriminate.
Qed.

(** C9. With both secrets configured, [generateAuthTokens] returns an access
    token signed with JWT_SECRET carrying the id and the role and expiring
    15 minutes after its iat, and a refresh token signed with
    REFRESH_TOKEN_SECRET carrying the id and no role and expiring 7 days
    after its iat; the cookies that transport them have the same lifetimes
    as maxAge; when the two secrets differ neither token verifies under the
    other secret. *)
Theorem token_lifetimes (env : Env) (d : Doc) (w : World) :
  Js.env_truthy (JWT_SECRET env) = true ->
  Js.env_truthy (REFRESH_TOKEN_SECRET env) = true ->
  exists d' ka kb pa pb,
    generateAuthTokens env d w = (Ok (d', (Jwt.Signed ka pa, Jwt.Signed kb pb)), w) /\
    JWT_SECRET env = Some ka /\ REFRESH_TOKEN_SECRET env = Some kb /\
    Jwt.id pa = _id d /\ Jwt.role pa = Some (User.role (fields d)) /\
    Jwt.id pb = _id d /\ Jwt.role pb = None /\
    Jwt.iat pa = Jwt.clockTimestamp (clock w) /\
    Jwt.iat pb = Jwt.clockTimestamp (clock w) /\
    (Jwt.exp pa = Jwt.iat pa + 15 * 60)%Z /\
    (Jwt.exp pb = Jwt.iat pb + 7 * 24 * 60 * 60)%Z /\
    maxAge (getCookieOptions env false) = Some (1000 * (Jwt.exp pa - Jwt.iat pa))%Z /\
    maxAge (getCookieOptions env true) = Some (1000 * (Jwt.exp pb - Jwt.iat pb))%Z /\
    (forall a r, setTokenCookies env a r =
       [Cookie "accessToken" a (getCookieOptions env false);
        Cookie "refreshToken" r (getCookieOptions env true);
        ClearCookie "token" (with_path "/" (getCookieOptions env false))]) /\
    (JWT_SECRET env <> REFRESH_TOKEN_SECRET env ->
     Jwt.verify (Jwt.Signed kb pb) (JWT_SECRET env) (clock w)
       = Throw (mkError "JsonWebTokenError" "invalid signature") /\
     Jwt.verify (Jwt.Signed ka pa) (REFRESH_TOKEN_SECRET env) (clock w)
       = Throw (mkError "JsonWebTokenError" "invalid signature")).
Proof.
  intros Ea Eb.
  pose proof Ea as Ea'. pose proof Eb as Eb'.
  apply env_truthy_Some in Ea' as (ka & Ha & Hta).
  apply env_truthy_Some in Eb' as (kb & Hb & Htb).
  eexists _, ka, kb, _, _.
  split; [apply generateAuthTokens_ok; assumption|].
  cbn [Jwt.id Jwt.role Jwt.iat Jwt.exp].
  repeat (split; [first [assumption | reflexivity | cbn; f_equal; lia]|]).
  intros Hne. cbn. rewrite Ea, Eb.
  rewrite !bool_decide_eq_false_2 by congruence. auto.
Qed.

(** C10, as amended. When the accessToken cookie is absent or empty and the
    legacy token cookie has a non-empty value, [protect] uses that value as
    the access token: it verifies it with the access secret and, when it
    verifies and its subject has a record, attaches that record (without
    password and refresh token) and lets the request through; when it does
    not verify, or its subject has no record, the answer is the
    access-token-expired or the invalid-access-token response, never
    no-access-token. So the request is treated exactly as if the value had
    been sent as the accessToken cookie. The no-access-token response is
    returned exactly when both cookies are absent or empty. *)
Theorem protect_legacy_cookie (env : Env) (c : Cookies.t) (w : World) :
  (forall t,
     truthy_cookie (Cookies.accessToken c) = None ->
     truthy_cookie (Cookies.token c) = Some t ->
     protect env c w =
       (match Jwt.verify t (JWT_SECRET env) (clock w) with
        | Ok p =>
            match users w !! Jwt.id p with
            | Some u => Next (hydrate false false (Jwt.id p, u))
            | None => Respond invalid_access_token
            end
        | Throw e =>
            if bool_decide (name e = "TokenExpiredError")
            then Respond access_token_expired
            else Respond invalid_access_token
        end, w) /\
     (forall p u,
        Jwt.verify t (JWT_SECRET env) (clock w) = Ok p ->
        users w !! Jwt.id p = Some u ->
        protect env c w = (Next (hydrate false false (Jwt.id p, u)), w)) /\
     (forall e,
        Jwt.verify t (JWT_SECRET env) (clock w) = Throw e ->
        exists res, protect env c w = (Respond res, w) /\ status res = 401) /\
     protect env c w =
       protect env (Cookies.mk (Some t) (Cookies.refreshToken c) None) w /\
     (protect env c w).1 <> Respond no_access_token) /\
  ((protect env c w).1 = Respond no_access_token <->
   truthy_cookie (Cookies.accessToken c) = None /\
   truthy_cookie (Cookies.token c) = None).
Proof.
  assert (Hne : forall t, truthy_cookie (js_or (Cookies.accessToken c) (Cookies.token c)) = Some t ->
                     (protect env c w).1 <> Respond no_access_token).
  { intros t Ht. rewrite protect_spec, Ht. cbn [fst].
    destruct (Jwt.verify _ _ _) as [p|e].
    - destruct (users w !! Jwt.id p); discriminate.
    - destruct (bool_decide _); discriminate. }
  split.
  - intros t Ha Hl.
    assert (Hc : truthy_cookie (js_or (Cookies.accessToken c) (Cookies.token c)) = Some t).
    { unfold js_or. rewrite Ha. exact Hl. }
    assert (Hrun : protect env c w =
              (match Jwt.verify t (JWT_SECRET env) (clock w) with
               | Ok p =>
                   match users w !! Jwt.id p with
                   | Some u => Next (hydrate false false (Jwt.id p, u))
                   | None => Respond invalid_access_token
                   end
               | Throw e =>
                   if bool_decide (name e = "TokenExpiredError")
                   then Respond access_token_expired
                   else Respond invalid_access_token
               end, w))
      by (rewrite protect_spec, Hc; reflexivity).
    split; [exact Hrun|]. split; [|split; [|split]].
    + intros p u Hv Hu. rewrite Hrun, Hv, Hu. reflexivity.
    + intros e Hv. rewrite Hrun, Hv.
      destruct (bool_decide _); eexists; split; reflexivity.
    + rewrite Hrun, protect_spec. cbn [Cookies.accessToken Cookies.token].
      apply truthy_cookie_Some in Hl as [_ Htr].
      unfold js_or. cbn [truthy_cookie]. rewrite Htr. cbn [truthy_cookie]. rewrite Htr.
      reflexivity.
    + eauto.
  - split.
    + intros H. unfold js_or in Hne.
      destruct (truthy_cookie (Cookies.accessToken c)) as [t|] eqn:Ha.
      * exfalso. apply (Hne t); [|exact H]. cbn. apply truthy_cookie_Some in Ha as [_ ->].
        reflexivity.
      * destruct (truthy_cookie (Cookies.token c)) as [t|] eqn:Hl; [|auto].
        exfalso. apply (Hne t); auto.
    + intros [Ha Hl]. rewrite protect_spec. unfold js_or. rewrite Ha, Hl. reflexivity.
Qed.

End Properties.

(** * The claims on the fixture *)

Section OnTheFixture.

#[local] Existing Instance Fixture.engine.

Lemma unique_email_empty : unique_email (users Fixture.empty_world).
Proof. intros k1 k2 u1 u2 H. cbn in H. rewrite lookup_empty in H. discriminate. Qed.



(** A refresh token presented after its 7 days is answered 401, not 403. *)
Lemma refresh_expired_is_401 :
  Jwt.verify Fixture.alice_refresh (REFRESH_TOKEN_SECRET Fixture.env)
    (clock Fixture.world1_after_8_days)
    = Throw (mkError "TokenExpiredError" "jwt expired") /\
  status (refresh_token Fixture.env (Fixture.refresh_cookie Fixture.alice_refresh)
            Fixture.world1_after_8_days).1 = 401 /\
  status (refresh_token Fixture.env (Fixture.refresh_cookie Fixture.alice_refresh)
            Fixture.world1_after_8_days).1 <> 403.
Proof. vm_compute. repeat split; discriminate. Qed.

Lemma refresh_responses_witness :
  (refresh_token Fixture.env Fixture.no_cookies Fixture.world1).1 = no_refresh_token /\
  (refresh_token Fixture.env (Fixture.refresh_cookie Fixture.alice_refresh)
     Fixture.world1_after_8_days).1
    = invalid_or_expired_refresh_token Fixture.env /\
  (refresh_token Fixture.env (Fixture.refresh_cookie Fixture.alice_refresh)
     Fixture.world2).1 = invalid_refresh_token /\
  status (refresh_token Fixture.env (Fixture.refresh_cookie Fixture.alice_refresh)
            Fixture.world1).1 = 200 /\
  (exists a r,
     body (refresh_token Fixture.env (Fixture.refresh_cookie Fixture.alice_refresh)
             Fixture.world1).1
       = JObj [("success", JBool true); ("accessToken", JTok a)] /\
     cookies (refresh_token Fixture.env (Fixture.refresh_cookie Fixture.alice_refresh)
                Fixture.world1).1 = setTokenCookies Fixture.env a r /\
     r <> a).
Proof.
  split; [|split; [|split; [|split]]].
  - destruct (refresh_responses Fixture.env Fixture.no_cookies Fixture.world1)
      as (H & _).
    apply H. reflexivity.
  - destruct (refresh_responses Fixture.env
                (Fixture.refresh_cookie Fixture.alice_refresh)
                Fixture.world1_after_8_days)
      as (_ & H & _).
    apply (H Fixture.alice_refresh (mkError "TokenExpiredError" "jwt expired"));
      vm_compute; reflexivity.
  - destruct (refresh_responses Fixture.env
                (Fixture.refresh_cookie Fixture.alice_refresh) Fixture.world2)
      as (_ & _ & H & _).
    apply (H Fixture.alice_refresh (Jwt.mkPayload 1 None 1700000000 1700604800)).
    + reflexivity.
    + vm_compute. reflexivity.
    + intros u Hu. vm_compute in Hu. injection Hu as <-. discriminate.
  - destruct (refresh_responses Fixture.env
                (Fixture.refresh_cookie Fixture.alice_refresh) Fixture.world1)
      as (_ & _ & _ & H & _).
    eapply (H Fixture.alice_refresh (Jwt.mkPayload 1 None 1700000000 1700604800)).
    + reflexivity.
    + vm_compute. reflexivity.
    + vm_compute. reflexivity.
    + reflexivity.
    + reflexivity.
  - destruct (refresh_responses Fixture.env
                (Fixture.refresh_cookie Fixture.alice_refresh) Fixture.world1)
      as (_ & _ & _ & _ & H & _).
    apply H. vm_compute. reflexivity.
Defined.

Lemma login_failures_identical_witness :
  (login Fixture.isEmail Fixture.env Fixture.nobody_login Fixture.world1).1 =
  (login Fixture.isEmail Fixture.env Fixture.alice_wrong_password Fixture.world1).1 /\
  (login Fixture.isEmail Fixture.env Fixture.nobody_login Fixture.world1).1 =
  invalid_credentials.
Proof.
  eapply (login_failures_identical (engine:=Fixture.engine) Fixture.isEmail Fixture.env
            Fixture.nobody_login Fixture.alice_wrong_password
            Fixture.world1 Fixture.world1).
  - vm_compute. reflexivity.
  - vm_compute. reflexivity.
  - vm_compute. reflexivity.
  - unfold findOne_email. reflexivity.
  - vm_compute. reflexivity.
Defined.

Lemma protect_failure_signals_witness :
  protect Fixture.env (Fixture.access_cookie Fixture.alice_access)
    (Fixture.at_time (Fixture.t0 + Fixture.minutes 16) Fixture.world1)
  = (Respond access_token_expired,
     Fixture.at_time (Fixture.t0 + Fixture.minutes 16) Fixture.world1) /\
  protect Fixture.env (Fixture.access_cookie Fixture.alice_refresh) Fixture.world1
  = (Respond invalid_access_token, Fixture.world1) /\
  protect Fixture.env (Fixture.access_cookie Fixture.alice_access) Fixture.empty_world
  = (Respond invalid_access_token, Fixture.empty_world).
Proof.
  split; [|split].
  - destruct (protect_failure_signals Fixture.env
                (Fixture.access_cookie Fixture.alice_access)
                (Fixture.at_time (Fixture.t0 + Fixture.minutes 16) Fixture.world1)
                Fixture.alice_access eq_refl) as (H & _).
    apply (H "secret-A" (Jwt.mkPayload 1 (Some Role_user) 1700000000 1700000900));
      try reflexivity.
    vm_compute. discriminate.
  - destruct (protect_failure_signals Fixture.env
                (Fixture.access_cookie Fixture.alice_refresh) Fixture.world1
                Fixture.alice_refresh eq_refl) as (_ & H & _).
    apply H. right. eexists _, _. split; [reflexivity|]. discriminate.
  - destruct (protect_failure_signals Fixture.env
                (Fixture.access_cookie Fixture.alice_access) Fixture.empty_world
                Fixture.alice_access eq_refl) as (_ & _ & H & _).
    apply (H (Jwt.mkPayload 1 (Some Role_user) 1700000000 1700000900)).
    + vm_compute. reflexivity.
    + reflexivity.
Defined.

Lemma login_deactivated_exactly_witness :
  status (login Fixture.isEmail Fixture.env Fixture.alice_login
            Fixture.world_deactivated).1 = 403 /\
  (login Fixture.isEmail Fixture.env Fixture.alice_login
     Fixture.world_deactivated).1 = account_deactivated /\
  (login Fixture.isEmail Fixture.env Fixture.alice_wrong_password
     Fixture.world_deactivated).1 = invalid_credentials.
Proof.
  destruct (login_deactivated_exactly (engine:=Fixture.engine) Fixture.isEmail Fixture.env
              Fixture.alice_login Fixture.world_deactivated) as (Hiff & Hresp & _);
    [vm_compute; reflexivity|].
  assert (Hst : status (login Fixture.isEmail Fixture.env Fixture.alice_login
                          Fixture.world_deactivated).1 = 403).
  { apply Hiff. eexists. split; [unfold findOne_email; reflexivity|].
    split; vm_compute; reflexivity. }
  split; [exact Hst|]. split; [exact (Hresp Hst)|].
  destruct (login_deactivated_exactly (engine:=Fixture.engine) Fixture.isEmail Fixture.env
              Fixture.alice_wrong_password Fixture.world_deactivated) as (_ & _ & H);
    [vm_compute; reflexivity|].
  eapply H.
  - unfold findOne_email. reflexivity.
  - vm_compute. reflexivity.
  - vm_compute. reflexivity.
Defined.

Lemma register_twice_same_email_witness :
  status (register Fixture.isEmail Fixture.env Fixture.alice Fixture.empty_world).1
    = 201 /\
  (register Fixture.isEmail Fixture.env Fixture.alice_again Fixture.world1).1
    = email_already_registered /\
  (register Fixture.isEmail Fixture.env Fixture.alice_again Fixture.world1).2
    = Fixture.world1 /\
  length (with_email "alice@example.com"
            (users (register Fixture.isEmail Fixture.env Fixture.alice_again
                      Fixture.world1).2)) = 1 /\
  status (register Fixture.isEmail Fixture.env Scenario.ecole_capital
            Fixture.empty_world).1 = 201 /\
  (register Fixture.isEmail Fixture.env Scenario.ecole_small
     (register Fixture.isEmail Fixture.env Scenario.ecole_capital
        Fixture.empty_world).2).1 = email_already_registered.
Proof.
  destruct (register_twice_same_email (engine:=Fixture.engine) Fixture.isEmail Fixture.env
              Fixture.alice Fixture.alice_again Fixture.empty_world)
    as [_ H].
  - vm_compute. reflexivity.
  - exact unique_email_empty.
  - assert (H201 : status (register Fixture.isEmail Fixture.env Fixture.alice
                             Fixture.empty_world).1 = 201)
      by (vm_compute; reflexivity).
    destruct (H H201) as (_ & Hw & Hn & Hdup).
    split; [exact H201|]. split; [|split; [exact Hw|split; [|split]]].
    + apply Hdup. vm_compute. reflexivity.
    + rewrite <- Hn. vm_compute. reflexivity.
    + vm_compute. reflexivity.
    + destruct (register_twice_same_email (engine:=Fixture.engine) Fixture.isEmail
                  Fixture.env Scenario.ecole_capital Scenario.ecole_small
                  Fixture.empty_world) as [_ H'].
      * vm_compute. reflexivity.
      * exact unique_email_empty.
      * destruct (H' ltac:(vm_compute; reflexivity)) as (_ & _ & _ & Hdup').
        apply Hdup'. vm_compute. reflexivity.
Defined.

Lemma success_body_hides_credentials_witness :
  (exists userj a r,
     get "user" (body (register Fixture.isEmail Fixture.env Fixture.alice
                         Fixture.empty_world).1) = Some userj /\
     get "password" userj = None /\
     get "refreshToken" userj = None /\
     tokens_of (body (register Fixture.isEmail Fixture.env Fixture.alice
                        Fixture.empty_world).1) = [a] /\
     r <> a) /\
  (exists userj a r,
     get "user" (body (login Fixture.isEmail Fixture.env Fixture.alice_login
                         Fixture.world1).1) = Some userj /\
     get "password" userj = None /\
     get "refreshToken" userj = None /\
     tokens_of (body (login Fixture.isEmail Fixture.env Fixture.alice_login
                        Fixture.world1).1) = [a] /\
     r <> a).
Proof.
  destruct (success_body_hides_credentials (engine:=Fixture.engine) Fixture.isEmail Fixture.env) as [Hreg Hlog].
  split.
  - destruct (Hreg Fixture.alice Fixture.empty_world)
      as (userj & a & r & _ & Hu & _ & Hp & Hr & _ & Ht & _ & Hne);
      [vm_compute; reflexivity|].
    exists userj, a, r. auto.
  - destruct (Hlog Fixture.alice_login Fixture.world1)
      as (userj & a & r & _ & Hu & _ & Hp & Hr & _ & Ht & _ & Hne);
      [vm_compute; reflexivity|].
    exists userj, a, r. auto.
Defined.

Lemma token_lifetimes_witness :
  exists d' pa pb,
    generateAuthTokens Fixture.env
      (hydrate false false (1, User.mk "Alice" "alice@example.com" None false true
                                 None Role_admin "" "" None None None))
      Fixture.world1
    = (Ok (d', (Jwt.Signed "secret-A" pa, Jwt.Signed "secret-B" pb)), Fixture.world1) /\
    Jwt.role pa = Some Role_admin /\ Jwt.role pb = None /\
    (Jwt.exp pa - Jwt.iat pa = 900)%Z /\
    (Jwt.exp pb - Jwt.iat pb = 604800)%Z.
Proof.
  destruct (token_lifetimes Fixture.env
              (hydrate false false (1, User.mk "Alice" "alice@example.com" None false
                                         true None Role_admin "" "" None None None))
              Fixture.world1 eq_refl eq_refl)
    as (d' & ka & kb & pa & pb & Hg & Ha & Hb & _ & Hra & _ & Hrb & _ & _ & Hea & Heb & _).
  injection Ha as <-. injection Hb as <-.
  exists d', pa, pb. split; [exact Hg|]. split; [exact Hra|]. split; [exact Hrb|].
  split; [rewrite Hea | rewrite Heb]; lia.
Defined.

(** A legacy cookie that is present but empty is not used: the answer is
    no-access-token. *)
Lemma protect_empty_legacy_cookie :
  Cookies.accessToken (Fixture.legacy_cookie (Jwt.Malformed "")) = None /\
  Cookies.token (Fixture.legacy_cookie (Jwt.Malformed "")) = Some (Jwt.Malformed "") /\
  (protect Fixture.env (Fixture.legacy_cookie (Jwt.Malformed "")) Fixture.world1).1
    = Respond no_access_token.
Proof. vm_compute. auto. Qed.

Lemma protect_legacy_cookie_witness :
  (exists u,
     users Fixture.world1 !! 1 = Some u /\
     protect Fixture.env (Fixture.legacy_cookie Fixture.alice_access) Fixture.world1 =
       (Next (hydrate false false (1, u)), Fixture.world1)) /\
  protect Fixture.env (Fixture.legacy_cookie Fixture.alice_access)
    (set_clock (Fixture.t0 + Fixture.minutes 16) Fixture.world1)
  = (Respond access_token_expired,
     set_clock (Fixture.t0 + Fixture.minutes 16) Fixture.world1) /\
  protect Fixture.env (Fixture.legacy_cookie Fixture.alice_refresh) Fixture.world1
  = (Respond invalid_access_token, Fixture.world1) /\
  protect Fixture.env (Fixture.legacy_cookie Fixture.alice_access) Fixture.world1 =
  protect Fixture.env (Fixture.access_cookie Fixture.alice_access) Fixture.world1 /\
  (protect Fixture.env Fixture.no_cookies Fixture.world1).1 = Respond no_access_token.
Proof.
  destruct (protect_legacy_cookie Fixture.env
              (Fixture.legacy_cookie Fixture.alice_access) Fixture.world1) as [H _].
  destruct (H Fixture.alice_access eq_refl eq_refl) as (_ & Hok & _ & Heq & _).
  destruct (protect_legacy_cookie Fixture.env
              (Fixture.legacy_cookie Fixture.alice_access)
              (set_clock (Fixture.t0 + Fixture.minutes 16) Fixture.world1)) as [H16 _].
  destruct (H16 Fixture.alice_access eq_refl eq_refl) as (Hrun16 & _).
  destruct (protect_legacy_cookie Fixture.env
              (Fixture.legacy_cookie Fixture.alice_refresh) Fixture.world1) as [Hr _].
  destruct (Hr Fixture.alice_refresh eq_refl eq_refl) as (Hrunr & _).
  split; [|split; [|split; [|split]]].
  - destruct (users Fixture.world1 !! 1) as [u|] eqn:Hu; [|vm_compute in Hu; discriminate].
    exists u. split; [reflexivity|].
    apply (Hok (Jwt.mkPayload 1 (Some Role_user) 1700000000 1700000900) u);
      [vm_compute; reflexivity | exact Hu].
  - rewrite Hrun16. vm_compute. reflexivity.
  - rewrite Hrunr. vm_compute. reflexivity.
  - exact Heq.
  - destruct (protect_legacy_cookie Fixture.env Fixture.no_cookies Fixture.world1)
      as [_ Hiff].
    apply Hiff. split; reflexivity.
Defined.

End OnTheFixture.

(** * Further properties of the code *)

Section Further.

Context {engine : Js.Engine}.

Lemma session_paths_nil : session_paths [].
Proof. intros p H. apply elem_of_nil in H. destruct H. Qed.

Lemma session_paths_mark p ps :
  p = "lastLogin" \/ p = "refreshToken" ->
  session_paths ps -> session_paths (markModified p ps).
Proof.
  intros Hp Hps. unfold markModified. case_bool_decide; [exact Hps|].
  intros q Hq. apply elem_of_app in Hq as [Hq|Hq]; [auto|].
  apply list_elem_of_singleton in Hq. subst q. exact Hp.
Qed.

Lemma session_paths_valid ps u :
  session_paths ps -> forallb (fun p => User.valid_path p u) ps = true.
Proof.
  intros H. apply forallb_forall. intros p Hp.
  apply list_elem_of_In, H in Hp. destruct Hp as [-> | ->]; reflexivity.
Qed.

Lemma session_paths_not_in ps q :
  session_paths ps -> q <> "lastLogin" -> q <> "refreshToken" -> q ∉ ps.
Proof. intros H H1 H2 Hin. apply H in Hin. destruct Hin; contradiction. Qed.

Lemma save_loaded d w :
  isNew d = false -> session_paths (modified d) ->
  save d w =
    if bool_decide (modified d = []) then (Ok d, w)
    else
      match users w !! _id d with
      | None => (Throw DocumentNotFound, w)
      | Some u =>
          (Ok (mkDoc (_id d)
                 (User.set_timestamps (User.createdAt (fields d)) (Some (clock w)) (fields d))
                 false []),
           set_users (<[_id d := User.set_timestamps (User.createdAt u) (Some (clock w))
                                   (User.copy_paths (modified d) (fields d) u)]> (users w)) w)
      end.
Proof.
  intros Hn Hs. unfold save, validateSync, pre_save, isModified, updateOne.
  rewrite Hn, (session_paths_valid _ _ Hs).
  rewrite (bool_decide_eq_false_2 ("password" ∈ modified d))
    by (apply session_paths_not_in; [exact Hs|discriminate..]).
  cbn [negb]. munfold. rewrite Hn.
  rewrite (bool_decide_eq_false_2 ("email" ∈ modified d))
    by (apply session_paths_not_in; [exact Hs|discriminate..]).
  case_bool_decide; [reflexivity|].
  destruct (users w !! _id d); reflexivity.
Qed.

Lemma copy_path_account p src u :
  p = "lastLogin" \/ p = "refreshToken" ->
  account (User.copy_path p src u) = account u.
Proof. intros [-> | ->]; reflexivity. Qed.

Lemma copy_paths_account ps src u :
  session_paths ps -> account (User.copy_paths ps src u) = account u.
Proof.
  unfold User.copy_paths. revert u.
  induction ps as [|p ps IH]; intros u Hs; [reflexivity|].
  cbn [fold_left]. rewrite IH.
  - apply copy_path_account, Hs. apply elem_of_cons. auto.
  - intros q Hq. apply Hs. apply elem_of_cons. auto.
Qed.

Lemma accounts_insert_same w k u u' :
  users w !! k = Some u -> account u' = account u ->
  accounts (set_users (<[k := u']> (users w)) w) = accounts w.
Proof.
  intros Hk Ha. unfold accounts. cbn [users set_users].
  rewrite fmap_insert, Ha. apply insert_id. rewrite lookup_fmap, Hk. reflexivity.
Qed.

Lemma save_loaded_accounts d w o w' :
  isNew d = false -> session_paths (modified d) ->
  save d w = (o, w') ->
  accounts w' = accounts w /\ clock w' = clock w /\
  match o with
  | Ok d' => isNew d' = false /\ modified d' = [] /\ _id d' = _id d /\
             User.refreshToken (fields d') = User.refreshToken (fields d) /\
             User.role (fields d') = User.role (fields d)
  | Throw _ => True
  end.
Proof.
  intros Hn Hs. rewrite (save_loaded d w Hn Hs).
  case_bool_decide as Hm.
  - intros [= <- <-]. auto 10.
  - destruct (users w !! _id d) as [u|] eqn:Hu; intros [= <- <-]; [|auto].
    split; [|cbn; auto 10].
    eapply accounts_insert_same; [exact Hu|].
    change (account (User.set_timestamps ?a ?b ?x)) with (account x).
    apply copy_paths_account, Hs.
Qed.

Lemma login_ok isEmail env b w k u c h ka kb :
  login_errors isEmail b = [] ->
  find_user (fun _ v => bool_decide (User.email v = User.cast_email (LoginBody.email b)))
    (users w) = Some (k, u) ->
  LoginBody.password b = Some c -> User.password u = Some h ->
  Bcrypt.compare c h = true -> User.isActive u = true ->
  JWT_SECRET env = Some ka -> Js.truthy ka = true ->
  REFRESH_TOKEN_SECRET env = Some kb -> Js.truthy kb = true ->
  exists d u',
    login isEmail env b w =
      (login_successful env d
         (Jwt.Signed ka (Jwt.mkPayload k (Some (User.role u))
            (Jwt.clockTimestamp (clock w)) (Jwt.clockTimestamp (clock w) + 15 * 60)))
         (Jwt.Signed kb (Jwt.mkPayload k None
            (Jwt.clockTimestamp (clock w)) (Jwt.clockTimestamp (clock w) + 7 * 24 * 60 * 60))),
       set_users (<[k := u']> (users w)) w) /\
    _id d = k /\
    account u' = account u /\
    User.lastLogin u' = Some (clock w) /\
    User.refreshToken u' =
      Some (Jwt.Signed kb (Jwt.mkPayload k None
              (Jwt.clockTimestamp (clock w)) (Jwt.clockTimestamp (clock w) + 7 * 24 * 60 * 60))).
Proof.
  intros Herr Hf Hc Hh Hcmp Hact Ha Hta Hb Htb.
  pose proof (find_user_Some _ _ _ _ Hf) as [Hk _].
  unfold login. rewrite Herr.
  rewrite (bool_decide_eq_true_2 ([] = [])) by reflexivity. cbn [negb].
  unfold findOne_email. munfold. rewrite Hf. cbn [fmap option_fmap option_map].
  unfold comparePassword. rewrite Hc.
  cbn [hydrate fields fst snd User.password User.set_password User.set_refreshToken].
  rewrite Hh. munfold. rewrite Hcmp. cbn [negb].
  change (User.isActive (User.set_refreshToken _ (User.set_password _ u)))
    with (User.isActive u).
  rewrite Hact. cbn [negb].
  set (d0 := assign_lastLogin (clock w) _).
  assert (Hd0 : isNew d0 = false /\ session_paths (modified d0) /\ _id d0 = k /\
                User.refreshToken (fields d0) = None /\
                User.role (fields d0) = User.role u /\
                User.lastLogin (fields d0) = Some (clock w) /\
                (modified d0 = [] /\ User.lastLogin u = Some (clock w) \/
                 modified d0 = ["lastLogin"])).
  { subst d0. unfold assign_lastLogin. cbn [hydrate fields fst snd].
    case_bool_decide as Hl; cbn.
    - repeat split; auto using session_paths_nil.
    - repeat split; auto.
      apply session_paths_mark; auto using session_paths_nil. }
  destruct Hd0 as (Hn0 & Hs0 & Hid0 & Hr0 & Hro0 & Hl0 & Hm0).
  rewrite (save_loaded d0 w Hn0 Hs0).
  case_bool_decide as Hmod.
  - (* lastLogin already had this value *)
    rewrite (generateAuthTokens_ok env d0 w ka kb) by assumption.
    rewrite assign_refreshToken_idem.
    set (r := refreshToken_at kb d0 (clock w)).
    assert (Hd2 : assign_refreshToken r d0 =
                  mkDoc (_id d0) (User.set_refreshToken (Some r) (fields d0)) false
                    ["refreshToken"]).
    { unfold assign_refreshToken. rewrite Hr0.
      rewrite bool_decide_eq_false_2 by discriminate. rewrite Hn0, Hmod. reflexivity. }
    rewrite Hd2. erewrite save_set1 by (reflexivity || auto). cbn [_id].
    rewrite Hid0, Hk.
    eexists _, _. split; [|split; [|split; [|split]]].
    + unfold login_successful, user_projection, accessToken_at, refreshToken_at in *.
      subst r. rewrite ?Hid0, ?Hro0. reflexivity.
    + reflexivity.
    + reflexivity.
    + cbn. destruct Hm0 as [[_ Hm0]|Hm0]; [exact Hm0|congruence].
    + subst r. unfold refreshToken_at. cbn. rewrite ?Hid0. reflexivity.
  - rewrite Hid0, Hk.
    set (d1 := mkDoc k _ false []).
    set (w1 := set_users _ w).
    rewrite (generateAuthTokens_ok env d1 w1 ka kb) by assumption.
    rewrite assign_refreshToken_idem.
    set (r := refreshToken_at kb d1 (clock w1)).
    assert (Hd2 : assign_refreshToken r d1 =
                  mkDoc (_id d1) (User.set_refreshToken (Some r) (fields d1)) false
                    ["refreshToken"]).
    { unfold assign_refreshToken. subst d1. cbn [fields _id isNew modified].
      change (User.refreshToken (User.set_timestamps ?a ?b ?x)) with (User.refreshToken x).
      rewrite Hr0. rewrite bool_decide_eq_false_2 by discriminate. reflexivity. }
    rewrite Hd2. erewrite save_set1 by (reflexivity || auto). cbn [_id].
    subst w1. cbn [users set_users]. subst d1. cbn [_id].
    rewrite lookup_insert_eq. cbn [users set_users clock].
    rewrite insert_insert_eq.
    eexists _, _. split; [|split; [|split; [|split]]].
    + unfold login_successful, user_projection, accessToken_at, refreshToken_at in *.
      subst r. cbn [_id fields].
      change (User.role (User.set_timestamps ?a ?b ?x)) with (User.role x).
      rewrite Hro0. reflexivity.
    + reflexivity.
    + change (account (User.set_timestamps ?a ?b ?x)) with (account x).
      rewrite copy_path_account by auto.
      change (account (User.set_timestamps ?a ?b ?x)) with (account x).
      apply copy_paths_account, Hs0.
    + destruct Hm0 as [[Hm0 _]|Hm0]; [contradiction|]. rewrite Hm0. cbn. exact Hl0.
    + subst r. unfold refreshToken_at. cbn. reflexivity.
Qed.

Lemma register_run isEmail env b w :
  let name := Js.trim (RegisterBody.name b) in
  let email := Js.trim (RegisterBody.email b) in
  let password := RegisterBody.password b in
  let oid := next_oid w in
  let salt := next_salt w in
  let now := clock w in
  let d0 := mkDoc oid
              (User.mk (Js.trim name) (User.cast_email email)
                 (Some (Bcrypt.Plain password)) false true None Role_user "" ""
                 None None None)
              true ["name"; "email"; "password"; "isEmailVerified"] in
  register_errors isEmail name email password = [] ->
  find_user (fun _ u => bool_decide (User.email u = User.cast_email email)) (users w) = None ->
  register isEmail env b w =
    match validateSync d0 with
    | Some e => (registration_failed env e, mkWorld (users w) now (S oid) salt)
    | None =>
        match users w !! oid with
        | Some _ => (registration_failed env E11000, mkWorld (users w) now (S oid) (S salt))
        | None =>
            let stored r := mkWorld (<[oid := registered_user name email password salt now r]> (users w))
                              now (S oid) (S salt) in
            match JWT_SECRET env, REFRESH_TOKEN_SECRET env with
            | Some ka, Some kb =>
                if Js.truthy ka then
                  if Js.truthy kb then
                    let r := Jwt.Signed kb (refresh_payload oid now) in
                    (registration_successful env
                       (mkDoc oid (registered_user name email password salt now (Some r)) false [])
                       (Jwt.Signed ka (access_payload oid Role_user now)) r,
                     stored (Some r))
                  else (registration_failed env (mkError "Error" "JWT secrets are not configured"),
                        stored None)
                else (registration_failed env (mkError "Error" "secretOrPrivateKey must have a value"),
                      stored None)
            | Some ka, None =>
                if Js.truthy ka
                then (registration_failed env (mkError "Error" "JWT secrets are not configured"),
                      stored None)
                else (registration_failed env (mkError "Error" "secretOrPrivateKey must have a value"),
                      stored None)
            | None, _ =>
                (registration_failed env (mkError "Error" "secretOrPrivateKey must have a value"),
                 stored None)
            end
        end
    end.
Proof.
  cbv zeta. intros Herr Hf. unfold register. rewrite Herr.
  rewrite (bool_decide_eq_true_2 ([] = [])) by reflexivity. cbn [negb].
  unfold findOne_email, new_User, new_ObjectId. munfold. rewrite Hf.
  cbn [fmap option_fmap option_map].
  set (d0 := mkDoc _ _ _ _). set (w0 := mkWorld _ _ _ _).
  unfold save at 1. destruct (validateSync d0) eqn:Hval; [reflexivity|].
  unfold pre_save, isModified.
  replace (bool_decide ("password" ∈ modified d0)) with true by reflexivity.
  cbn [negb]. unfold genSalt. munfold. cbn [d0 fields User.password isNew _id].
  unfold insertOne. cbn [users w0].
  destruct (users w !! next_oid w) eqn:Hoid; [reflexivity|].
  cbn [User.email User.set_timestamps User.set_password].
  rewrite Hf.
  unfold generateVerificationToken. munfold. unfold Jwt.sign.
  destruct (JWT_SECRET env) as [ka|] eqn:Ha; [|destruct (REFRESH_TOKEN_SECRET env); reflexivity].
  destruct (Js.truthy ka) eqn:Hta; [|destruct (REFRESH_TOKEN_SECRET env); reflexivity].
  replace (Jwt.timespan "24h" _) with
    (Some (Jwt.clockTimestamp (clock w) + 24 * 60 * 60)%Z) by reflexivity.
  destruct (REFRESH_TOKEN_SECRET env) as [kb|] eqn:Hb.
  2:{ unfold generateAuthTokens. rewrite Ha, Hb. cbn [Js.env_truthy]. rewrite Hta.
      reflexivity. }
  destruct (Js.truthy kb) eqn:Htb.
  2:{ unfold generateAuthTokens. rewrite Ha, Hb. cbn [Js.env_truthy]. rewrite Hta, Htb.
      reflexivity. }
  rewrite (generateAuthTokens_ok env _ _ ka kb) by assumption.
  rewrite assign_refreshToken_idem.
  unfold assign_refreshToken at 1. cbn [fields User.refreshToken User.set_timestamps User.set_password].
  rewrite bool_decide_eq_false_2 by discriminate.
  cbn [isNew modified _id markModified].
  replace (markModified "refreshToken" []) with ["refreshToken"] by reflexivity.
  erewrite save_set1 by (reflexivity || auto).
  cbn [_id users set_users]. rewrite lookup_insert_eq.
  cbn [clock set_users]. rewrite insert_insert_eq.
  reflexivity.
Qed.

Lemma register_201 isEmail env b w :
  status (register isEmail env b w).1 = 201 ->
  registrable isEmail b w /\
  exists ka kb,
    JWT_SECRET env = Some ka /\ Js.truthy ka = true /\
    REFRESH_TOKEN_SECRET env = Some kb /\ Js.truthy kb = true /\
    register isEmail env b w =
      (registration_successful env
         (mkDoc (next_oid w)
            (registered_user (Js.trim (RegisterBody.name b)) (Js.trim (RegisterBody.email b))
               (RegisterBody.password b) (next_salt w) (clock w)
               (Some (Jwt.Signed kb (refresh_payload (next_oid w) (clock w))))) false [])
         (Jwt.Signed ka (access_payload (next_oid w) Role_user (clock w)))
         (Jwt.Signed kb (refresh_payload (next_oid w) (clock w))),
       stored_by_register b w (Some (Jwt.Signed kb (refresh_payload (next_oid w) (clock w))))).
Proof.
  intros H201.
  destruct (register_errors isEmail (Js.trim (RegisterBody.name b))
              (Js.trim (RegisterBody.email b)) (RegisterBody.password b)) eqn:Herr.
  2:{ revert H201. unfold register. rewrite Herr. cbn. discriminate. }
  destruct (find_user (fun _ u => bool_decide
               (User.email u = User.cast_email (Js.trim (RegisterBody.email b))))
              (users w)) eqn:Hf.
  { revert H201. unfold register. rewrite Herr.
    rewrite (bool_decide_eq_true_2 ([] = [])) by reflexivity. cbn [negb].
    unfold findOne_email. munfold. rewrite Hf. cbn. discriminate. }
  pose proof (register_run isEmail env b w Herr Hf) as Hrun. cbv zeta in Hrun.
  fold (new_user_doc b w) in Hrun.
  rewrite Hrun in H201 |- *. unfold registrable. rewrite Herr, Hf.
  destruct (validateSync (new_user_doc b w)); [discriminate|].
  destruct (users w !! next_oid w); [discriminate|].
  destruct (JWT_SECRET env) as [ka|]; [|discriminate].
  destruct (REFRESH_TOKEN_SECRET env) as [kb|];
    [|destruct (Js.truthy ka); discriminate].
  destruct (Js.truthy ka) eqn:Hta; [|discriminate].
  destruct (Js.truthy kb) eqn:Htb; [|discriminate].
  split; [auto|]. exists ka, kb. repeat split; auto.
Qed.

Lemma register_configured isEmail env b w ka kb :
  registrable isEmail b w ->
  JWT_SECRET env = Some ka -> Js.truthy ka = true ->
  REFRESH_TOKEN_SECRET env = Some kb -> Js.truthy kb = true ->
  status (register isEmail env b w).1 = 201.
Proof.
  intros (Herr & Hf & Hv & Hoid) Ha Hta Hb Htb.
  pose proof (register_run isEmail env b w Herr Hf) as Hrun. cbv zeta in Hrun.
  fold (new_user_doc b w) in Hrun.
  rewrite Hrun, Hv, Hoid, Ha, Hb, Hta, Htb. reflexivity.
Qed.

Lemma register_without_refresh_secret isEmail env b w :
  registrable isEmail b w ->
  Js.env_truthy (JWT_SECRET env) = true ->
  Js.env_truthy (REFRESH_TOKEN_SECRET env) = false ->
  register isEmail env b w =
    (registration_failed env (mkError "Error" "JWT secrets are not configured"),
     stored_by_register b w None).
Proof.
  intros (Herr & Hf & Hv & Hoid) Ha Hb.
  pose proof (register_run isEmail env b w Herr Hf) as Hrun. cbv zeta in Hrun.
  fold (new_user_doc b w) in Hrun.
  rewrite Hrun, Hv, Hoid.
  apply env_truthy_Some in Ha as (ka & -> & ->).
  destruct (REFRESH_TOKEN_SECRET env) as [kb|]; [|reflexivity].
  cbn in Hb. rewrite Hb. reflexivity.
Qed.

Lemma find_user_insert_email m k u e :
  User.email u = e ->
  is_Some (find_user (fun _ v => bool_decide (User.email v = e)) (<[k := u]> m)).
Proof.
  intros He. eapply find_user_is_Some; [apply lookup_insert_eq|].
  apply bool_decide_eq_true. exact He.
Qed.

Lemma register_taken isEmail env b w :
  register_errors isEmail (Js.trim (RegisterBody.name b))
    (Js.trim (RegisterBody.email b)) (RegisterBody.password b) = [] ->
  is_Some (find_user (fun _ u => bool_decide
             (User.email u = User.cast_email (Js.trim (RegisterBody.email b))))
             (users w)) ->
  register isEmail env b w = (email_already_registered, w).
Proof.
  intros Herr [kv Hf]. unfold register. rewrite Herr.
  rewrite (bool_decide_eq_true_2 ([] = [])) by reflexivity. cbn [negb].
  unfold findOne_email. munfold. rewrite Hf. reflexivity.
Qed.

(** X1. Registration is not atomic. A request that would be answered 201
    under a fully configured environment is answered 500 when
    REFRESH_TOKEN_SECRET is unset, yet the account has been stored (without
    refresh token), and repeating the request is answered 400
    email-already-registered, under either environment. *)
Theorem register_not_atomic isEmail (env env_ok : Env) (b : RegisterBody.t) (w : World) :
  status (register isEmail env_ok b w).1 = 201 ->
  Js.env_truthy (JWT_SECRET env) = true ->
  Js.env_truthy (REFRESH_TOKEN_SECRET env) = false ->
  let w' := (register isEmail env b w).2 in
  status (register isEmail env b w).1 = 500 /\
  (exists u,
     users w' !! next_oid w = Some u /\
     User.email u = User.cast_email (Js.trim (RegisterBody.email b)) /\
     User.refreshToken u = None) /\
  register isEmail env b w' = (email_already_registered, w') /\
  register isEmail env_ok b w' = (email_already_registered, w').
Proof.
  intros H201 Ha Hb. cbv zeta.
  apply register_201 in H201 as [Hreg _].
  rewrite (register_without_refresh_secret isEmail env b w Hreg Ha Hb).
  destruct Hreg as (Herr & _).
  cbn [fst snd]. split; [reflexivity|]. split; [|split].
  - eexists. split; [apply lookup_insert_eq|]. split; reflexivity.
  - apply register_taken; [exact Herr|]. apply find_user_insert_email. reflexivity.
  - apply register_taken; [exact Herr|]. apply find_user_insert_email. reflexivity.
Qed.

Lemma clockTimestamp_mono a b :
  (a <= b)%Z -> (Jwt.clockTimestamp a <= Jwt.clockTimestamp b)%Z.
Proof. intros H. unfold Jwt.clockTimestamp. apply Z.div_le_mono; lia. Qed.

Lemma clockTimestamp_add c n :
  Jwt.clockTimestamp (c + n * 1000) = (Jwt.clockTimestamp c + n)%Z.
Proof. unfold Jwt.clockTimestamp. apply Z.div_add. lia. Qed.

(** A token issued at [c] for [n] seconds: in whole seconds it lasts until
    the second [n] after the second of [c]; on the clock, that is at least
    until [n - 1] seconds after [c] and at most until [n] seconds after. *)
Lemma clockTimestamp_within c now n :
  ((now <= c + (n - 1) * 1000 -> Jwt.clockTimestamp now < Jwt.clockTimestamp c + n) /\
   (c + n * 1000 <= now -> Jwt.clockTimestamp c + n <= Jwt.clockTimestamp now))%Z.
Proof.
  split; intros H.
  - pose proof (clockTimestamp_mono _ _ H) as Hm.
    rewrite clockTimestamp_add in Hm. lia.
  - pose proof (clockTimestamp_mono _ _ H) as Hm.
    rewrite clockTimestamp_add in Hm. lia.
Qed.

(** X2. The access token of a registration opens [protect] for the 900
    seconds that follow the second of the registration, counted in whole
    seconds of the clock ([iat] and [exp] are [Math.floor(Date.now() /
    1000)]). While the second of the request is below the second of the
    registration plus 900, [protect] attaches the stored record without its
    password and refresh token; from that second on it answers
    access-token-expired. On the clock in milliseconds: the token is
    accepted at every time up to 14 minutes 59 seconds after the
    registration and refused at every time from 15 minutes on; in between
    it depends on the fraction of the second at which the registration
    took place. Only the clock moves between the two requests. *)
Theorem register_then_protect isEmail (env : Env) (b : RegisterBody.t) (w : World) :
  status (register isEmail env b w).1 = 201 ->
  exists a r u,
    cookies (register isEmail env b w).1 = setTokenCookies env a r /\
    users (register isEmail env b w).2 !! next_oid w = Some u /\
    forall now rc lc,
      let w' := set_clock now (register isEmail env b w).2 in
      let attached :=
        (Next (mkDoc (next_oid w)
                 (User.set_refreshToken None (User.set_password None u)) false []), w') in
      ((Jwt.clockTimestamp now < Jwt.clockTimestamp (clock w) + 15 * 60)%Z ->
       protect env (Cookies.mk (Some a) rc lc) w' = attached) /\
      ((Jwt.clockTimestamp (clock w) + 15 * 60 <= Jwt.clockTimestamp now)%Z ->
       protect env (Cookies.mk (Some a) rc lc) w' = (Respond access_token_expired, w')) /\
      ((now <= clock w + (15 * 60 - 1) * 1000)%Z ->
       protect env (Cookies.mk (Some a) rc lc) w' = attached) /\
      ((clock w + 15 * 60 * 1000 <= now)%Z ->
       protect env (Cookies.mk (Some a) rc lc) w' = (Respond access_token_expired, w')).
Proof.
  intros H201. apply register_201 in H201 as [_ (ka & kb & Ha & Hta & Hb & Htb & ->)].
  eexists _, _, _. cbn [fst snd cookies registration_successful].
  split; [reflexivity|]. split; [apply lookup_insert_eq|].
  intros now rc lc. cbv zeta. rewrite !protect_spec.
  cbn [Cookies.accessToken Cookies.token js_or truthy_cookie Jwt.truthy].
  cbn [set_clock clock stored_by_register]. rewrite Ha, (verify_Signed ka _ now Hta).
  cbn [access_payload Jwt.exp Jwt.id].
  pose proof (clockTimestamp_within (clock w) now (15 * 60)) as [Hin Hout].
  match goal with
  | |- (?c1 -> ?A) /\ (?c2 -> ?B) /\ _ =>
      assert (Hyes : c1 -> A); [|assert (Hno : c2 -> B)]
  end.
  - intros Hnow. rewrite bool_decide_eq_false_2 by lia.
    unfold set_clock, stored_by_register. cbn [users]. rewrite lookup_insert_eq.
    reflexivity.
  - intros Hnow. rewrite bool_decide_eq_true_2 by lia. reflexivity.
  - split; [exact Hyes|]. split; [exact Hno|].
    split; intros Hnow; [apply Hyes, Hin, Hnow | apply Hno, Hout, Hnow].
Qed.

(** X3. The refresh token of a registration refreshes for the 604800
    seconds (7 days) that follow the second of the registration, counted in
    whole seconds of the clock: while the second of the request is below
    the second of the registration plus 604800 the refresh route answers
    200, from that second on 401 invalid-or-expired. On the clock in
    milliseconds: 200 at every time up to one second before 7 days after
    the registration, 401 at every time from 7 days on. *)
Theorem register_then_refresh isEmail (env : Env) (b : RegisterBody.t) (w : World) :
  status (register isEmail env b w).1 = 201 ->
  exists a r,
    cookies (register isEmail env b w).1 = setTokenCookies env a r /\
    forall now ac lc,
      let w' := set_clock now (register isEmail env b w).2 in
      ((Jwt.clockTimestamp now < Jwt.clockTimestamp (clock w) + 7 * 24 * 60 * 60)%Z ->
       status (refresh_token env (Cookies.mk ac (Some r) lc) w').1 = 200) /\
      ((Jwt.clockTimestamp (clock w) + 7 * 24 * 60 * 60 <= Jwt.clockTimestamp now)%Z ->
       refresh_token env (Cookies.mk ac (Some r) lc) w' =
         (invalid_or_expired_refresh_token env, w')) /\
      ((now <= clock w + (7 * 24 * 60 * 60 - 1) * 1000)%Z ->
       status (refresh_token env (Cookies.mk ac (Some r) lc) w').1 = 200) /\
      ((clock w + 7 * 24 * 60 * 60 * 1000 <= now)%Z ->
       refresh_token env (Cookies.mk ac (Some r) lc) w' =
         (invalid_or_expired_refresh_token env, w')).
Proof.
  intros H201. apply register_201 in H201 as [_ (ka & kb & Ha & Hta & Hb & Htb & ->)].
  eexists _, _. cbn [fst snd cookies registration_successful].
  split; [reflexivity|].
  intros now ac lc. cbv zeta. rewrite !refresh_token_run.
  cbn [Cookies.refreshToken truthy_cookie Jwt.truthy].
  cbn [set_clock clock stored_by_register]. rewrite Hb, (verify_Signed kb _ now Htb).
  cbn [refresh_payload Jwt.exp Jwt.id].
  pose proof (clockTimestamp_within (clock w) now (7 * 24 * 60 * 60)) as [Hin Hout].
  match goal with
  | |- (?c1 -> ?A) /\ (?c2 -> ?B) /\ _ =>
      assert (Hyes : c1 -> A); [|assert (Hno : c2 -> B)]
  end.
  - intros Hnow. rewrite bool_decide_eq_false_2 by lia.
    unfold set_clock, stored_by_register. cbn [users clock]. rewrite lookup_insert_eq.
    cbn [registered_user User.refreshToken].
    rewrite bool_decide_eq_true_2 by reflexivity.
    rewrite Ha, Hta. reflexivity.
  - intros Hnow. rewrite bool_decide_eq_true_2 by lia. reflexivity.
  - split; [exact Hyes|]. split; [exact Hno|].
    split; intros Hnow; [apply Hyes, Hin, Hnow | apply Hno, Hout, Hnow].
Qed.

Lemma unique_email_find m k u e :
  unique_email m -> m !! k = Some u -> User.email u = e ->
  find_user (fun _ v => bool_decide (User.email v = e)) m = Some (k, u).
Proof.
  intros Hun Hk He.
  destruct (find_user_is_Some (fun _ v => bool_decide (User.email v = e)) m k u Hk)
    as [[k' u'] Hf]; [apply bool_decide_eq_true; exact He|].
  pose proof (find_user_Some _ _ _ _ Hf) as [Hk' He'].
  apply bool_decide_eq_true in He'.
  assert (k' = k) by (eapply Hun; eauto; congruence). subst k'.
  rewrite Hf. congruence.
Qed.

Lemma stream_prefix k data r :
  Bcrypt.stream (String.length k) data (k ++ r) = k.
Proof.
  induction k as [|c k IH]; [reflexivity|].
  change (String c k ++ r) with (String c (k ++ r)).
  cbn [String.length Bcrypt.stream]. rewrite IH. reflexivity.
Qed.

Lemma key_first_72 k x : String.length k = 72 -> Bcrypt.key (k ++ x) = k.
Proof.
  intros Hk. unfold Bcrypt.key. cbv zeta.
  replace ((k ++ x) ++ String Ascii.zero EmptyString)
    with (k ++ (x ++ String Ascii.zero EmptyString)).
  - rewrite <- Hk at 1. apply stream_prefix.
  - clear Hk. induction k as [|c k IH]; [reflexivity|].
    change (String c k ++ ?y) with (String c (k ++ y)). rewrite IH. reflexivity.
Qed.

Lemma compare_hash c p r s :
  Bcrypt.compare c (Bcrypt.hash (Bcrypt.Plain p) r s)
  = bool_decide (Bcrypt.key c = Bcrypt.key p).
Proof. reflexivity. Qed.

(** X4. Credentials round trip. After a 201 registration on a collection
    that satisfies the unique index, a login request that passes validation
    and whose email normalises to the registered one is answered 200 when
    its password has the bcrypt key of the registered password, and 401
    invalid-credentials when it has another key. The registered password
    itself is accepted, and so is every password that shares its first 72
    bytes: bcrypt reads no further. *)
Theorem register_then_login isEmail (env : Env) (b : RegisterBody.t) (w : World)
    (lb : LoginBody.t) (now : Z) :
  status (register isEmail env b w).1 = 201 ->
  unique_email (users w) ->
  login_errors isEmail lb = [] ->
  User.cast_email (LoginBody.email lb) = User.cast_email (Js.trim (RegisterBody.email b)) ->
  let w' := set_clock now (register isEmail env b w).2 in
  (forall c, LoginBody.password lb = Some c ->
     Bcrypt.key c = Bcrypt.key (RegisterBody.password b) ->
     status (login isEmail env lb w').1 = 200) /\
  (forall c, LoginBody.password lb = Some c ->
     Bcrypt.key c <> Bcrypt.key (RegisterBody.password b) ->
     login isEmail env lb w' = (invalid_credentials, w')) /\
  (LoginBody.password lb = Some (RegisterBody.password b) ->
   status (login isEmail env lb w').1 = 200) /\
  (forall k x y,
     String.length k = 72 ->
     RegisterBody.password b = k ++ x ->
     LoginBody.password lb = Some (k ++ y) ->
     status (login isEmail env lb w').1 = 200).
Proof.
  intros H201 Hun Herr Hem. cbv zeta.
  pose proof (register_unique_email isEmail env b w Hun) as Hun'.
  apply register_201 in H201 as [_ (ka & kb & Ha & Hta & Hb & Htb & Hrun)].
  rewrite Hrun in Hun' |- *. cbn [snd] in Hun' |- *.
  set (u := registered_user _ _ _ _ _ _) in *.
  assert (Hf : find_user
                 (fun _ v => bool_decide (User.email v = User.cast_email (LoginBody.email lb)))
                 (users (set_clock now (stored_by_register b w
                    (Some (Jwt.Signed kb (refresh_payload (next_oid w) (clock w)))))))
               = Some (next_oid w, u)).
  { apply unique_email_find; [exact Hun'| apply lookup_insert_eq |].
    rewrite Hem. reflexivity. }
  assert (Hsame : forall c, LoginBody.password lb = Some c ->
            Bcrypt.key c = Bcrypt.key (RegisterBody.password b) ->
            status (login isEmail env lb
                      (set_clock now (stored_by_register b w
                         (Some (Jwt.Signed kb (refresh_payload (next_oid w) (clock w))))))).1
            = 200).
  { intros c Hpw Hkey.
    destruct (login_ok isEmail env lb _ _ _ _ _ ka kb Herr Hf Hpw eq_refl)
      as (d & u' & -> & _); auto.
    rewrite compare_hash. apply bool_decide_eq_true. exact Hkey. }
  split; [exact Hsame|]. split; [|split].
  - intros c Hpw Hne.
    pose proof (login_spec isEmail env lb
                  (set_clock now (stored_by_register b w
                     (Some (Jwt.Signed kb (refresh_payload (next_oid w) (clock w))))))
                  Herr) as H.
    cbv zeta in H. rewrite Hf in H. cbn [snd] in H. rewrite Hpw in H.
    cbn [u registered_user User.password] in H.
    rewrite compare_hash, bool_decide_eq_false_2 in H by exact Hne. exact H.
  - intros Hpw. apply (Hsame _ Hpw). reflexivity.
  - intros k x y Hk Hp Hpw. apply (Hsame _ Hpw).
    rewrite Hp, !key_first_72 by exact Hk. reflexivity.
Qed.

Lemma login_200_inv isEmail env b w :
  status (login isEmail env b w).1 = 200 ->
  exists k u c h ka kb,
    login_errors isEmail b = [] /\
    find_user (fun _ v => bool_decide (User.email v = User.cast_email (LoginBody.email b)))
      (users w) = Some (k, u) /\
    LoginBody.password b = Some c /\ User.password u = Some h /\
    Bcrypt.compare c h = true /\ User.isActive u = true /\
    JWT_SECRET env = Some ka /\ Js.truthy ka = true /\
    REFRESH_TOKEN_SECRET env = Some kb /\ Js.truthy kb = true.
Proof.
  intros H200.
  destruct (login_errors isEmail b) eqn:Herr.
  2:{ revert H200. unfold login. rewrite Herr. cbn. discriminate. }
  pose proof (login_spec isEmail env b w Herr) as H. cbv zeta in H.
  destruct (find_user _ (users w)) as [[k u]|] eqn:Hf; [|rewrite H in H200; discriminate].
  cbn [snd] in H.
  destruct (LoginBody.password b) as [c|] eqn:Hc; [|rewrite H in H200; discriminate].
  destruct (User.password u) as [h|] eqn:Hh; [|rewrite H in H200; discriminate].
  destruct (Bcrypt.compare c h) eqn:Hcmp; [|rewrite H in H200; discriminate].
  destruct (User.isActive u) eqn:Hact; [|rewrite H in H200; discriminate].
  clear H. exists k, u, c, h.
  revert H200. unfold login. rewrite Herr.
  rewrite (bool_decide_eq_true_2 ([] = [])) by reflexivity. cbn [negb].
  unfold findOne_email. munfold. rewrite Hf. cbn [fmap option_fmap option_map].
  unfold comparePassword. rewrite Hc.
  cbn [hydrate fields fst snd User.password User.set_password User.set_refreshToken].
  rewrite Hh. munfold. rewrite Hcmp. cbn [negb].
  change (User.isActive (User.set_refreshToken _ (User.set_password _ u)))
    with (User.isActive u).
  rewrite Hact. cbn [negb].
  destruct (save _ w) as [[d1|e] w1]; [|discriminate].
  destruct (generateAuthTokens env d1 w1) as [[[d2 [a r]]|e] w2] eqn:Hg; [|discriminate].
  apply generateAuthTokens_inv in Hg as [_ (ka & kb & Ha & Hta & Hb & Htb & _)].
  intros _. exists ka, kb. auto 10.
Qed.

(** X5. A login replaces the stored refresh token. On a 200 the record
    found by email holds exactly the refresh token set in the cookie, its
    lastLogin is the time of the request and the rest of the account is as
    before; from then on a refresh with any other token of that user is
    answered 403 invalid-refresh-token. *)
Theorem login_rotates_refresh_token isEmail (env : Env) (b : LoginBody.t) (w : World) :
  status (login isEmail env b w).1 = 200 ->
  exists k u u' a r,
    find_user (fun _ v => bool_decide (User.email v = User.cast_email (LoginBody.email b)))
      (users w) = Some (k, u) /\
    cookies (login isEmail env b w).1 = setTokenCookies env a r /\
    users (login isEmail env b w).2 !! k = Some u' /\
    account u' = account u /\
    User.refreshToken u' = Some r /\
    User.lastLogin u' = Some (clock w) /\
    forall t p now ac lc,
      t <> r ->
      Jwt.verify t (REFRESH_TOKEN_SECRET env) now = Ok p ->
      Jwt.id p = k ->
      refresh_token env (Cookies.mk ac (Some t) lc)
        (set_clock now (login isEmail env b w).2)
      = (invalid_refresh_token, set_clock now (login isEmail env b w).2).
Proof.
  intros H200.
  apply login_200_inv in H200
    as (k & u & c & h & ka & kb & Herr & Hf & Hc & Hh & Hcmp & Hact & Ha & Hta & Hb & Htb).
  destruct (login_ok isEmail env b w k u c h ka kb) as (d & u' & -> & _ & Hacc & Hl & Hr);
    auto.
  exists k, u, u'. eexists _, _. cbn [fst snd cookies login_successful].
  split; [exact Hf|]. split; [reflexivity|]. split; [apply lookup_insert_eq|].
  split; [exact Hacc|]. split; [exact Hr|]. split; [exact Hl|].
  intros t p now ac lc Hne Hv Hid. rewrite refresh_token_run.
  cbn [Cookies.refreshToken truthy_cookie].
  rewrite (verify_Ok_truthy _ _ _ _ Hv).
  cbn [set_clock clock users set_users]. rewrite Hv, Hid, lookup_insert_eq, Hr.
  rewrite bool_decide_eq_false_2 by congruence. reflexivity.
Qed.

(** X6. Logout revokes. With a refresh cookie that verifies and whose subject
    has a record, logout clears that record's stored refresh token, whether
    or not the cookie was the stored one, and touches nothing else; until the next
    login every refresh for that user is answered 403. *)
Theorem logout_revokes (env : Env) (c : Cookies.t) (w : World)
    (t : Jwt.token) (p : Jwt.Payload) (u : User.t) :
  Cookies.refreshToken c = Some t ->
  Jwt.verify t (REFRESH_TOKEN_SECRET env) (clock w) = Ok p ->
  users w !! Jwt.id p = Some u ->
  let w' := (logout env c w).2 in
  (exists u', users w' !! Jwt.id p = Some u' /\
              User.refreshToken u' = None /\ account u' = account u) /\
  (forall k, k <> Jwt.id p -> users w' !! k = users w !! k) /\
  (forall t' p' now ac lc,
     Jwt.verify t' (REFRESH_TOKEN_SECRET env) now = Ok p' ->
     Jwt.id p' = Jwt.id p ->
     refresh_token env (Cookies.mk ac (Some t') lc) (set_clock now w')
     = (invalid_refresh_token, set_clock now w')).
Proof.
  intros Hc Hv Hu. cbv zeta. rewrite logout_run, Hc.
  cbn [truthy_cookie]. rewrite (verify_Ok_truthy _ _ _ _ Hv), Hv, Hu. cbn [snd].
  split; [|split].
  - eexists. split; [apply lookup_insert_eq|]. split; reflexivity.
  - intros k Hk. cbn [users set_users]. apply lookup_insert_ne. congruence.
  - intros t' p' now ac lc Hv' Hid. rewrite refresh_token_run.
    cbn [Cookies.refreshToken truthy_cookie].
    rewrite (verify_Ok_truthy _ _ _ _ Hv').
    cbn [set_clock clock users set_users]. rewrite Hv', Hid, lookup_insert_eq.
    reflexivity.
Qed.

(** X7. Logout without a usable cookie changes nothing. When the refresh
    cookie is absent, empty, does not verify, or names a user without a
    record, the world after logout is the world before. *)
Theorem logout_unverified_leaves_world (env : Env) (c : Cookies.t) (w : World) :
  (forall t p,
     truthy_cookie (Cookies.refreshToken c) = Some t ->
     Jwt.verify t (REFRESH_TOKEN_SECRET env) (clock w) = Ok p ->
     users w !! Jwt.id p = None) ->
  logout env c w = (logged_out env, w).
Proof.
  intros H. rewrite logout_run.
  destruct (truthy_cookie _) as [t|]; [|reflexivity].
  destruct (Jwt.verify _ _ _) as [p|e] eqn:Hv; [|reflexivity].
  rewrite (H t p eq_refl Hv). reflexivity.
Qed.

Lemma assign_refreshToken_session t d :
  isNew (assign_refreshToken t d) = isNew d /\
  (session_paths (modified d) -> session_paths (modified (assign_refreshToken t d))).
Proof.
  unfold assign_refreshToken. case_bool_decide; cbn; [auto|].
  split; [reflexivity|]. apply session_paths_mark. auto.
Qed.

Lemma assign_lastLogin_session now d :
  isNew (assign_lastLogin now d) = isNew d /\
  (session_paths (modified d) -> session_paths (modified (assign_lastLogin now d))).
Proof.
  unfold assign_lastLogin. case_bool_decide; cbn; [auto|].
  split; [reflexivity|]. apply session_paths_mark. auto.
Qed.

Lemma login_accounts isEmail env b w :
  accounts (login isEmail env b w).2 = accounts w.
Proof.
  unfold login. case_bool_decide; cbn [negb]; [|reflexivity].
  unfold findOne_email. munfold.
  destruct (find_user _ _) as [[k u]|]; cbn [fmap option_fmap option_map]; [|reflexivity].
  unfold comparePassword.
  destruct (LoginBody.password b) as [c|]; [|reflexivity].
  destruct (User.password (fields (hydrate true false (k, u)))) as [h|]; [|reflexivity].
  munfold. destruct (Bcrypt.compare c h); cbn [negb]; [|reflexivity].
  destruct (User.isActive _); cbn [negb]; [|reflexivity].
  destruct (save _ w) as [o1 w1] eqn:Hs1.
  apply save_loaded_accounts in Hs1 as (Ha1 & _ & Hd1).
  2:{ apply assign_lastLogin_session. }
  2:{ apply assign_lastLogin_session, session_paths_nil. }
  destruct o1 as [d1|e]; [|exact Ha1].
  destruct Hd1 as (Hn1 & Hm1 & _).
  destruct (generateAuthTokens env d1 w1) as [[[d2 [a r]]|e] w2] eqn:Hg;
    apply generateAuthTokens_inv in Hg as [-> Hg]; [|exact Ha1].
  destruct Hg as (ka & kb & _ & _ & _ & _ & Hg). injection Hg as -> -> ->.
  destruct (save _ w1) as [o2 w2] eqn:Hs2.
  apply save_loaded_accounts in Hs2 as (Ha2 & _).
  - destruct o2; cbn [snd]; congruence.
  - rewrite !(proj1 (assign_refreshToken_session _ _)). exact Hn1.
  - do 2 apply assign_refreshToken_session. rewrite Hm1. apply session_paths_nil.
Qed.

Lemma refresh_token_accounts env c w :
  accounts (refresh_token env c w).2 = accounts w.
Proof.
  rewrite refresh_token_run.
  destruct (truthy_cookie _) as [t|]; [|reflexivity].
  destruct (Jwt.verify _ _ _) as [p|e]; [|reflexivity].
  destruct (users w !! Jwt.id p) as [u|] eqn:Hu; [|reflexivity].
  case_bool_decide; [|reflexivity].
  destruct (JWT_SECRET env) as [ka|]; [|reflexivity].
  destruct (REFRESH_TOKEN_SECRET env) as [kb|]; [|reflexivity].
  destruct (Js.truthy ka); [|reflexivity].
  cbn [snd]. eapply accounts_insert_same; [exact Hu|reflexivity].
Qed.

Lemma logout_accounts env c w :
  accounts (logout env c w).2 = accounts w.
Proof.
  rewrite logout_run. cbn [snd].
  destruct (truthy_cookie _) as [t|]; [|reflexivity].
  destruct (Jwt.verify _ _ _) as [p|e]; [|reflexivity].
  destruct (users w !! Jwt.id p) as [u|] eqn:Hu; [|reflexivity].
  eapply accounts_insert_same; [exact Hu|reflexivity].
Qed.

(** X8. Login, refresh and logout never create, delete or alter an account:
    in every record only lastLogin, refreshToken and the timestamps can
    differ afterwards; name, email, password, verification and active
    flags, role, avatar and phone are as before, for every outcome of the
    request. *)
Theorem session_handlers_keep_accounts isEmail (env : Env)
    (b : LoginBody.t) (c : Cookies.t) (w : World) :
  accounts (login isEmail env b w).2 = accounts w /\
  accounts (refresh_token env c w).2 = accounts w /\
  accounts (logout env c w).2 = accounts w.
Proof.
  split; [apply login_accounts|].
  split; [apply refresh_token_accounts | apply logout_accounts].
Qed.

Lemma unique_email_accounts w w' :
  accounts w' = accounts w -> unique_email (users w) -> unique_email (users w').
Proof.
  intros Hacc Hun k1 k2 u1 u2 H1 H2 He.
  assert (Hlift : forall k u, users w' !! k = Some u ->
            exists u0, users w !! k = Some u0 /\ User.email u0 = User.email u).
  { intros k u Hk.
    assert (Ha : accounts w !! k = Some (account u)).
    { rewrite <- Hacc. unfold accounts. rewrite lookup_fmap, Hk. reflexivity. }
    unfold accounts in Ha. rewrite lookup_fmap in Ha.
    destruct (users w !! k) as [u0|]; [|discriminate].
    exists u0. split; [reflexivity|].
    pose proof (f_equal (fun o => User.email <$> o) Ha) as He'. cbn in He'.
    congruence. }
  destruct (Hlift _ _ H1) as (v1 & Hv1 & E1).
  destruct (Hlift _ _ H2) as (v2 & Hv2 & E2).
  eapply Hun; eauto. congruence.
Qed.

(** X9. The four routes of routes/auth.js keep the unique index on email:
    from a collection in which no two records share an email, each of
    register, login, refresh and logout leads to such a collection,
    whatever the request and its outcome. *)
Theorem auth_routes_keep_unique_email isEmail (env : Env)
    (rb : RegisterBody.t) (lb : LoginBody.t) (c : Cookies.t) (w : World) :
  unique_email (users w) ->
  unique_email (users (register isEmail env rb w).2) /\
  unique_email (users (login isEmail env lb w).2) /\
  unique_email (users (refresh_token env c w).2) /\
  unique_email (users (logout env c w).2).
Proof.
  intros Hun. split; [apply register_unique_email, Hun|].
  split; [|split]; eapply unique_email_accounts; eauto using login_accounts,
    refresh_token_accounts, logout_accounts.
Qed.

(** X10. A refused login has no effect. Whenever login answers anything but
    200 or 500, that is 400, 401 or 403, the world is unchanged: no
    lastLogin is written and no token is stored. *)
Theorem login_refused_leaves_world isEmail (env : Env) (b : LoginBody.t) (w : World) :
  status (login isEmail env b w).1 <> 200 ->
  status (login isEmail env b w).1 <> 500 ->
  (login isEmail env b w).2 = w /\
  cookies (login isEmail env b w).1 = [] /\
  (status (login isEmail env b w).1 = 400 \/
   status (login isEmail env b w).1 = 401 \/
   status (login isEmail env b w).1 = 403).
Proof.
  intros H200 H500.
  destruct (login_errors isEmail b) eqn:Herr.
  2:{ unfold login. rewrite Herr. cbn. auto. }
  pose proof (login_spec isEmail env b w Herr) as H. cbv zeta in H.
  destruct (find_user _ (users w)) as [[k u]|]; [|rewrite H; cbn; auto].
  cbn [snd] in H.
  destruct (LoginBody.password b) as [c|]; [|contradiction].
  destruct (User.password u) as [h|]; [|contradiction].
  destruct (Bcrypt.compare c h); [|rewrite H; cbn; auto].
  destruct (User.isActive u); [|rewrite H; cbn; auto 6].
  destruct H as [H | (d & d' & ka & kb & _ & _ & H)]; [contradiction|].
  rewrite H in H200. cbn in H200. contradiction.
Qed.

Lemma js_or_truthy a b :
  Jwt.truthy a = true -> truthy_cookie (js_or (Some a) b) = Some a.
Proof. intros H. unfold js_or. cbn. rewrite H. cbn. rewrite H. reflexivity. Qed.

(** X11. Deactivation does not end a session. For a record whose isActive
    flag is false, [protect] still attaches the user for an access token
    that verifies, and the refresh route still answers 200 and rotates for
    the stored refresh token: only login looks at the flag. *)
Theorem deactivated_keeps_session (env : Env) (w : World) (k : nat) (u : User.t) :
  users w !! k = Some u ->
  User.isActive u = false ->
  (forall a p rc lc,
     Jwt.verify a (JWT_SECRET env) (clock w) = Ok p -> Jwt.id p = k ->
     protect env (Cookies.mk (Some a) rc lc) w =
       (Next (hydrate false false (k, u)), w)) /\
  (forall t p ac lc,
     Jwt.verify t (REFRESH_TOKEN_SECRET env) (clock w) = Ok p -> Jwt.id p = k ->
     User.refreshToken u = Some t ->
     Js.env_truthy (JWT_SECRET env) = true ->
     status (refresh_token env (Cookies.mk ac (Some t) lc) w).1 = 200 /\
     exists u', users (refresh_token env (Cookies.mk ac (Some t) lc) w).2 !! k = Some u' /\
                User.isActive u' = false).
Proof.
  intros Hu Hact. split.
  - intros a p rc lc Hv Hid. rewrite protect_spec.
    cbn [Cookies.accessToken Cookies.token].
    rewrite (js_or_truthy _ _ (verify_Ok_truthy _ _ _ _ Hv)), Hv, Hid, Hu.
    reflexivity.
  - intros t p ac lc Hv Hid Hrt Ha. rewrite refresh_token_run.
    cbn [Cookies.refreshToken truthy_cookie].
    rewrite (verify_Ok_truthy _ _ _ _ Hv), Hv, Hid, Hu.
    rewrite bool_decide_eq_true_2 by exact Hrt.
    apply env_truthy_Some in Ha as (ka & -> & ->).
    apply verify_Ok_secret in Hv as (kb & -> & _).
    cbn [fst snd]. split; [reflexivity|].
    eexists. split; [apply lookup_insert_eq|]. exact Hact.
Qed.

(** X12. [verifyRefreshToken] never returns a user. It loads the record
    without its refreshToken path, so the comparison with the presented
    token always fails: for every token and every world it throws, with the
    message 'Refresh token expired' exactly when jwt.verify reported an
    expired token and 'Invalid refresh token' otherwise, and leaves the
    world as it is. *)
Theorem verifyRefreshToken_always_throws (env : Env) (t : Jwt.token) (w : World) :
  verifyRefreshToken env t w =
    (Throw (mkError "Error"
              (match Jwt.verify t (REFRESH_TOKEN_SECRET env) (clock w) with
               | Throw e =>
                   if bool_decide (name e = "TokenExpiredError")
                   then "Refresh token expired" else "Invalid refresh token"
               | Ok _ => "Invalid refresh token"
               end)), w).
Proof.
  unfold verifyRefreshToken. munfold.
  destruct (Js.env_truthy (REFRESH_TOKEN_SECRET env)) eqn:E; cbn [negb].
  - destruct t as [raw|k p]; cbn [Jwt.verify].
    + destruct (Js.truthy raw); reflexivity.
    + rewrite E. case_bool_decide as Hk; [|reflexivity].
      case_bool_decide as He; [reflexivity|].
      unfold findById. destruct (users w !! Jwt.id p) as [u|]; reflexivity.
  - destruct t as [raw|k p]; cbn [Jwt.verify].
    + destruct (Js.truthy raw); reflexivity.
    + rewrite E. reflexivity.
Qed.

(** X13. The admin gate reads the stored role, not the token. After
    [protect], [admin] lets the request through exactly when the record of
    the token's subject has role admin; the role claim inside the access
    token has no influence on the outcome. *)
Theorem admin_uses_stored_role (env : Env) (w : World) (k : string)
    (id : nat) (claim claim' : option Role) (iat exp : Z)
    (rc lc : option Jwt.token) (u : User.t) :
  users w !! id = Some u ->
  Jwt.verify (Jwt.Signed k (Jwt.mkPayload id claim iat exp)) (JWT_SECRET env) (clock w)
    = Ok (Jwt.mkPayload id claim iat exp) ->
  protect_admin env (Cookies.mk (Some (Jwt.Signed k (Jwt.mkPayload id claim iat exp))) rc lc) w
  = protect_admin env (Cookies.mk (Some (Jwt.Signed k (Jwt.mkPayload id claim' iat exp))) rc lc) w
  /\
  protect_admin env (Cookies.mk (Some (Jwt.Signed k (Jwt.mkPayload id claim iat exp))) rc lc) w
  = (if bool_decide (User.role u = Role_admin)
     then Next (hydrate false false (id, u))
     else Respond not_authorized_as_admin, w).
Proof.
  intros Hu Hv.
  apply verify_Ok_secret in Hv as (k' & Hk & Htk & Hkk & Hexp).
  injection Hkk as <-. cbn [Jwt.exp] in Hexp.
  unfold protect_admin. rewrite !protect_spec.
  cbn [Cookies.accessToken Cookies.token].
  rewrite !js_or_truthy by reflexivity.
  rewrite Hk, !verify_Signed by exact Htk.
  cbn [Jwt.exp Jwt.id]. rewrite bool_decide_eq_false_2 by lia.
  cbn [Jwt.id fst]. rewrite Hu. cbn [admin hydrate fields snd].
  change (User.role (User.set_refreshToken _ (User.set_password _ u))) with (User.role u).
  split; reflexivity.
Qed.

Lemma sign_verification env d w :
  Js.env_truthy (JWT_SECRET env) = true ->
  exists ka, JWT_SECRET env = Some ka /\ Js.truthy ka = true /\
    generateVerificationToken env d w =
      (Ok (Jwt.Signed ka (Jwt.mkPayload (_id d) None (Jwt.clockTimestamp (clock w))
                            (Jwt.clockTimestamp (clock w) + 24 * 60 * 60))), w) /\
    generatePasswordResetToken env d w =
      (Ok (Jwt.Signed ka (Jwt.mkPayload (_id d) None (Jwt.clockTimestamp (clock w))
                            (Jwt.clockTimestamp (clock w) + 60 * 60))), w).
Proof.
  intros Ha. apply env_truthy_Some in Ha as (ka & Ha & Hta). exists ka.
  split; [exact Ha|]. split; [exact Hta|].
  unfold generateVerificationToken, generatePasswordResetToken. munfold.
  unfold Jwt.sign. rewrite Ha, Hta. split; reflexivity.
Qed.

(** X14. [protect] does not tell token kinds apart. The email-verification
    token (24 hours) and the password-reset token (1 hour) are signed with
    the access secret, so [protect] accepts them as access tokens for their
    whole lifetime, well beyond the 15 minutes of an access token. *)
Theorem protect_accepts_other_token_kinds (env : Env) (d : Doc) (w : World) :
  Js.env_truthy (JWT_SECRET env) = true ->
  exists v r,
    generateVerificationToken env d w = (Ok v, w) /\
    generatePasswordResetToken env d w = (Ok r, w) /\
    forall now u rc lc,
      users w !! _id d = Some u ->
      ((Jwt.clockTimestamp now < Jwt.clockTimestamp (clock w) + 24 * 60 * 60)%Z ->
       protect env (Cookies.mk (Some v) rc lc) (set_clock now w) =
         (Next (hydrate false false (_id d, u)), set_clock now w)) /\
      ((Jwt.clockTimestamp now < Jwt.clockTimestamp (clock w) + 60 * 60)%Z ->
       protect env (Cookies.mk (Some r) rc lc) (set_clock now w) =
         (Next (hydrate false false (_id d, u)), set_clock now w)).
Proof.
  intros Ha. destruct (sign_verification env d w Ha) as (ka & Hka & Hta & Hv & Hr).
  eexists _, _. split; [exact Hv|]. split; [exact Hr|].
  intros now u rc lc Hu. rewrite !protect_spec.
  cbn [Cookies.accessToken Cookies.token].
  rewrite !js_or_truthy by reflexivity.
  cbn [set_clock clock users]. rewrite Hka, !verify_Signed by exact Hta.
  cbn [Jwt.exp Jwt.id].
  split; intros Hnow; rewrite bool_decide_eq_false_2 by lia;
    cbn [Jwt.id fst]; rewrite Hu; reflexivity.
Qed.

(** X15. The CORS decision does not depend on NODE_ENV. A request without an
    Origin header (or with an empty one) is let through in every
    environment, production included; any other origin is let through
    exactly when it is one of the six listed origins. *)
Theorem cors_origin_ignores_env (env env' : Env) (origin : option string) :
  cors_origin env origin = cors_origin env' origin /\
  (cors_origin env origin = Ok true <->
   no_origin origin = true \/ exists s, origin = Some s /\ s ∈ allowedOrigins) /\
  (cors_origin env origin <> Ok true ->
   cors_origin env origin = Throw (mkError "Error" "Not allowed by CORS")).
Proof.
  assert (H : forall e, cors_origin e origin =
            if no_origin origin || origin_included origin then Ok true
            else Throw (mkError "Error" "Not allowed by CORS")).
  { intros e. unfold cors_origin.
    destruct (no_origin origin), (production e), (origin_included origin); reflexivity. }
  rewrite !H. split; [reflexivity|]. split.
  - destruct (no_origin origin); cbn [orb]; [tauto|].
    unfold origin_included. destruct origin as [s|].
    + case_bool_decide as Hin.
      * split; [eauto|reflexivity].
      * split; [discriminate|]. intros [[=] | (s' & [= <-] & Hs)]. contradiction.
    + split; [discriminate|]. intros [[=] | (s' & [=] & _)].
  - destruct (no_origin origin || origin_included origin); [contradiction|reflexivity].
Qed.

Lemma create_default_admin_run w :
  create_default_admin w =
    (tt,
     match find_user (has_email "admin@example.com") (users w) with
     | Some _ => w
     | None =>
         match users w !! next_oid w with
         | Some _ => mkWorld (users w) (clock w) (S (next_oid w)) (S (S (next_salt w)))
         | None =>
             mkWorld (<[next_oid w := default_admin_record (next_salt w) (clock w)]> (users w))
               (clock w) (S (next_oid w)) (S (S (next_salt w)))
         end
     end).
Proof.
  unfold create_default_admin, findOne_email, new_User_with_role, new_ObjectId, genSalt.
  munfold.
  change (fun (_ : nat) (u : User.t) =>
            bool_decide (User.email u = User.cast_email "admin@example.com"))
    with (has_email "admin@example.com").
  destruct (find_user (has_email "admin@example.com") (users w)) eqn:Hf;
    cbn [fmap option_fmap option_map]; [reflexivity|].
  unfold save.
  replace (validateSync _) with (@None Error) by reflexivity.
  unfold pre_save, isModified.
  match goal with |- context [bool_decide ("password" ∈ ?l)] =>
    replace (bool_decide ("password" ∈ l)) with true by reflexivity end.
  cbn [negb]. unfold genSalt. munfold. cbn [fields User.password isNew _id].
  unfold insertOne. cbn [users next_oid next_salt clock].
  destruct (users w !! next_oid w); [reflexivity|].
  cbn [User.email User.set_timestamps User.set_password].
  change (fun (_ : nat) (v : User.t) =>
            bool_decide (User.email v = User.cast_email "admin@example.com"))
    with (has_email "admin@example.com").
  rewrite Hf. reflexivity.
Qed.

(** X16. The seeded administrator cannot log in with the seeded password.
    [startServer] hashes 'admin123' itself and the pre-save hook hashes the
    result again, so the stored password is a hash of a hash: a login
    request for admin@example.com with password 'admin123' is answered 401
    invalid-credentials, and running the seeding again changes nothing. *)
Theorem seeded_admin_cannot_login isEmail (env : Env) (w : World)
    (lb : LoginBody.t) (now : Z) :
  find_user (has_email "admin@example.com") (users w) = None ->
  users w !! next_oid w = None ->
  login_errors isEmail lb = [] ->
  User.cast_email (LoginBody.email lb) = "admin@example.com" ->
  LoginBody.password lb = Some "admin123" ->
  let w' := (create_default_admin w).2 in
  users w' !! next_oid w = Some (default_admin_record (next_salt w) (clock w)) /\
  login isEmail env lb (set_clock now w') = (invalid_credentials, set_clock now w') /\
  create_default_admin w' = (tt, w').
Proof.
  intros Hf Hoid Herr Hem Hpw. cbv zeta.
  rewrite (create_default_admin_run w), Hf, Hoid. cbn [snd].
  set (w' := mkWorld _ _ _ _).
  assert (Hl : users w' !! next_oid w = Some (default_admin_record (next_salt w) (clock w)))
    by apply lookup_insert_eq.
  assert (Hf' : find_user (has_email "admin@example.com") (users w')
                = Some (next_oid w, default_admin_record (next_salt w) (clock w))).
  { destruct (find_user_is_Some (has_email "admin@example.com") (users w') _ _ Hl eq_refl)
      as [[k u] Hk].
    pose proof (find_user_Some _ _ _ _ Hk) as [Hku He].
    destruct (decide (k = next_oid w)) as [->|Hne].
    - rewrite Hk. congruence.
    - exfalso. subst w'. cbn [users] in Hku. rewrite lookup_insert_ne in Hku by auto.
      rewrite (find_user_None _ _ _ _ Hf Hku) in He. discriminate. }
  split; [exact Hl|]. split.
  - pose proof (login_spec isEmail env lb (set_clock now w') Herr) as H. cbv zeta in H.
    rewrite Hem in H. change (fun _ u => bool_decide (User.email u = "admin@example.com"))
      with (has_email "admin@example.com") in H.
    change (users (set_clock now w')) with (users w') in H.
    rewrite Hf' in H. cbn [snd] in H. rewrite Hpw in H. exact H.
  - rewrite create_default_admin_run, Hf'. reflexivity.
Qed.

Lemma delete_user_run req_user param w :
  delete_user req_user param w =
    match param with
    | None => (user_not_found, w)
    | Some id =>
        match users w !! id with
        | None => (user_not_found, w)
        | Some _ =>
            if bool_decide (id = _id req_user) then (cannot_delete_own_account, w)
            else (user_removed, set_users (delete id (users w)) w)
        end
    end.
Proof.
  unfold delete_user, handle, cast_ObjectId, findById, remove. munfold.
  destruct param as [id|]; [|reflexivity].
  destruct (users w !! id); cbn [fmap option_fmap option_map]; [|reflexivity].
  cbn [hydrate _id fst]. case_bool_decide; reflexivity.
Qed.

(** X17. Deleting a user. An administrator cannot delete the own account
    (the world is unchanged); deleting another user's record removes that
    record and no other, and ends that user's sessions: [protect] answers
    invalid-access-token (log out) for any of the user's access tokens and
    the refresh route answers 403 for any of the user's refresh tokens. *)
Theorem delete_user_ends_sessions (env : Env) (req_user : Doc) (id : nat)
    (u : User.t) (w : World) :
  users w !! id = Some u ->
  (delete_user req_user (Some (_id req_user)) w).2 = w /\
  (id <> _id req_user ->
   let w' := (delete_user req_user (Some id) w).2 in
   (delete_user req_user (Some id) w).1 = user_removed /\
   users w' !! id = None /\
   (forall k, k <> id -> users w' !! k = users w !! k) /\
   (forall a p now rc lc,
      Jwt.verify a (JWT_SECRET env) now = Ok p -> Jwt.id p = id ->
      protect env (Cookies.mk (Some a) rc lc) (set_clock now w') =
        (Respond invalid_access_token, set_clock now w')) /\
   (forall t p now ac lc,
      Jwt.verify t (REFRESH_TOKEN_SECRET env) now = Ok p -> Jwt.id p = id ->
      refresh_token env (Cookies.mk ac (Some t) lc) (set_clock now w') =
        (invalid_refresh_token, set_clock now w'))).
Proof.
  intros Hu. split.
  - rewrite delete_user_run. destruct (users w !! _id req_user); [|reflexivity].
    rewrite bool_decide_eq_true_2 by reflexivity. reflexivity.
  - intros Hne. cbv zeta. rewrite delete_user_run, Hu.
    rewrite bool_decide_eq_false_2 by exact Hne. cbn [fst snd].
    split; [reflexivity|]. split; [apply lookup_delete_eq|].
    split; [intros k Hk; apply lookup_delete_ne; congruence|]. split.
    + intros a p now rc lc Hv Hid. rewrite protect_spec.
      cbn [Cookies.accessToken Cookies.token].
      rewrite (js_or_truthy _ _ (verify_Ok_truthy _ _ _ _ Hv)).
      cbn [set_clock clock users set_users]. rewrite Hv, Hid, lookup_delete_eq.
      reflexivity.
    + intros t p now ac lc Hv Hid. rewrite refresh_token_run.
      cbn [Cookies.refreshToken truthy_cookie].
      rewrite (verify_Ok_truthy _ _ _ _ Hv).
      cbn [set_clock clock users set_users]. rewrite Hv, Hid, lookup_delete_eq.
      reflexivity.
Qed.

Lemma toObject_loaded_clean k u :
  tokens_of (toObject (hydrate false false (k, u))) = [] /\
  hashes_of (toObject (hydrate false false (k, u))) = [] /\
  get "password" (toObject (hydrate false false (k, u))) = None /\
  get "refreshToken" (toObject (hydrate false false (k, u))) = None.
Proof.
  destruct u as [n e pw v a ll r av ph rt ca ua].
  destruct ll, ca, ua; repeat split; reflexivity.
Qed.

(** X18. The read routes of routes/users.js never show a credential. The
    bodies of GET /profile and GET /:id hold no bcrypt hash and no token,
    for every requester, parameter and world, and neither route changes the
    world; a parameter that is no ObjectId is answered 404 like a missing
    user. *)
Theorem user_reads_hide_credentials (req_user : Doc) (param : option nat) (w : World) :
  hashes_of (body (get_profile req_user w).1) = [] /\
  tokens_of (body (get_profile req_user w).1) = [] /\
  hashes_of (body (get_user param w).1) = [] /\
  tokens_of (body (get_user param w).1) = [] /\
  (get_profile req_user w).2 = w /\
  (get_user param w).2 = w /\
  get_user None w = (user_not_found, w).
Proof.
  unfold get_profile, get_user, handle, cast_ObjectId, findById. munfold.
  split; [|split; [|split; [|split; [|split; [|split]]]]].
  1,2,5: destruct (users w !! _id req_user) as [u|];
    cbn [fmap option_fmap option_map fst snd body]; try reflexivity;
    destruct (toObject_loaded_clean (_id req_user) u) as (Ht & Hh & _);
    cbn [tokens_of hashes_of flat_map snd]; rewrite ?Ht, ?Hh; reflexivity.
  1,2,3: destruct param as [id|]; try reflexivity;
    destruct (users w !! id) as [u|];
    cbn [fmap option_fmap option_map fst snd body]; try reflexivity;
    destruct (toObject_loaded_clean id u) as (Ht & Hh & _); assumption.
  reflexivity.
Qed.

(** ** The upload filter *)

Lemma starts_with_app n s y :
  Upload.starts_with n s = true -> Upload.starts_with n (s ++ y) = true.
Proof.
  revert s. induction n as [|a n IH]; intros s; [reflexivity|].
  destruct s as [|b s]; cbn [Upload.starts_with]; [discriminate|].
  change (String b s ++ y) with (String b (s ++ y)). cbn [Upload.starts_with].
  intros H. apply andb_true_iff in H as [H1 H2].
  rewrite H1. cbn [andb]. apply IH, H2.
Qed.

Lemma includes_app_r n s y :
  Upload.includes n s = true -> Upload.includes n (s ++ y) = true.
Proof.
  induction s as [|b s IH]; cbn [Upload.includes].
  - rewrite orb_false_r. intros H. destruct n; [|discriminate].
    destruct y; reflexivity.
  - intros H. apply orb_true_iff in H as [H|H].
    + pose proof (starts_with_app n (String b s) y H) as H'.
      change (String b s ++ y) with (String b (s ++ y)) in H' |- *.
      cbn [Upload.includes]. rewrite H'. reflexivity.
    + change (String b s ++ y) with (String b (s ++ y)).
      cbn [Upload.includes]. rewrite (IH H). apply orb_true_r.
Qed.

Lemma includes_app_l n x s :
  Upload.includes n s = true -> Upload.includes n (x ++ s) = true.
Proof.
  intros H. induction x as [|c x IH]; [exact H|].
  change (String c x ++ s) with (String c (x ++ s)).
  cbn [Upload.includes]. rewrite IH. apply orb_true_r.
Qed.

Lemma includes_pad n x s y :
  Upload.includes n s = true -> Upload.includes n (x ++ s ++ y) = true.
Proof. intros H. apply includes_app_l, includes_app_r, H. Qed.

Lemma starts_with_prefix a b s :
  Upload.starts_with (a ++ b) s = true -> Upload.starts_with a s = true.
Proof.
  revert s. induction a as [|c a IH]; intros s; [reflexivity|].
  change (String c a ++ b) with (String c (a ++ b)).
  destruct s as [|d s]; cbn [Upload.starts_with]; [discriminate|].
  intros H. apply andb_true_iff in H as [H1 H2]. rewrite H1. cbn [andb]. apply IH, H2.
Qed.

Lemma includes_prefix a b s :
  Upload.includes (a ++ b) s = true -> Upload.includes a s = true.
Proof.
  induction s as [|d s IH]; cbn [Upload.includes]; intros H;
    apply orb_true_iff in H as [H|H].
  - rewrite (starts_with_prefix a b _ H). reflexivity.
  - discriminate.
  - rewrite (starts_with_prefix a b _ H). reflexivity.
  - rewrite (IH H). apply orb_true_r.
Qed.

Lemma filetypes_test_pad x s y :
  Upload.filetypes_test s = true -> Upload.filetypes_test (x ++ s ++ y) = true.
Proof.
  unfold Upload.filetypes_test. rewrite !orb_true_iff.
  intros [[[[H|H]|H]|H]|H]; rewrite (includes_pad _ x s y H); auto.
Qed.

Lemma mimetypes_test_pad x s y :
  Upload.mimetypes_test s = true -> Upload.mimetypes_test (x ++ s ++ y) = true.
Proof.
  unfold Upload.mimetypes_test. rewrite !orb_true_iff.
  intros [[[[H|H]|H]|H]|H]; rewrite (includes_pad _ x s y H); auto.
Qed.

Lemma fileFilter_Ok extname n m :
  Upload.fileFilter extname n m = Ok true <->
  Upload.filetypes_test (Js.toLowerCase (extname n)) = true /\
  Upload.mimetypes_test m = true.
Proof.
  unfold Upload.fileFilter.
  destruct (Upload.filetypes_test _), (Upload.mimetypes_test m); cbn;
    split; try tauto; try discriminate; intros [? ?]; discriminate.
Qed.

(** X19. The upload filter tests by containment, not equality. A file is
    accepted only if its MIME type contains 'image/'; and once a file is
    accepted, so is every file whose MIME type and lower-cased extension
    merely contain the accepted ones, whatever surrounds them; any other
    file is refused with the error 'Only image files are allowed!'. *)
Theorem fileFilter_by_containment (extname : string -> string)
    (n m : string) :
  (Upload.fileFilter extname n m = Ok true ->
   Upload.includes "image/" m = true /\
   forall n' x y a b,
     Js.toLowerCase (extname n') = x ++ Js.toLowerCase (extname n) ++ y ->
     Upload.fileFilter extname n' (a ++ m ++ b) = Ok true) /\
  (Upload.fileFilter extname n m <> Ok true ->
   Upload.fileFilter extname n m =
     Throw (mkError "Error" "Only image files are allowed!")).
Proof.
  split.
  - intros H. apply fileFilter_Ok in H as [He Hm]. split.
    + revert Hm. unfold Upload.mimetypes_test. rewrite !orb_true_iff.
      intros [[[[H|H]|H]|H]|H].
      * apply (includes_prefix "image/" "jpg"), H.
      * apply (includes_prefix "image/" "jpeg"), H.
      * apply (includes_prefix "image/" "png"), H.
      * apply (includes_prefix "image/" "webp"), H.
      * apply (includes_prefix "image/" "gif"), H.
    + intros n' x y a b Hext. apply fileFilter_Ok. rewrite Hext.
      split; [apply filetypes_test_pad, He | apply mimetypes_test_pad, Hm].
  - unfold Upload.fileFilter.
    destruct (_ && _); [contradiction|reflexivity].
Qed.

End Further.

(** * The further properties on the small deployment *)

Section FurtherOnTheFixture.

#[local] Existing Instance Fixture.engine.

(** Alice registered 123 ms into a second: her access token expires 123 ms
    before the fifteen minutes are over. *)
Lemma register_then_protect_witness :
  exists a r u,
    cookies (register Fixture.isEmail Fixture.env Fixture.alice Fixture.empty_world).1
      = setTokenCookies Fixture.env a r /\
    users Fixture.world1 !! 1 = Some u /\
    protect Fixture.env (Cookies.mk (Some a) None None)
      (set_clock (Fixture.t0 + Fixture.minutes 14) Fixture.world1)
    = (Next (mkDoc 1 (User.set_refreshToken None (User.set_password None u)) false []),
       set_clock (Fixture.t0 + Fixture.minutes 14) Fixture.world1) /\
    protect Fixture.env (Cookies.mk (Some a) None None)
      (set_clock (Fixture.t0 + Fixture.minutes 15 - 123) Fixture.world1)
    = (Respond access_token_expired,
       set_clock (Fixture.t0 + Fixture.minutes 15 - 123) Fixture.world1) /\
    protect Fixture.env (Cookies.mk (Some a) None None)
      (set_clock (Fixture.t0 + Fixture.minutes 15) Fixture.world1)
    = (Respond access_token_expired,
       set_clock (Fixture.t0 + Fixture.minutes 15) Fixture.world1).
Proof.
  destruct (register_then_protect (engine:=Fixture.engine) Fixture.isEmail Fixture.env
              Fixture.alice Fixture.empty_world) as (a & r & u & Hc & Hu & H);
    [decide_closed|].
  exists a, r, u. split; [exact Hc|]. split; [exact Hu|]. split; [|split].
  - destruct (H (Fixture.t0 + Fixture.minutes 14)%Z None None) as (_ & _ & H14 & _).
    apply H14. decide_closed.
  - destruct (H (Fixture.t0 + Fixture.minutes 15 - 123)%Z None None) as (_ & Hs & _).
    apply Hs. decide_closed.
  - destruct (H (Fixture.t0 + Fixture.minutes 15)%Z None None) as (_ & _ & _ & H15).
    apply H15. decide_closed.
Defined.

Lemma register_then_refresh_witness :
  exists a r,
    cookies (register Fixture.isEmail Fixture.env Fixture.alice Fixture.empty_world).1
      = setTokenCookies Fixture.env a r /\
    status (refresh_token Fixture.env (Cookies.mk None (Some r) None)
              (set_clock (Fixture.t0 + Fixture.days 6) Fixture.world1)).1 = 200 /\
    refresh_token Fixture.env (Cookies.mk None (Some r) None)
      (set_clock (Fixture.t0 + Fixture.days 7 - 100) Fixture.world1)
    = (invalid_or_expired_refresh_token Fixture.env,
       set_clock (Fixture.t0 + Fixture.days 7 - 100) Fixture.world1) /\
    refresh_token Fixture.env (Cookies.mk None (Some r) None)
      (set_clock (Fixture.t0 + Fixture.days 7) Fixture.world1)
    = (invalid_or_expired_refresh_token Fixture.env,
       set_clock (Fixture.t0 + Fixture.days 7) Fixture.world1).
Proof.
  destruct (register_then_refresh (engine:=Fixture.engine) Fixture.isEmail Fixture.env
              Fixture.alice Fixture.empty_world) as (a & r & Hc & H);
    [decide_closed|].
  exists a, r. split; [exact Hc|]. split; [|split].
  - destruct (H (Fixture.t0 + Fixture.days 6)%Z None None) as (_ & _ & H6 & _).
    apply H6. decide_closed.
  - destruct (H (Fixture.t0 + Fixture.days 7 - 100)%Z None None) as (_ & Hs & _).
    apply Hs. decide_closed.
  - destruct (H (Fixture.t0 + Fixture.days 7)%Z None None) as (_ & _ & _ & H7).
    apply H7. decide_closed.
Defined.

(** Alice logs in with her password and is refused with another. Carol's
    password has 76 bytes: a password that differs after the 72nd byte is
    accepted, one that differs before it is refused. *)
Lemma register_then_login_witness :
  status (login Fixture.isEmail Fixture.env Scenario.alice_trimmed_login
            (set_clock (Fixture.t0 + Fixture.days 30) Fixture.world1)).1 = 200 /\
  login Fixture.isEmail Fixture.env Fixture.alice_wrong_password
    (set_clock (Fixture.t0 + Fixture.days 30) Fixture.world1)
  = (invalid_credentials, set_clock (Fixture.t0 + Fixture.days 30) Fixture.world1) /\
  status (register Fixture.isEmail Fixture.env Scenario.carol Fixture.world1).1 = 201 /\
  status (login Fixture.isEmail Fixture.env Scenario.carol_other_tail
            (set_clock (Fixture.t0 + Fixture.days 1)
               (register Fixture.isEmail Fixture.env Scenario.carol Fixture.world1).2)).1
    = 200 /\
  login Fixture.isEmail Fixture.env Scenario.carol_other_head
    (set_clock (Fixture.t0 + Fixture.days 1)
       (register Fixture.isEmail Fixture.env Scenario.carol Fixture.world1).2)
  = (invalid_credentials,
     set_clock (Fixture.t0 + Fixture.days 1)
       (register Fixture.isEmail Fixture.env Scenario.carol Fixture.world1).2).
Proof.
  assert (Hun : unique_email (users Fixture.world1))
    by (apply (register_unique_email Fixture.isEmail Fixture.env Fixture.alice
                 Fixture.empty_world); exact unique_email_empty).
  split; [|split; [|split; [|split]]].
  - apply (register_then_login (engine:=Fixture.engine) Fixture.isEmail Fixture.env
             Fixture.alice Fixture.empty_world Scenario.alice_trimmed_login
             (Fixture.t0 + Fixture.days 30)%Z);
      first [exact unique_email_empty | decide_closed].
  - apply (register_then_login (engine:=Fixture.engine) Fixture.isEmail Fixture.env
             Fixture.alice Fixture.empty_world Fixture.alice_wrong_password
             (Fixture.t0 + Fixture.days 30)%Z) with (c := "incorrect horse");
      first [exact unique_email_empty | decide_closed].
  - decide_closed.
  - destruct (register_then_login (engine:=Fixture.engine) Fixture.isEmail Fixture.env
                Scenario.carol Fixture.world1 Scenario.carol_other_tail
                (Fixture.t0 + Fixture.days 1)%Z) as (_ & _ & _ & H);
      [decide_closed | exact Hun | decide_closed | decide_closed |].
    apply (H Scenario.x72 "AAAA" "BBBB"); reflexivity.
  - destruct (register_then_login (engine:=Fixture.engine) Fixture.isEmail Fixture.env
                Scenario.carol Fixture.world1 Scenario.carol_other_head
                (Fixture.t0 + Fixture.days 1)%Z) as (_ & H & _);
      [decide_closed | exact Hun | decide_closed | decide_closed |].
    apply (H ("y" ++ Scenario.x72 ++ "AAAA")); [reflexivity|].
    vm_compute. discriminate.
Defined.

Lemma register_not_atomic_witness :
  status (register Fixture.isEmail Scenario.env_no_refresh_secret Fixture.alice
            Fixture.empty_world).1 = 500 /\
  (exists u,
     users (register Fixture.isEmail Scenario.env_no_refresh_secret Fixture.alice
              Fixture.empty_world).2 !! 1 = Some u /\
     User.email u = "alice@example.com") /\
  (register Fixture.isEmail Scenario.env_no_refresh_secret Fixture.alice
     (register Fixture.isEmail Scenario.env_no_refresh_secret Fixture.alice
        Fixture.empty_world).2).1 = email_already_registered.
Proof.
  destruct (register_not_atomic (engine:=Fixture.engine) Fixture.isEmail Scenario.env_no_refresh_secret
              Fixture.env Fixture.alice Fixture.empty_world)
    as (H500 & (u & Hu & He & _) & Hretry & _);
    [decide_closed..|].
  split; [exact H500|]. split.
  - exists u. split; [exact Hu|]. rewrite He. decide_closed.
  - rewrite Hretry. reflexivity.
Defined.

Lemma login_rotates_refresh_token_witness :
  exists u' a r,
    cookies (login Fixture.isEmail Fixture.env Fixture.alice_login
               (set_clock (Fixture.t0 + Fixture.minutes 1) Fixture.world1)).1
      = setTokenCookies Fixture.env a r /\
    users Fixture.world2 !! 1 = Some u' /\
    User.refreshToken u' = Some r /\
    refresh_token Fixture.env (Cookies.mk None (Some Fixture.alice_refresh) None)
      (set_clock (Fixture.t0 + Fixture.minutes 2) Fixture.world2)
    = (invalid_refresh_token, set_clock (Fixture.t0 + Fixture.minutes 2) Fixture.world2).
Proof.
  destruct (login_rotates_refresh_token (engine:=Fixture.engine) Fixture.isEmail Fixture.env Fixture.alice_login
              (set_clock (Fixture.t0 + Fixture.minutes 1) Fixture.world1))
    as (k & u & u' & a & r & Hf & Hc & Hu & _ & Hr & _ & H);
    [decide_closed|].
  vm_compute in Hf. injection Hf as <- _.
  exists u', a, r. split; [exact Hc|]. split; [exact Hu|]. split; [exact Hr|].
  apply (H Fixture.alice_refresh (Jwt.mkPayload 1 None 1700000000 1700604800)).
  - intros Heq. subst r. revert Hc. vm_compute. discriminate.
  - decide_closed.
  - reflexivity.
Defined.

Lemma login_refused_leaves_world_witness :
  (login Fixture.isEmail Fixture.env Fixture.alice_wrong_password Fixture.world1).2
    = Fixture.world1 /\
  (login Fixture.isEmail Fixture.env Fixture.alice_login Fixture.world_deactivated).2
    = Fixture.world_deactivated.
Proof.
  split.
  - apply (login_refused_leaves_world (engine:=Fixture.engine) Fixture.isEmail Fixture.env
             Fixture.alice_wrong_password Fixture.world1); decide_closed.
  - apply (login_refused_leaves_world (engine:=Fixture.engine) Fixture.isEmail Fixture.env
             Fixture.alice_login Fixture.world_deactivated); decide_closed.
Defined.

(** Alice logs out with the token of her registration although she has
    logged in again since: the newer token is revoked all the same. *)
Lemma logout_revokes_witness :
  (exists u', users (logout Fixture.env (Fixture.refresh_cookie Fixture.alice_refresh)
                       Fixture.world2).2 !! 1 = Some u' /\
              User.refreshToken u' = None) /\
  User.refreshToken <$> (users Fixture.world2 !! 1) = Some (Some Scenario.alice_refresh2) /\
  refresh_token Fixture.env (Fixture.refresh_cookie Scenario.alice_refresh2)
    (set_clock (Fixture.t0 + Fixture.minutes 3)
       (logout Fixture.env (Fixture.refresh_cookie Fixture.alice_refresh)
          Fixture.world2).2)
  = (invalid_refresh_token,
     set_clock (Fixture.t0 + Fixture.minutes 3)
       (logout Fixture.env (Fixture.refresh_cookie Fixture.alice_refresh)
          Fixture.world2).2).
Proof.
  destruct (users Fixture.world2 !! 1) as [u|] eqn:Hu; [|vm_compute in Hu; discriminate].
  destruct (logout_revokes Fixture.env (Fixture.refresh_cookie Fixture.alice_refresh)
              Fixture.world2 Fixture.alice_refresh
              (Jwt.mkPayload 1 None 1700000000 1700604800) u)
    as ((u' & Hu' & Hr & _) & _ & H); [reflexivity | decide_closed | exact Hu |].
  split; [exists u'; auto|]. split.
  - vm_compute in Hu. injection Hu as <-. reflexivity.
  - apply (H _ (Jwt.mkPayload 1 None 1700000060 1700604860)
             (Fixture.t0 + Fixture.minutes 3)%Z None None); decide_closed.
Defined.

Lemma logout_unverified_leaves_world_witness :
  logout Fixture.env (Fixture.refresh_cookie Fixture.alice_refresh)
    Fixture.world1_after_8_days
  = (logged_out Fixture.env, Fixture.world1_after_8_days) /\
  logout Fixture.env Fixture.no_cookies Fixture.world1
  = (logged_out Fixture.env, Fixture.world1).
Proof.
  split.
  - apply logout_unverified_leaves_world. intros t p [= <-] Hv.
    vm_compute in Hv. discriminate.
  - apply logout_unverified_leaves_world. intros t p Ht. discriminate.
Defined.

Lemma auth_routes_keep_unique_email_witness :
  unique_email (users Fixture.world1) /\
  unique_email (users Scenario.world_before_promotion).
Proof.
  assert (H1 : unique_email (users Fixture.world1)).
  { apply (auth_routes_keep_unique_email (engine:=Fixture.engine) Fixture.isEmail Fixture.env Fixture.alice
             Fixture.alice_login Fixture.no_cookies Fixture.empty_world).
    exact unique_email_empty. }
  split; [exact H1|].
  apply (auth_routes_keep_unique_email (engine:=Fixture.engine) Fixture.isEmail Fixture.env Scenario.bob
           Fixture.alice_login Fixture.no_cookies Fixture.world1).
  exact H1.
Defined.

Lemma deactivated_keeps_session_witness :
  (exists d, protect Fixture.env (Fixture.access_cookie Fixture.alice_access)
               Fixture.world_deactivated = (Next d, Fixture.world_deactivated) /\
             User.isActive (fields d) = false) /\
  status (refresh_token Fixture.env (Fixture.refresh_cookie Fixture.alice_refresh)
            Fixture.world_deactivated).1 = 200.
Proof.
  destruct (users Fixture.world_deactivated !! 1) as [u|] eqn:Hu;
    [|vm_compute in Hu; discriminate].
  assert (Hact : User.isActive u = false).
  { vm_compute in Hu. injection Hu as <-. reflexivity. }
  destruct (deactivated_keeps_session Fixture.env Fixture.world_deactivated 1 u Hu Hact)
    as [Hp Hr].
  split.
  - eexists. split.
    + apply (Hp Fixture.alice_access
               (Jwt.mkPayload 1 (Some Role_user) 1700000000 1700000900) None None);
        decide_closed.
    + exact Hact.
  - apply (Hr Fixture.alice_refresh (Jwt.mkPayload 1 None 1700000000 1700604800)
             None None); try decide_closed.
    vm_compute in Hu. injection Hu as <-. reflexivity.
Defined.

(** Bob's access token says role user, his record says admin: he passes.
    Alice's forged-looking claim of role admin does not help her. *)
Lemma admin_uses_stored_role_witness :
  (exists d, protect_admin Fixture.env (Fixture.access_cookie Scenario.bob_access)
               Scenario.world_two_users = (Next d, Scenario.world_two_users)) /\
  protect_admin Fixture.env
    (Fixture.access_cookie
       (Jwt.Signed "secret-A" (Jwt.mkPayload 1 (Some Role_admin) 1700000000 1700000900)))
    Scenario.world_two_users
  = (Respond not_authorized_as_admin, Scenario.world_two_users).
Proof.
  split.
  - destruct (users Scenario.world_two_users !! 2) as [u|] eqn:Hu;
      [|vm_compute in Hu; discriminate].
    destruct (admin_uses_stored_role Fixture.env Scenario.world_two_users "secret-A"
                2 (Some Role_user) None 1700000000 1700000900 None None u Hu)
      as [_ H]; [decide_closed|].
    eexists. unfold Scenario.bob_access, Fixture.access_cookie. rewrite H.
    vm_compute in Hu. injection Hu as <-. reflexivity.
  - destruct (users Scenario.world_two_users !! 1) as [u|] eqn:Hu;
      [|vm_compute in Hu; discriminate].
    destruct (admin_uses_stored_role Fixture.env Scenario.world_two_users "secret-A"
                1 (Some Role_admin) None 1700000000 1700000900 None None u Hu)
      as [_ H]; [decide_closed|].
    unfold Fixture.access_cookie. rewrite H.
    vm_compute in Hu. injection Hu as <-. reflexivity.
Defined.

Lemma protect_accepts_other_token_kinds_witness :
  exists v d,
    generateVerificationToken Fixture.env (hydrate false false (1, Scenario.nobody)) Fixture.world1
      = (Ok v, Fixture.world1) /\
    protect Fixture.env (Fixture.access_cookie v)
      (set_clock (Fixture.t0 + Fixture.minutes (23 * 60)) Fixture.world1)
    = (Next d, set_clock (Fixture.t0 + Fixture.minutes (23 * 60)) Fixture.world1).
Proof.
  destruct (protect_accepts_other_token_kinds Fixture.env
              (hydrate false false (1, Scenario.nobody)) Fixture.world1 eq_refl)
    as (v & r & Hv & _ & H).
  destruct (users Fixture.world1 !! 1) as [u|] eqn:Hu; [|vm_compute in Hu; discriminate].
  exists v. eexists. split; [exact Hv|].
  destruct (H (Fixture.t0 + Fixture.minutes (23 * 60))%Z u None None Hu) as [Hp _].
  apply Hp. decide_closed.
Defined.

Lemma cors_origin_ignores_env_witness :
  cors_origin Scenario.env_no_refresh_secret (Some "http://localhost:5173")
    = cors_origin Fixture.env (Some "http://localhost:5173") /\
  cors_origin Fixture.env (Some "http://localhost:5173") = Ok true /\
  cors_origin Fixture.env (Some "https://shop.example")
    = Throw (mkError "Error" "Not allowed by CORS").
Proof.
  destruct (cors_origin_ignores_env Scenario.env_no_refresh_secret Fixture.env
              (Some "http://localhost:5173")) as (Heq & _ & _).
  destruct (cors_origin_ignores_env Fixture.env Fixture.env
              (Some "http://localhost:5173")) as (_ & [_ Hok] & _).
  destruct (cors_origin_ignores_env Fixture.env Fixture.env
              (Some "https://shop.example")) as (_ & _ & Hno).
  split; [exact Heq|]. split.
  - apply Hok. right. eexists. split; [reflexivity|]. apply list_elem_of_In.
    vm_compute. tauto.
  - apply Hno. decide_closed.
Defined.

Lemma seeded_admin_cannot_login_witness :
  (exists u, users (create_default_admin Fixture.world1).2 !! 2 = Some u /\
             User.role u = Role_admin) /\
  login Fixture.isEmail Fixture.env Scenario.admin_login
    (set_clock (Fixture.t0 + Fixture.minutes 1) (create_default_admin Fixture.world1).2)
  = (invalid_credentials,
     set_clock (Fixture.t0 + Fixture.minutes 1) (create_default_admin Fixture.world1).2).
Proof.
  pose proof (seeded_admin_cannot_login (engine:=Fixture.engine) Fixture.isEmail Fixture.env Fixture.world1
                Scenario.admin_login (Fixture.t0 + Fixture.minutes 1)%Z
                eq_refl eq_refl eq_refl eq_refl eq_refl) as H.
  cbv zeta in H. destruct H as (Hu & Hl & _).
  split; [eexists; split; [exact Hu|reflexivity] | exact Hl].
Defined.

Lemma delete_user_ends_sessions_witness :
  (delete_user (hydrate false false (2, Scenario.nobody)) (Some 2)
     Scenario.world_two_users).2 = Scenario.world_two_users /\
  (delete_user (hydrate false false (2, Scenario.nobody)) (Some 1)
     Scenario.world_two_users).1 = user_removed /\
  protect Fixture.env (Fixture.access_cookie Fixture.alice_access)
    (set_clock Fixture.t0
       (delete_user (hydrate false false (2, Scenario.nobody)) (Some 1)
          Scenario.world_two_users).2)
  = (Respond invalid_access_token,
     set_clock Fixture.t0
       (delete_user (hydrate false false (2, Scenario.nobody)) (Some 1)
          Scenario.world_two_users).2).
Proof.
  destruct (users Scenario.world_two_users !! 1) as [u|] eqn:Hu;
    [|vm_compute in Hu; discriminate].
  destruct (delete_user_ends_sessions Fixture.env (hydrate false false (2, Scenario.nobody))
              1 u Scenario.world_two_users Hu) as [Hself H].
  assert (Hne : 1 <> _id (hydrate false false (2, Scenario.nobody))) by discriminate.
  specialize (H Hne). cbv zeta in H. destruct H as (Hres & _ & _ & Hp & _).
  split; [exact Hself|]. split; [exact Hres|].
  apply (Hp Fixture.alice_access (Jwt.mkPayload 1 (Some Role_user) 1700000000 1700000900)
            Fixture.t0 None None); decide_closed.
Defined.

Lemma fileFilter_by_containment_witness :
  Upload.fileFilter Scenario.extname "photos/cat.png" "image/png" = Ok true /\
  Upload.fileFilter Scenario.extname "cat.PNGX" "ximage/png; charset=x" = Ok true /\
  Upload.fileFilter Scenario.extname "cat.png" "IMAGE/PNG"
    = Throw (mkError "Error" "Only image files are allowed!").
Proof.
  assert (H0 : Upload.fileFilter Scenario.extname "photos/cat.png" "image/png" = Ok true)
    by reflexivity.
  destruct (fileFilter_by_containment (engine:=Fixture.engine) Scenario.extname "photos/cat.png" "image/png")
    as [H _].
  destruct (H H0) as [_ Hpad].
  split; [exact H0|]. split.
  - apply (Hpad "cat.PNGX" "" "x" "x" "; charset=x"). reflexivity.
  - destruct (fileFilter_by_containment (engine:=Fixture.engine) Scenario.extname "cat.png" "IMAGE/PNG")
      as [_ H']. apply H'. decide_closed.
Defined.

End FurtherOnTheFixture.
